(** * x402-defi-yield-api: payment gateway, yield aggregation, risk scoring

    A shallow embedding of [src/server.ts], [src/yield.ts], [src/portfolio.ts]
    and the price helper [pyth.ts].  JavaScript numbers are IEEE-754 binary64
    values, so they are modelled by Rocq's primitive floats; [undefined] is
    [None]; a [try]/[catch] becomes a match on an exception monad. *)

From Stdlib Require Import List String Ascii Bool ZArith PArith NArith Lia Permutation.
From Stdlib Require Import Sorted.
From Stdlib Require Import PrimFloat SpecFloat FloatOps FloatAxioms.
From Stdlib Require Uint63.
Import ListNotations.
Open Scope string_scope.
Open Scope float_scope.

Set Implicit Arguments.
Set Warnings "-register-all,-inexact-float".

(** ** The JavaScript runtime *)

Module JS.

Definition number := float.

(** Values produced by [JSON.parse]. An object is the list of its own
    properties (keys are unique in a parsed object). *)
Inductive json : Type :=
| JNull
| JBool (b : bool)
| JNum (n : number)
| JStr (s : string)
| JArr (items : list json)
| JObj (props : list (string * json)).

(** A JavaScript value as the gateway sees it: [None] is [undefined]. *)
Definition value := option json.

Definition undefined : value := None.

(** ToBoolean. *)
Definition truthy (v : value) : bool :=
  match v with
  | None => false
  | Some JNull => false
  | Some (JBool b) => b
  | Some (JNum n) => negb (is_zero n || is_nan n)
  | Some (JStr s) => negb (String.eqb s "")
  | Some (JArr _) => true
  | Some (JObj _) => true
  end.

(** [a || b]. *)
Definition or_ (a b : value) : value := if truthy a then a else b.

Fixpoint lookup (k : string) (props : list (string * json)) : value :=
  match props with
  | [] => None
  | (k', v) :: rest => if String.eqb k k' then Some v else lookup k rest
  end.

(** [v.k] for [v] different from [null] and [undefined]. None of the keys
    read by this program is a property of a primitive wrapper or of
    [Array.prototype] / [Object.prototype], so only own properties of
    objects are found. *)
Definition get (v : json) (k : string) : value :=
  match v with
  | JObj props => lookup k props
  | _ => None
  end.

(** The parts of the runtime that the program calls and that are not
    written out here. *)
Record Runtime := {
  (** [JSON.parse]; [None] when it throws a SyntaxError. *)
  JSON_parse : string -> option json;
  (** StringToNumber, as applied by [Number(s)] and by the numeric
      coercions of [<] and [*]. *)
  StringToNumber : string -> number;
  (** The text that ToString gives for a parsed value whose conversion
      to a primitive completes (for an array the joined texts of its
      elements, for a plain object ["[object Object]"]). *)
  textOf : json -> string;
  (** [Date.now()]. *)
  Date_now : number;
  (** The largest number of arguments the engine passes in one call: a
      spread call [f(...list)] with more arguments throws a RangeError.
      The bound depends on the engine and its stack (about 120000 in Node
      with its default stack); no engine refuses a call of ten arguments,
      so the spreads of the at most ten entries of a provider into [push]
      always complete. *)
  maxArguments : N;
  maxArguments_min : (10 <=? maxArguments)%N = true
}.

(** ToPrimitive throws a TypeError on some parsed values. A plain object
    is converted by its [valueOf] and [toString] methods: the inherited
    [valueOf] returns the object itself, so [toString] decides, and an own
    property named [toString] (never a function in parsed data) hides the
    inherited method, which leaves no method to call. An array is converted
    by [Array.prototype.toString], which joins the texts of its elements:
    [null] counts as the empty text and every other element is converted in
    turn. *)
Fixpoint conversionThrows (v : json) : bool :=
  match v with
  | JObj props =>
      match lookup "toString" props with
      | Some _ => true
      | None => false
      end
  | JArr items => existsb conversionThrows items
  | _ => false
  end.

(** Whether the conversion of a value to a primitive completes. *)
Definition converts (v : value) : bool :=
  match v with
  | Some j => negb (conversionThrows j)
  | None => true
  end.

(** The number that ToNumber gives for a value whose conversion to a
    primitive completes. *)
Definition numberOf (rt : Runtime) (v : value) : number :=
  match v with
  | None => nan
  | Some JNull => 0
  | Some (JBool true) => 1
  | Some (JBool false) => 0
  | Some (JNum n) => n
  | Some (JStr s) => StringToNumber rt s
  | Some (JArr l) => StringToNumber rt (textOf rt (JArr l))
  | Some (JObj o) => StringToNumber rt (textOf rt (JObj o))
  end.

(** [v < n] and [v >= n] for a number [n], on a value whose conversion
    completes: both operands are converted to numbers; a comparison with
    NaN is false. *)
Definition lt (rt : Runtime) (v : value) (n : number) : bool :=
  numberOf rt v <? n.

Definition ge (rt : Runtime) (v : value) (n : number) : bool :=
  n <=? numberOf rt v.

(** [v === s] for a string [s]. *)
Definition strict_eq_string (v : value) (s : string) : bool :=
  match v with
  | Some (JStr s') => String.eqb s' s
  | _ => false
  end.

(** [Number(s || 0)] for a string-or-undefined [s]. *)
Definition Number_or_zero (rt : Runtime) (s : option string) : number :=
  match s with
  | None => 0
  | Some s => if String.eqb s "" then 0 else StringToNumber rt s
  end.

Definition is_pos_zero (x : number) : bool := is_zero x && negb (get_sign x).
Definition is_neg_zero (x : number) : bool := is_zero x && get_sign x.

(** [Math.max(...l)]: NaN if any argument is NaN, [-Infinity] for no
    argument, and [+0] is larger than [-0]. *)
Fixpoint Math_max_from (highest : number) (l : list number) : number :=
  match l with
  | [] => highest
  | x :: rest =>
      if is_nan x then nan
      else if is_pos_zero x && is_neg_zero highest then Math_max_from x rest
      else if highest <? x then Math_max_from x rest
      else Math_max_from highest rest
  end.

Definition Math_max (l : list number) : number := Math_max_from neg_infinity l.

(** [Math.min(...l)]. *)
Fixpoint Math_min_from (lowest : number) (l : list number) : number :=
  match l with
  | [] => lowest
  | x :: rest =>
      if is_nan x then nan
      else if is_neg_zero x && is_pos_zero lowest then Math_min_from x rest
      else if x <? lowest then Math_min_from x rest
      else Math_min_from lowest rest
  end.

Definition Math_min (l : list number) : number := Math_min_from infinity l.

(** Exceptions: a computation returns or throws. *)
Inductive exc (A : Type) : Type :=
| Ok (a : A)
| Throw.
Arguments Throw {A}.

Definition bind {A B} (m : exc A) (k : A -> exc B) : exc B :=
  match m with
  | Ok a => k a
  | Throw => Throw
  end.

(** [try { body } catch { handler }]. *)
Definition try_catch {A} (body : exc A) (handler : A) : A :=
  match body with
  | Ok a => a
  | Throw => handler
  end.

(** The conversions as steps of the program: they throw when ToPrimitive
    does. [ToNumber] is the coercion applied by [<], [>] and [*];
    [ToString] is the conversion applied by [String(v)] and by a template
    literal (where [undefined] reads "undefined"). *)
Definition ToNumber (rt : Runtime) (v : value) : exc number :=
  if converts v then Ok (numberOf rt v) else Throw.

Definition ToString (rt : Runtime) (v : value) : exc string :=
  if converts v
  then Ok (match v with
           | Some j => textOf rt j
           | None => "undefined"
           end)
  else Throw.

(** [v < n] and [v > n] for a number [n]. *)
Definition lessThan (rt : Runtime) (v : value) (n : number) : exc bool :=
  bind (ToNumber rt v) (fun x => Ok (x <? n)).

Definition greaterThan (rt : Runtime) (v : value) (n : number) : exc bool :=
  bind (ToNumber rt v) (fun x => Ok (n <? x)).

End JS.

Import JS.

Notation "x <- m ;; k" := (bind m (fun x => k))
  (at level 61, m at next level, right associativity).

(** ** Results of the IEEE-754 operations *)

Module Rounding.

(** A result of sign [sx] that is not zero: a finite number or an
    infinity. *)
Definition SFpositive (sx : bool) (r : spec_float) : Prop :=
  r = S754_infinity sx \/ exists m e, r = S754_finite sx m e.

(** A result of sign [sx] that is not NaN. *)
Definition SFsigned (sx : bool) (r : spec_float) : Prop :=
  r = S754_zero sx \/ SFpositive sx r.

(** The mantissa of a finite number, signed and brought to the exponent
    [ez]. *)
Definition alignedZ (s : bool) (m : positive) (e ez : Z) : Z :=
  cond_Zopp s (Zpos (fst (shl_align m e ez))).

End Rounding.

(** ** server.ts: the x402 payment gateway *)

Module Gateway.

(** A public key, identified with its base58 text. *)
Definition pubkey := string.

(** Static configuration read from the environment at start-up. *)
Record Config := {
  RECIPIENT_WALLET : string;
  USDC_MINT : string
}.

(** An entry of [meta.preTokenBalances] / [meta.postTokenBalances];
    [amount] is [uiTokenAmount.amount], the raw amount as a decimal text. *)
Record TokenBalanceEntry := {
  accountIndex : nat;
  mint : string;
  amount : string
}.

Record TxMeta := {
  err : value;
  postTokenBalances : option (list TokenBalanceEntry);
  preTokenBalances : option (list TokenBalanceEntry)
}.

(** What [connection.getTransaction] resolves to when the transaction is
    found. [getAccountKeys] throws for a versioned message whose address
    table lookups are unresolved. *)
Record TransactionResponse := {
  meta : option TxMeta;
  getAccountKeys : exc (list pubkey)
}.

(** The ledger client and the key derivations of the Solana SDK. *)
Record Ledger := {
  getTransaction : value -> exc (option TransactionResponse);
  (** [new PublicKey(s)] throws on text that is not a key. *)
  PublicKey : string -> exc pubkey;
  (** [getAssociatedTokenAddress(mint, owner)] throws for an off-curve owner. *)
  getAssociatedTokenAddress : pubkey -> pubkey -> exc pubkey
}.

Record X402PaymentHeader := {
  pay_amount : value;
  pay_token : value;
  pay_sender : value;
  pay_recipient : value;
  pay_signature : value;
  pay_timestamp : value
}.

(** The [payment] object of a 402 body. *)
Record PaymentRequirement := {
  req_amount : number;
  req_token : string;
  req_recipient : string;
  req_network : string;
  req_protocol : string
}.

(** What the middleware does with a request: it calls [next()] or answers
    with a status and a JSON body [{error, message, payment}]. The
    human-readable [message] text is not modelled. *)
Inductive Reply : Type :=
| CallNext
| Respond (status : Z) (error : string) (payment : option PaymentRequirement).

Record Request := {
  (** [req.query.mock] *)
  query_mock : option string;
  (** [req.headers['x-402-payment']] *)
  header : option string
}.

(** [balances || []] *)
Definition orEmpty (balances : option (list TokenBalanceEntry)) : list TokenBalanceEntry :=
  match balances with
  | Some l => l
  | None => []
  end.

Section Server.

Variable rt : Runtime.
Variable cfg : Config.
Variable ledger : Ledger.

Definition parseX402Header (headerValue : string) : option X402PaymentHeader :=
  match JSON_parse rt headerValue with
  | None => None
  | Some JNull => None
  | Some paymentData =>
      Some {|
        pay_amount := or_ (get paymentData "amount") (get paymentData "value");
        pay_token := or_ (get paymentData "token") (get paymentData "mint");
        pay_sender := or_ (or_ (get paymentData "sender") (get paymentData "from"))
                          (get paymentData "payer");
        pay_recipient := or_ (or_ (get paymentData "recipient") (get paymentData "to"))
                             (get paymentData "payee");
        pay_signature := or_ (or_ (get paymentData "signature") (get paymentData "txSignature"))
                             (get paymentData "tx");
        pay_timestamp := or_ (get paymentData "timestamp") (Some (JNum (Date_now rt)))
      |}
  end.

(** [Number(postBalance.uiTokenAmount.amount) -
     Number(preBalance?.uiTokenAmount.amount || 0)] *)
Definition amountReceived (preBalances : list TokenBalanceEntry)
    (postBalance : TokenBalanceEntry) : number :=
  let preBalance :=
    find (fun pb => Nat.eqb (accountIndex pb) (accountIndex postBalance)) preBalances in
  StringToNumber rt (amount postBalance)
  - Number_or_zero rt (option_map amount preBalance).

(** The [for] loop over the post balances: [Ok true] when it returns [true]
    from inside, [Ok false] when it runs to its end. *)
Fixpoint scanPostBalances (tx : TransactionResponse) (recipientAta : pubkey)
    (preBalances : list TokenBalanceEntry) (expectedAmount : number)
    (postBalances : list TokenBalanceEntry) : exc bool :=
  match postBalances with
  | [] => Ok false
  | postBalance :: rest =>
      if String.eqb (mint postBalance) (USDC_MINT cfg) then
        accountKeys <- getAccountKeys tx ;;
        match nth_error accountKeys (accountIndex postBalance) with
        | Some accountKey =>
            if String.eqb accountKey recipientAta
               && (abs (amountReceived preBalances postBalance - expectedAmount) <? 1000)
            then Ok true
            else scanPostBalances tx recipientAta preBalances expectedAmount rest
        | None => scanPostBalances tx recipientAta preBalances expectedAmount rest
        end
      else scanPostBalances tx recipientAta preBalances expectedAmount rest
  end.

(** Whether the loop needs the account keys (a record of the configured
    asset is present) while they cannot be resolved. *)
Definition accountKeysMissing (tx : TransactionResponse)
    (postBalances : list TokenBalanceEntry) : bool :=
  match getAccountKeys tx with
  | Ok _ => false
  | Throw => existsb (fun pb => String.eqb (mint pb) (USDC_MINT cfg)) postBalances
  end.

Definition verifyPayment_try (signature : value) (expectedAmount : number)
    (expectedRecipient : string) : exc bool :=
  tx <- getTransaction ledger signature ;;
  match tx with
  | None => Ok false
  | Some tx =>
      match meta tx with
      | None => Ok false
      | Some m =>
          if truthy (err m) then Ok false
          else
            recipientPubkey <- PublicKey ledger expectedRecipient ;;
            usdcMint <- PublicKey ledger (USDC_MINT cfg) ;;
            recipientAta <- getAssociatedTokenAddress ledger usdcMint recipientPubkey ;;
            let postBalances := orEmpty (postTokenBalances m) in
            let preBalances := orEmpty (preTokenBalances m) in
            verified <- scanPostBalances tx recipientAta preBalances expectedAmount postBalances ;;
            if verified then Ok true
            else Ok true (* For demo purposes, allow if transaction succeeded *)
      end
  end.

Definition verifyPayment (signature : value) (expectedAmount : number)
    (expectedRecipient : string) : bool :=
  try_catch (verifyPayment_try signature expectedAmount expectedRecipient) false.

Definition requirement (requiredAmount : number) : PaymentRequirement :=
  {| req_amount := requiredAmount;
     req_token := USDC_MINT cfg;
     req_recipient := RECIPIENT_WALLET cfg;
     req_network := "solana-devnet";
     req_protocol := "x402-solana" |}.

(** The outcomes of the gateway, as the replies the middleware gives. *)
Definition Authorized : Reply := CallNext.
Definition MissingProof (requiredAmount : number) : Reply :=
  Respond 402 "Payment Required" (Some (requirement requiredAmount)).
Definition MalformedProof : Reply := Respond 400 "Invalid Payment Header" None.
Definition InsufficientAmount (requiredAmount : number) : Reply :=
  Respond 402 "Insufficient Payment" (Some (requirement requiredAmount)).
Definition WrongRecipient : Reply := Respond 400 "Invalid Recipient" None.
Definition ChainVerificationFailed : Reply :=
  Respond 402 "Payment Verification Failed" None.

(** [req.query.mock === 'true'] *)
Definition bypass (req : Request) : bool :=
  match query_mock req with
  | Some m => String.eqb m "true"
  | None => false
  end.

(** [!paymentHeader] *)
Definition noHeader (req : Request) : bool :=
  match header req with
  | None => true
  | Some h => String.eqb h ""
  end.

Definition InternalServerError : Reply := Respond 500 "Internal Server Error" None.

(** The [try] block of the middleware returned by
    [requirePayment(requiredAmount)]. [parseX402Header] and
    [verifyPayment] catch their own exceptions; the steps that can throw
    are the conversions of fields of the proof, which are parsed data of
    any shape: the comparison [payment.amount < requiredAmount], the
    message of the Insufficient Payment reply, which prints the amount, and
    the log line before [next()], which prints the signature and the
    amount. *)
Definition requirePayment_try (requiredAmount : number) (req : Request) : exc Reply :=
  if bypass req then Ok CallNext
  else
    match header req with
    | None => Ok (MissingProof requiredAmount)
    | Some paymentHeader =>
        if String.eqb paymentHeader "" then Ok (MissingProof requiredAmount)
        else
          match parseX402Header paymentHeader with
          | None => Ok MalformedProof
          | Some payment =>
              below <- lessThan rt (pay_amount payment) requiredAmount ;;
              if below then
                _ <- ToString rt (pay_amount payment) ;;
                Ok (InsufficientAmount requiredAmount)
              else if negb (strict_eq_string (pay_recipient payment)
                                             (RECIPIENT_WALLET cfg))
              then Ok WrongRecipient
              else if negb (verifyPayment (pay_signature payment) requiredAmount
                                          (RECIPIENT_WALLET cfg))
              then Ok ChainVerificationFailed
              else
                _ <- ToString rt (pay_signature payment) ;;
                _ <- ToString rt (pay_amount payment) ;;
                Ok CallNext
          end
    end.

Definition requirePayment (requiredAmount : number) (req : Request) : Reply :=
  try_catch (requirePayment_try requiredAmount req) InternalServerError.

End Server.

End Gateway.

(** ** yield.ts: aggregation of the three yield providers *)

Module Yield.

Inductive OpportunityType : Type := lending | staking | liquidity.

Inductive RiskTier : Type := low | medium | high.

Inductive Source : Type := live | cached | mock.

(** [token], [tvl] and [vault] are declared as string / number but are
    filled from untyped upstream data, so they are JSON values here. *)
Record YieldOpportunity := {
  protocol : string;
  token : json;
  apy : number;
  tvl : value;
  type : OpportunityType;
  vault : value;
  riskLevel : option RiskTier
}.

Record BestYieldResponse := {
  topOpportunities : list YieldOpportunity;
  timestamp : number;
  source : Source
}.

(** A spot market account of the Drift SDK. The balances are big-number
    objects: [Some n] is an object [b] with [Number(b) = n]. *)
Record SpotMarket := {
  market_name : value;
  depositBalance : option number;
  borrowBalance : option number
}.

(** What the upstream providers do during one call. *)
Record Providers := {
  (** [axios.get(...)] on the Kamino API: throws (network error, timeout,
      error status) or resolves to a response whose [data] is given. *)
  kamino_get : exc value;
  (** Creating and subscribing the Drift client, then
      [getSpotMarketAccounts()]. *)
  drift_subscribe : exc (list SpotMarket);
  (** [driftClient.unsubscribe()] *)
  drift_unsubscribe : exc unit
}.

Definition getMockKaminoYields : list YieldOpportunity :=
  [ {| protocol := "Kamino"; token := JStr "SOL"; apy := 7.85;
       tvl := Some (JNum 15420000); type := liquidity;
       vault := Some (JStr "SOL-USDC Concentrated Liquidity");
       riskLevel := Some low |};
    {| protocol := "Kamino"; token := JStr "USDC"; apy := 12.3;
       tvl := Some (JNum 8750000); type := lending;
       vault := Some (JStr "USDC Lending Vault");
       riskLevel := Some low |};
    {| protocol := "Kamino"; token := JStr "JUP"; apy := 18.5;
       tvl := Some (JNum 2100000); type := liquidity;
       vault := Some (JStr "JUP-SOL Auto-Compound");
       riskLevel := Some medium |} ].

Definition getMockMarginfiYields : list YieldOpportunity :=
  [ {| protocol := "Marginfi"; token := JStr "SOL"; apy := 6.2;
       tvl := Some (JNum 12300000); type := lending; vault := None;
       riskLevel := Some low |};
    {| protocol := "Marginfi"; token := JStr "USDC"; apy := 9.8;
       tvl := Some (JNum 18500000); type := lending; vault := None;
       riskLevel := Some low |};
    {| protocol := "Marginfi"; token := JStr "USDT"; apy := 9.5;
       tvl := Some (JNum 6200000); type := lending; vault := None;
       riskLevel := Some low |} ].

Definition getMockDriftYields : list YieldOpportunity :=
  [ {| protocol := "Drift"; token := JStr "SOL"; apy := 5.8;
       tvl := Some (JNum 9800000); type := lending; vault := None;
       riskLevel := Some medium |};
    {| protocol := "Drift"; token := JStr "USDC"; apy := 11.2;
       tvl := Some (JNum 14200000); type := lending; vault := None;
       riskLevel := Some medium |};
    {| protocol := "Drift"; token := JStr "BTC"; apy := 4.5;
       tvl := Some (JNum 3500000); type := lending; vault := None;
       riskLevel := Some medium |} ].

Section Fetch.

Variable rt : Runtime.

(** [(strategy.tvl || 0) > 1000000 ? 'low' :
     (strategy.tvl || 0) > 100000 ? 'medium' : 'high'] *)
Definition kaminoRisk (tvl0 : value) : exc RiskTier :=
  large <- greaterThan rt tvl0 1000000 ;;
  if large then Ok low
  else
    middle <- greaterThan rt tvl0 100000 ;;
    Ok (if middle then medium else high).

(** One iteration of the loop over Kamino strategies: the opportunity that
    is pushed, if any. Reading a property of [null] throws, and so do the
    numeric conversions of [apy] and [tvl] when ToPrimitive does. *)
Definition kaminoOpportunity (strategy : json) : exc (option YieldOpportunity) :=
  match strategy with
  | JNull => Throw
  | _ =>
      let apy := or_ (or_ (get strategy "apy") (get strategy "aprLatest")) (Some (JNum 0)) in
      positive <- greaterThan rt apy 0 ;;
      if positive then
        let tvl0 := or_ (get strategy "tvl") (Some (JNum 0)) in
        rate <- ToNumber rt apy ;;
        tier <- kaminoRisk tvl0 ;;
        Ok (Some {|
          protocol := "Kamino";
          token := match or_ (or_ (get strategy "symbol") (get strategy "tokenSymbol"))
                             (Some (JStr "LP")) with
                   | Some t => t
                   | None => JStr "LP"
                   end;
          apy := rate * 100;
          tvl := tvl0;
          type := liquidity;
          vault := or_ (or_ (get strategy "name") (get strategy "strategyName"))
                       (Some (JStr "Strategy"));
          riskLevel := Some tier
        |})
      else Ok None
  end.

Fixpoint kaminoLoop (strategies : list json) : exc (list YieldOpportunity) :=
  match strategies with
  | [] => Ok []
  | strategy :: rest =>
      o <- kaminoOpportunity strategy ;;
      opportunities <- kaminoLoop rest ;;
      Ok (match o with Some opp => opp :: opportunities | None => opportunities end)
  end.

(** The [try] block of [fetchKaminoYields]. [strategies.slice(0, 10)] is
    the first ten elements of an array; on a text it is a text, whose
    characters have none of the properties read, so nothing is pushed; any
    other value has no [slice] and the call throws. *)
Definition fetchKaminoYields_try (response : exc value) : exc (list YieldOpportunity) :=
  data <- response ;;
  match or_ data (Some (JArr [])) with
  | Some (JArr strategies) =>
      opportunities <- kaminoLoop (firstn 10 strategies) ;;
      Ok (match opportunities with [] => getMockKaminoYields | _ => opportunities end)
  | Some (JStr _) => Ok getMockKaminoYields
  | _ => Throw
  end.

Definition fetchKaminoYields (p : Providers) : list YieldOpportunity :=
  try_catch (fetchKaminoYields_try (kamino_get p)) getMockKaminoYields.

(** Marginfi v6 SDK has breaking changes - using mock data *)
Definition fetchMarginfiYields : list YieldOpportunity := getMockMarginfiYields.

(** One iteration of the loop over the Drift spot markets.
    [String(market.name || 'UNKNOWN')] throws when ToPrimitive does. *)
Definition driftOpportunity (market : SpotMarket) : exc (option YieldOpportunity) :=
  let depositBalance := match depositBalance market with Some n => n | None => 0 end in
  let borrowBalance := match borrowBalance market with Some n => n | None => 0 end in
  if 0 <? depositBalance then
    let utilization := borrowBalance / depositBalance in
    let estimatedApy := utilization * 15 in
    name <- ToString rt (or_ (market_name market) (Some (JStr "UNKNOWN"))) ;;
    Ok (Some {|
      protocol := "Drift";
      token := JStr name;
      apy := estimatedApy;
      tvl := Some (JNum depositBalance);
      type := lending;
      vault := None;
      riskLevel := Some medium
    |})
  else Ok None.

Fixpoint driftLoop (markets : list SpotMarket) : exc (list YieldOpportunity) :=
  match markets with
  | [] => Ok []
  | market :: rest =>
      o <- driftOpportunity market ;;
      opportunities <- driftLoop rest ;;
      Ok (match o with Some opp => opp :: opportunities | None => opportunities end)
  end.

Definition fetchDriftYields_try (p : Providers) : exc (list YieldOpportunity) :=
  markets <- drift_subscribe p ;;
  opportunities <- driftLoop (firstn 5 markets) ;;
  _ <- drift_unsubscribe p ;;
  Ok opportunities.

Definition fetchDriftYields (p : Providers) : list YieldOpportunity :=
  try_catch (fetchDriftYields_try p) getMockDriftYields.

(** [(a, b) => b.apy - a.apy] *)
Definition compareApy (a b : YieldOpportunity) : number := apy b - apy a.

(** [Array.prototype.sort] is a stable sort: [a] is placed after [b] only
    when the comparator is positive on [(a, b)]. On a comparator that
    orders the elements consistently every stable algorithm produces the
    list computed here by stable insertion. *)
Fixpoint insertSorted (x : YieldOpportunity) (sorted : list YieldOpportunity)
    : list YieldOpportunity :=
  match sorted with
  | [] => [x]
  | y :: rest =>
      if 0 <? compareApy x y then y :: insertSorted x rest
      else x :: y :: rest
  end.

Definition sortByApy (l : list YieldOpportunity) : list YieldOpportunity :=
  fold_right insertSorted [] l.

(** [Promise.allSettled] *)
Inductive Settled (A : Type) : Type :=
| fulfilled (v : A)
| rejected.
Arguments rejected {A}.

Definition fulfilledValue (s : Settled (list YieldOpportunity)) : list YieldOpportunity :=
  match s with
  | fulfilled v => v
  | rejected => []
  end.

Definition mockResponse (now : number) : BestYieldResponse :=
  {| topOpportunities :=
       firstn 10 (sortByApy (getMockKaminoYields ++ getMockMarginfiYields
                             ++ getMockDriftYields)%list);
     timestamp := now;
     source := mock |}.

(** What [getBestYields] builds once the three promises settled. *)
Definition mergeSettled (kaminoYields marginfiYields driftYields
    : Settled (list YieldOpportunity)) (now : number) : BestYieldResponse :=
  let allOpportunities :=
    (fulfilledValue kaminoYields ++ fulfilledValue marginfiYields
     ++ fulfilledValue driftYields)%list in
  {| topOpportunities := firstn 10 (sortByApy allOpportunities);
     timestamp := now;
     source := if Nat.ltb 0 (List.length allOpportunities) then live else mock |}.

(** The [try] block of [getBestYields]: each fetch catches its own errors,
    so each promise is fulfilled, and no later step throws (each list
    spread into [push] has at most ten entries). *)
Definition getBestYields_try (p : Providers) : exc BestYieldResponse :=
  Ok (mergeSettled (fulfilled (fetchKaminoYields p))
                   (fulfilled fetchMarginfiYields)
                   (fulfilled (fetchDriftYields p))
                   (Date_now rt)).

Definition getBestYields (p : Providers) (useMock : bool) : BestYieldResponse :=
  if useMock then mockResponse (Date_now rt)
  else try_catch (getBestYields_try p) (mockResponse (Date_now rt)).

End Fetch.

End Yield.

(** ** pyth.ts: the price helper *)

Module Pyth.

(** The own properties of the object literal [mockPrices]. *)
Definition mockPrices (symbol : string) : option number :=
  if String.eqb symbol "SOL" then Some 98.50
  else if String.eqb symbol "USDC" then Some 1.00
  else if String.eqb symbol "USDT" then Some 1.00
  else if String.eqb symbol "BTC" then Some 42000
  else if String.eqb symbol "ETH" then Some 2200
  else if String.eqb symbol "BONK" then Some 0.000015
  else if String.eqb symbol "JUP" then Some 0.85
  else None.

(** The names of the properties of [Object.prototype], which an object
    literal inherits: reading one of them from [mockPrices] finds the
    inherited member. *)
Definition objectPrototypeNames : list string :=
  ["constructor"; "hasOwnProperty"; "isPrototypeOf"; "propertyIsEnumerable";
   "toLocaleString"; "toString"; "valueOf"; "__proto__";
   "__defineGetter__"; "__defineSetter__"; "__lookupGetter__"; "__lookupSetter__"].

Definition inherited (name : string) : bool :=
  existsb (String.eqb name) objectPrototypeNames.

(** What the [price] field of a mock price holds: a number, or a member
    inherited from [Object.prototype] (a function, or the prototype object
    itself for [__proto__]). *)
Inductive MockPrice : Type :=
| Quoted (price : number)
| Member.

(** [mockPrices[symbol] || 1.0]: an inherited member is truthy. *)
Definition getMockPrice (symbol : string) : MockPrice :=
  match mockPrices symbol with
  | Some price => if truthy (Some (JNum price)) then Quoted price else Quoted 1.0
  | None => if inherited symbol then Member else Quoted 1.0
  end.

(** The number that [amount * price] multiplies by: an inherited member
    converts to a text that is no numeral, so to NaN. *)
Definition mockPrice (symbol : string) : number :=
  match getMockPrice symbol with
  | Quoted price => price
  | Member => nan
  end.

(** [calculateUsdValue(symbol, amount, useMock)]; [getPrice] is the live
    lookup, which catches its own errors and yields [null] ([None]) when no
    price is available. *)
Definition calculateUsdValue (getPrice : string -> option number)
    (symbol : string) (amount : number) (useMock : bool) : number :=
  let priceData := if useMock then Some (mockPrice symbol) else getPrice symbol in
  match priceData with
  | None => amount * mockPrice symbol
  | Some price => amount * price
  end.

End Pyth.

(** ** portfolio.ts: portfolio analytics and risk score *)

Module Portfolio.

Definition pubkey := string.

Record TokenBalance := {
  mint : string;
  symbol : string;
  balance : number;
  decimals : number;
  uiAmount : number;
  usdValue : number
}.

Inductive PositionType : Type := lending | borrowing | liquidity | staking.

Record PortfolioPosition := {
  protocol : string;
  type : PositionType;
  token : string;
  amount : number;
  pos_usdValue : number;
  apy : option number
}.

Record PortfolioAnalytics := {
  wallet : string;
  solBalance : number;
  solUsdValue : number;
  tokenBalances : list TokenBalance;
  defiPositions : list PortfolioPosition;
  totalUsdValue : number;
  timestamp : number
}.

Inductive RiskLevel : Type := low | medium | high | critical.

Record Factors := {
  healthFactor : option number;
  concentrationRisk : number;
  liquidationRisk : number;
  protocolDiversification : number
}.

Record RiskScore := {
  rs_wallet : string;
  overallScore : number;
  riskLevel : RiskLevel;
  factors : Factors;
  warnings : list string;
  rs_timestamp : number
}.

(** [parsed.info] of a token account returned by the RPC node. *)
Record ParsedTokenAccount := {
  info_mint : string;
  (** [tokenAmount.amount] *)
  info_amount : string;
  (** [tokenAmount.decimals] *)
  info_decimals : number;
  (** [tokenAmount.uiAmount], a number or [null] *)
  info_uiAmount : option number
}.

Record Connection := {
  (** [new PublicKey(s)] *)
  PublicKey : string -> exc pubkey;
  getBalance : pubkey -> exc number;
  getParsedTokenAccountsByOwner : pubkey -> exc (list ParsedTokenAccount);
  (** the live price lookup of the price helper *)
  getPrice : string -> option number
}.

Definition getMockTokenBalances : list TokenBalance :=
  [ {| mint := "4zMMC9srt5Ri5X14GAgXhaHii3GnPAEERYPJgZJDncDU"; symbol := "USDC";
       balance := 5000000000; decimals := 6; uiAmount := 5000; usdValue := 5000 |};
    {| mint := "So11111111111111111111111111111111111111112"; symbol := "SOL";
       balance := 50000000000; decimals := 9; uiAmount := 50; usdValue := 4925 |} ].

Definition getMockDefiPositions : list PortfolioPosition :=
  [ {| protocol := "Marginfi"; type := lending; token := "USDC";
       amount := 2500; pos_usdValue := 2500; apy := Some 9.8 |};
    {| protocol := "Kamino"; type := liquidity; token := "SOL-USDC";
       amount := 422.375; pos_usdValue := 422.375; apy := Some 12.3 |} ].

Definition getMockRiskScore (walletAddress : string) (now : number) : RiskScore :=
  {| rs_wallet := walletAddress;
     overallScore := 32;
     riskLevel := medium;
     factors := {| healthFactor := Some 2.15;
                   concentrationRisk := 38.5;
                   liquidationRisk := 19.5;
                   protocolDiversification := 50 |};
     warnings := [];
     rs_timestamp := now |}.

(** The number of a collection size. *)
Definition Number_of_nat (n : nat) : number := of_uint63 (Uint63.of_Z (Z.of_nat n)).

Section Analytics.

Variable rt : Runtime.
Variable connection : Connection.

(** [knownMints[mint] || mint.slice(0, 4)]. A mint address is the base58
    text of a 32-byte key, of 32 to 44 characters, so it is none of the
    names that [knownMints] inherits from [Object.prototype] (the longest
    has 20 characters). *)
Definition symbolOf (mint : string) : string :=
  if String.eqb mint "4zMMC9srt5Ri5X14GAgXhaHii3GnPAEERYPJgZJDncDU" then "USDC"
  else if String.eqb mint "So11111111111111111111111111111111111111112" then "SOL"
  else substring 0 4 mint.

(** The loop body of [getTokenBalances]: the balance pushed for an account,
    if [uiAmount && uiAmount > 0]. *)
Definition tokenBalanceOf (account : ParsedTokenAccount) : option TokenBalance :=
  match info_uiAmount account with
  | Some ui =>
      if negb (is_zero ui || is_nan ui) && (0 <? ui) then
        let symbol := symbolOf (info_mint account) in
        Some {| mint := info_mint account;
                symbol := symbol;
                balance := StringToNumber rt (info_amount account);
                decimals := info_decimals account;
                uiAmount := ui;
                usdValue := Pyth.calculateUsdValue (getPrice connection) symbol ui true |}
      else None
  | None => None
  end.

Fixpoint tokenBalancesOf (accounts : list ParsedTokenAccount) : list TokenBalance :=
  match accounts with
  | [] => []
  | account :: rest =>
      match tokenBalanceOf account with
      | Some b => b :: tokenBalancesOf rest
      | None => tokenBalancesOf rest
      end
  end.

Definition getTokenBalances (walletAddress : pubkey) : list TokenBalance :=
  try_catch
    (tokenAccounts <- getParsedTokenAccountsByOwner connection walletAddress ;;
     Ok (tokenBalancesOf tokenAccounts))
    [].

(** Marginfi v6 SDK has breaking changes - using mock data for now *)
Definition getMarginfiPositions (walletAddress : pubkey) : list PortfolioPosition := [].

(** [tokenBalances.reduce((sum, token) => sum + token.usdValue, 0)] *)
Definition sumTokenUsd (l : list TokenBalance) : number :=
  fold_left (fun sum token => sum + usdValue token) l 0.

(** [defiPositions.reduce((sum, pos) => sum + pos.usdValue, 0)] *)
Definition sumPositionUsd (l : list PortfolioPosition) : number :=
  fold_left (fun sum pos => sum + pos_usdValue pos) l 0.

Definition getPortfolioAnalytics_try (walletAddress : string) (useMock : bool)
    : exc PortfolioAnalytics :=
  publicKey <- PublicKey connection walletAddress ;;
  solBalance <- getBalance connection publicKey ;;
  let solUiAmount := solBalance / 1e9 in
  let solUsdValue := Pyth.calculateUsdValue (getPrice connection) "SOL" solUiAmount true in
  let tokenBalances := if useMock then getMockTokenBalances else getTokenBalances publicKey in
  let defiPositions := if useMock then getMockDefiPositions else getMarginfiPositions publicKey in
  let tokenUsdValue := sumTokenUsd tokenBalances in
  let defiUsdValue := sumPositionUsd defiPositions in
  let totalUsdValue := solUsdValue + tokenUsdValue + defiUsdValue in
  Ok {| wallet := walletAddress;
        solBalance := solUiAmount;
        solUsdValue := solUsdValue;
        tokenBalances := tokenBalances;
        defiPositions := defiPositions;
        totalUsdValue := totalUsdValue;
        timestamp := Date_now rt |}.

(** The value returned by the [catch] block of [getPortfolioAnalytics]. *)
Definition fallbackPortfolio (walletAddress : string) : PortfolioAnalytics :=
  {| wallet := walletAddress;
     solBalance := 5.25;
     solUsdValue := 517.125;
     tokenBalances := getMockTokenBalances;
     defiPositions := getMockDefiPositions;
     totalUsdValue := 12847.50;
     timestamp := Date_now rt |}.

Definition getPortfolioAnalytics (walletAddress : string) (useMock : bool)
    : PortfolioAnalytics :=
  try_catch (getPortfolioAnalytics_try walletAddress useMock)
            (fallbackPortfolio walletAddress).

(** [(healthFactor ? Math.max(0, (2 - healthFactor) * 50) : 10)] *)
Definition healthFactorTerm (healthFactor : option number) : number :=
  match healthFactor with
  | Some h =>
      if truthy (Some (JNum h)) then Math_max [0; (2 - h) * 50] else 10
  | None => 10
  end.

Definition isBorrowing (p : PortfolioPosition) : bool :=
  match type p with
  | borrowing => true
  | _ => false
  end.

(** [new Set(defiPositions.map(p => p.protocol)).size] *)
Definition uniqueProtocolCount (positions : list PortfolioPosition) : nat :=
  List.length (nodup string_dec (map protocol positions)).

(** [Math.max(...concentrations, 0)], when the call completes. *)
Definition maxConcentrationOf (portfolio : PortfolioAnalytics) : number :=
  let totalValue := totalUsdValue portfolio in
  let concentrations := map (fun token => usdValue token / totalValue)
                            (tokenBalances portfolio) in
  Math_max (concentrations ++ [0])%list.

(** Whether the call [Math.max(...concentrations, 0)] completes: it passes
    one argument for each token balance and one more. *)
Definition spreadCompletes (portfolio : PortfolioAnalytics) : bool :=
  (N.of_nat (S (List.length (tokenBalances portfolio))) <=? maxArguments rt)%N.

Definition liquidationRiskOf (portfolio : PortfolioAnalytics) : number :=
  let totalValue := totalUsdValue portfolio in
  let borrowedPositions := filter isBorrowing (defiPositions portfolio) in
  let totalBorrowed := sumPositionUsd borrowedPositions in
  if 0 <? totalBorrowed then (totalBorrowed / totalValue) * 100 else 0.

Definition protocolDiversificationOf (portfolio : PortfolioAnalytics) : number :=
  let size := uniqueProtocolCount (defiPositions portfolio) in
  if Nat.ltb 0 size then 100 / Number_of_nat size else 100.

Definition riskLevelOf (overallScore : number) : RiskLevel :=
  if overallScore <? 25 then low
  else if overallScore <? 50 then medium
  else if overallScore <? 75 then high
  else critical.

(** The scoring part of [calculateRiskScore] (from "Calculate concentration
    risk" to the returned object), for the value [healthFactor] holds and
    when the call of [Math.max] completes. *)
Definition scorePortfolio (healthFactor : option number) (walletAddress : string)
    (portfolio : PortfolioAnalytics) : RiskScore :=
  let maxConcentration := maxConcentrationOf portfolio in
  let concentrationRisk := maxConcentration * 100 in
  let warnings1 :=
    if 0.7 <? maxConcentration
    then ["High concentration risk: Over 70% in single asset"] else [] in
  let liquidationRisk := liquidationRiskOf portfolio in
  let warnings2 :=
    if 50 <? liquidationRisk
    then ["High liquidation risk: Borrowed amount exceeds 50% of portfolio"] else [] in
  let protocolDiversification := protocolDiversificationOf portfolio in
  let warnings3 :=
    if Nat.eqb (uniqueProtocolCount (defiPositions portfolio)) 1
       && Nat.ltb 0 (List.length (defiPositions portfolio))
    then ["Single protocol exposure - consider diversification"] else [] in
  let overallScore :=
    Math_min [100;
              concentrationRisk * 0.3 + liquidationRisk * 0.4
              + protocolDiversification * 0.2 + healthFactorTerm healthFactor] in
  {| rs_wallet := walletAddress;
     overallScore := overallScore;
     riskLevel := riskLevelOf overallScore;
     factors := {| healthFactor := healthFactor;
                   concentrationRisk := concentrationRisk;
                   liquidationRisk := liquidationRisk;
                   protocolDiversification := protocolDiversification |};
     warnings := (warnings1 ++ warnings2 ++ warnings3)%list;
     rs_timestamp := Date_now rt |}.

(** The [try] block of [calculateRiskScore], given what the awaited
    [getPortfolioAnalytics(...)] produced. [healthFactor] is declared and
    never assigned (health factor disabled). The one step that can throw
    is the spread call [Math.max(...concentrations, 0)]: a RangeError when
    the wallet lists more balances than the engine passes as arguments. *)
Definition calculateRiskScore_try (awaited : exc PortfolioAnalytics)
    (walletAddress : string) : exc RiskScore :=
  portfolio <- awaited ;;
  let healthFactor : option number := None in
  if spreadCompletes portfolio
  then Ok (scorePortfolio healthFactor walletAddress portfolio)
  else Throw.

Definition calculateRiskScore_on (awaited : exc PortfolioAnalytics)
    (walletAddress : string) : RiskScore :=
  try_catch (calculateRiskScore_try awaited walletAddress)
            (getMockRiskScore walletAddress (Date_now rt)).

Definition calculateRiskScore (walletAddress : string) (useMock : bool) : RiskScore :=
  calculateRiskScore_on (Ok (getPortfolioAnalytics walletAddress useMock)) walletAddress.

End Analytics.

End Portfolio.

(** ** Concrete runtimes, ledgers and providers used in the examples *)

Module Examples.

(** The double quote character. *)
Definition dq : string := String "034"%char EmptyString.

Definition quoted (s : string) : string := (dq ++ s ++ dq)%string.

Definition digitValue (c : ascii) : option number :=
  if Ascii.eqb c "0" then Some 0 else if Ascii.eqb c "1" then Some 1
  else if Ascii.eqb c "2" then Some 2 else if Ascii.eqb c "3" then Some 3
  else if Ascii.eqb c "4" then Some 4 else if Ascii.eqb c "5" then Some 5
  else if Ascii.eqb c "6" then Some 6 else if Ascii.eqb c "7" then Some 7
  else if Ascii.eqb c "8" then Some 8 else if Ascii.eqb c "9" then Some 9
  else None.

Fixpoint digitsFrom (acc : number) (s : string) : number :=
  match s with
  | EmptyString => acc
  | String c rest =>
      match digitValue c with
      | Some d => digitsFrom (acc * 10 + d) rest
      | None => nan
      end
  end.

(** StringToNumber on texts of decimal digits (the form in which the RPC
    node reports raw token amounts); the empty text is 0. The examples
    convert no other text. *)
Definition decimalToNumber (s : string) : number := digitsFrom 0 s.

Definition wallet : string := "9xQeWvG816bUx9EPjHmaT23yvVM2ZWbrrpZb9PusVFin".

Definition cfg : Gateway.Config :=
  {| Gateway.RECIPIENT_WALLET := wallet;
     Gateway.USDC_MINT := "4zMMC9srt5Ri5X14GAgXhaHii3GnPAEERYPJgZJDncDU" |}.

(** A proof without an amount:
    [{"recipient":"9xQe...","signature":"sigPaid"}] *)
Definition headerNoAmount : string :=
  ("{" ++ quoted "recipient" ++ ":" ++ quoted wallet ++ ","
       ++ quoted "signature" ++ ":" ++ quoted "sigPaid" ++ "}")%string.

Definition proofNoAmount : json :=
  JObj [("recipient", JStr wallet); ("signature", JStr "sigPaid")].

(** [JSON.parse] tabulated on the three header texts of the examples: the
    proof above, the number [5] and [null]. No other text is parsed in the
    examples; the table answers it as it answers a text that is not JSON. *)
Definition parseTable (s : string) : option json :=
  if String.eqb s headerNoAmount then Some proofNoAmount
  else if String.eqb s "5" then Some (JNum 5)
  else if String.eqb s "null" then Some JNull
  else None.

(** The text of texts, [null], booleans and plain objects; the examples
    apply it to texts only. *)
Definition toStringTable (v : json) : string :=
  match v with
  | JStr s => s
  | JNull => "null"
  | JBool true => "true"
  | JBool false => "false"
  | JObj _ => "[object Object]"
  | _ => ""
  end.

Definition rt : Runtime :=
  {| JSON_parse := parseTable;
     StringToNumber := decimalToNumber;
     textOf := toStringTable;
     Date_now := 1700000000000;
     maxArguments := 120000;
     maxArguments_min := eq_refl |}.

Definition ataOf (owner : string) : string := ("ata:" ++ owner)%string.

Definition usdcEntry (index : nat) (amount : string) : Gateway.TokenBalanceEntry :=
  {| Gateway.accountIndex := index;
     Gateway.mint := Gateway.USDC_MINT cfg;
     Gateway.amount := amount |}.

(** A successful transaction that moves [post - pre] micro-USDC into the
    recipient's associated token account (account index 1). *)
Definition transferTx (pre post : string) : Gateway.TransactionResponse :=
  {| Gateway.meta :=
       Some {| Gateway.err := Some JNull;
               Gateway.postTokenBalances := Some [usdcEntry 1 post];
               Gateway.preTokenBalances := Some [usdcEntry 1 pre] |};
     Gateway.getAccountKeys := Ok ["payer"; ataOf wallet] |}.

(** A ledger with two finalized transactions: [sigPaid] pays 50000
    micro-USDC to the recipient, [sigDust] pays 1. *)
Definition ledger : Gateway.Ledger :=
  {| Gateway.getTransaction := fun signature =>
       match signature with
       | Some (JStr s) =>
           if String.eqb s "sigPaid" then Ok (Some (transferTx "0" "50000"))
           else if String.eqb s "sigDust" then Ok (Some (transferTx "7" "8"))
           else Ok None
       | _ => Throw
       end;
     Gateway.PublicKey := fun s => if String.eqb s "" then Throw else Ok s;
     Gateway.getAssociatedTokenAddress := fun _ owner => Ok (ataOf owner) |}.

Definition request (h : string) : Gateway.Request :=
  {| Gateway.query_mock := None; Gateway.header := Some h |}.

End Examples.

(** ** The statements of the specification, worded as it words them *)

Module Claimed.

Section Gateway.

Variable rt : Runtime.
Variable cfg : Gateway.Config.
Variable ledger : Gateway.Ledger.

(** "Authorized iff amount >= R, recipient matches, and on-chain
    verification succeeds". *)
Definition authorized (requiredAmount : number) (payment : Gateway.X402PaymentHeader)
    : bool :=
  ge rt (Gateway.pay_amount payment) requiredAmount
  && strict_eq_string (Gateway.pay_recipient payment) (Gateway.RECIPIENT_WALLET cfg)
  && Gateway.verifyPayment rt cfg ledger (Gateway.pay_signature payment) requiredAmount
       (Gateway.RECIPIENT_WALLET cfg).

(** A post-balance record "for the configured asset [that] matches the
    recipient's associated token account". *)
Definition matchesRecipient (tx : Gateway.TransactionResponse) (recipientAta : string)
    (postBalance : Gateway.TokenBalanceEntry) : bool :=
  String.eqb (Gateway.mint postBalance) (Gateway.USDC_MINT cfg)
  && match Gateway.getAccountKeys tx with
     | Ok accountKeys =>
         match nth_error accountKeys (Gateway.accountIndex postBalance) with
         | Some accountKey => String.eqb accountKey recipientAta
         | None => false
         end
     | Throw => false
     end.

(** "|post - pre| (missing pre treated as 0) within the tolerance of the
    expected amount". *)
Definition withinTolerance (preBalances : list Gateway.TokenBalanceEntry)
    (expectedAmount : number) (postBalance : Gateway.TokenBalanceEntry) : bool :=
  abs (Gateway.amountReceived rt preBalances postBalance - expectedAmount) <? 1000.

(** "true exactly when the fetched finalized transaction exists, its
    execution outcome is not an error, and either (a) some ... record ...
    matches ... within the tolerance ..., or (b) no such matching
    recipient-asset record is found at all". *)
Definition verified (signature : value) (expectedAmount : number)
    (recipientAta : string) : bool :=
  match Gateway.getTransaction ledger signature with
  | Ok (Some tx) =>
      match Gateway.meta tx with
      | Some m =>
          let postBalances := Gateway.orEmpty (Gateway.postTokenBalances m) in
          let preBalances := Gateway.orEmpty (Gateway.preTokenBalances m) in
          negb (truthy (Gateway.err m))
          && (existsb (fun pb => matchesRecipient tx recipientAta pb
                                 && withinTolerance preBalances expectedAmount pb)
                      postBalances
              || negb (existsb (matchesRecipient tx recipientAta) postBalances))
      | None => false
      end
  | _ => false
  end.

End Gateway.

End Claimed.

Module ClaimedYield.

(** "sorted non-increasing by apy": each entry's APY is at most that of
    the entry before it. *)
Fixpoint nonIncreasing (l : list number) : bool :=
  match l with
  | [] => true
  | x :: rest =>
      match rest with
      | [] => true
      | y :: _ => (y <=? x) && nonIncreasing rest
      end
  end.

(** "by descending APY": no entry has a larger APY than an entry that
    stands before it. *)
Definition descending (l : list Yield.YieldOpportunity) : Prop :=
  StronglySorted (fun a b => (Yield.apy b <=? Yield.apy a) = true) l.

(** "[source] is 'live' if and only if at least one provider contributed a
    non-fallback (genuinely live) result": the value the field should have,
    given whether each provider's contribution is live. *)
Definition provenance (kaminoLive marginfiLive driftLive : bool) : Yield.Source :=
  if kaminoLive || marginfiLive || driftLive then Yield.live else Yield.mock.

End ClaimedYield.

Module ClaimedPortfolio.

(** "totalUsdValue = solUsdValue + (sum of tokenBalances[i].usdValue) +
    (sum of defiPositions[i].usdValue)", the sums taken as the code takes
    them. *)
Definition totalOfParts (p : Portfolio.PortfolioAnalytics) : number :=
  Portfolio.solUsdValue p + Portfolio.sumTokenUsd (Portfolio.tokenBalances p)
  + Portfolio.sumPositionUsd (Portfolio.defiPositions p).

(** "healthFactorTerm is max(0, (2 - healthFactor) x 50) whenever
    healthFactor is present (including healthFactor = 0) and 10 when it is
    absent". *)
Definition healthFactorTerm (healthFactor : option number) : number :=
  match healthFactor with
  | Some h => Math_max [0; (2 - h) * 50]
  | None => 10
  end.

(** "overallScore equals min(100, concentrationRisk x 0.3 + liquidationRisk
    x 0.4 + protocolDiversification x 0.2 + healthFactorTerm)". *)
Definition overallScore (f : Portfolio.Factors) : number :=
  Math_min [100;
            Portfolio.concentrationRisk f * 0.3 + Portfolio.liquidationRisk f * 0.4
            + Portfolio.protocolDiversification f * 0.2
            + healthFactorTerm (Portfolio.healthFactor f)].

End ClaimedPortfolio.

Module ExamplesYield.

(** The Kamino API is unreachable and the Drift client cannot subscribe. *)
Definition allDown : Yield.Providers :=
  {| Yield.kamino_get := Throw;
     Yield.drift_subscribe := Throw;
     Yield.drift_unsubscribe := Ok tt |}.

(** A Drift spot market lent out in full: utilization 1, estimated APY 15. *)
Definition fullMarket (name : string) : Yield.SpotMarket :=
  {| Yield.market_name := Some (JStr name);
     Yield.depositBalance := Some 100;
     Yield.borrowBalance := Some 100 |}.

(** The Kamino API is unreachable while Drift reports five markets. *)
Definition kaminoDown : Yield.Providers :=
  {| Yield.kamino_get := Throw;
     Yield.drift_subscribe :=
       Ok [fullMarket "SOL"; fullMarket "USDC"; fullMarket "USDT";
           fullMarket "BTC"; fullMarket "ETH"];
     Yield.drift_unsubscribe := Ok tt |}.

Definition marginfiSol : Yield.YieldOpportunity :=
  {| Yield.protocol := "Marginfi"; Yield.token := JStr "SOL"; Yield.apy := 6.2;
     Yield.tvl := Some (JNum 12300000); Yield.type := Yield.lending;
     Yield.vault := None; Yield.riskLevel := Some Yield.low |}.

Definition tie (protocol : string) : Yield.YieldOpportunity :=
  {| Yield.protocol := protocol; Yield.token := JStr "SOL"; Yield.apy := 5;
     Yield.tvl := None; Yield.type := Yield.lending;
     Yield.vault := None; Yield.riskLevel := None |}.

End ExamplesYield.

Module ExamplesPortfolio.

(** An RPC node that cannot be reached. *)
Definition down : Portfolio.Connection :=
  {| Portfolio.PublicKey := fun s => Ok s;
     Portfolio.getBalance := fun _ => Throw;
     Portfolio.getParsedTokenAccountsByOwner := fun _ => Throw;
     Portfolio.getPrice := fun _ => None |}.

(** A USDC token account holding [raw] micro-USDC. *)
Definition usdcAccount (raw : string) (ui : number) : Portfolio.ParsedTokenAccount :=
  {| Portfolio.info_mint := "4zMMC9srt5Ri5X14GAgXhaHii3GnPAEERYPJgZJDncDU";
     Portfolio.info_amount := raw;
     Portfolio.info_decimals := 6;
     Portfolio.info_uiAmount := Some ui |}.

(** The node reports a wallet that holds nothing: no lamports and one
    emptied token account. *)
Definition idle : Portfolio.Connection :=
  {| Portfolio.PublicKey := fun s => Ok s;
     Portfolio.getBalance := fun _ => Ok 0;
     Portfolio.getParsedTokenAccountsByOwner := fun _ => Ok [usdcAccount "0" 0];
     Portfolio.getPrice := fun _ => None |}.


End ExamplesPortfolio.

(** ** yield.ts: the filtered views *)

Module YieldQueries.

Section Queries.

Variable rt : Runtime.

(** [String.prototype.toLowerCase] *)
Variable toLowerCase : string -> string.

(** [opp.token.toLowerCase()]: only a text has the method; on any other
    value the call throws a TypeError. *)
Definition tokenLower (token : json) : exc string :=
  match token with
  | JStr s => Ok (toLowerCase s)
  | _ => Throw
  end.

(** [topOpportunities.filter((opp) => opp.token.toLowerCase() ===
    token.toLowerCase())] *)
Fixpoint filterByToken (token : string) (opportunities : list Yield.YieldOpportunity)
    : exc (list Yield.YieldOpportunity) :=
  match opportunities with
  | [] => Ok []
  | opp :: rest =>
      lowered <- tokenLower (Yield.token opp) ;;
      kept <- filterByToken token rest ;;
      Ok (if String.eqb lowered (toLowerCase token) then opp :: kept else kept)
  end.

(** [getYieldsByToken] has no [try]: an exception of the filter leaves it. *)
Definition getYieldsByToken (p : Yield.Providers) (token : string) (useMock : bool)
    : exc (list Yield.YieldOpportunity) :=
  filterByToken token (Yield.topOpportunities (Yield.getBestYields rt p useMock)).

(** Whether the token of an opportunity is a text that equals the
    requested one up to case. *)
Definition tokenMatches (token : string) (opp : Yield.YieldOpportunity) : bool :=
  match Yield.token opp with
  | JStr s => String.eqb (toLowerCase s) (toLowerCase token)
  | _ => false
  end.

Definition textToken (opp : Yield.YieldOpportunity) : bool :=
  match Yield.token opp with
  | JStr _ => true
  | _ => false
  end.

Definition getYieldsByProtocol (p : Yield.Providers) (protocol : string) (useMock : bool)
    : list Yield.YieldOpportunity :=
  filter (fun opp => String.eqb (toLowerCase (Yield.protocol opp)) (toLowerCase protocol))
         (Yield.topOpportunities (Yield.getBestYields rt p useMock)).

End Queries.

End YieldQueries.

(** ** The client: the payment header it sends *)

Module Client.

Section Header.

Variable rt : Runtime.

(** [JSON.stringify] *)
Variable JSON_stringify : json -> string.

(** [USDC_MINT.toBase58()] *)
Variable USDC_MINT : string.

Definition paymentData (amount : number) (sender recipient signature : string) : json :=
  JObj [("amount", JNum amount);
        ("token", JStr USDC_MINT);
        ("sender", JStr sender);
        ("recipient", JStr recipient);
        ("signature", JStr signature);
        ("timestamp", JNum (Date_now rt))].

Definition createX402Header (amount : number) (sender recipient signature : string)
    : string :=
  JSON_stringify (paymentData amount sender recipient signature).

End Header.

End Client.

(** ** server.ts: the protected routes *)

Module Server.

Record Prices := {
  BEST_YIELD : number;
  PORTFOLIO : number;
  RISK : number;
  DEFI_INTEL : number
}.

(** The parts of a request that the routes read. Query parameters are
    taken as texts, as the handlers take them. *)
Record HttpRequest := {
  query_mock : option string;
  query_type : option string;
  query_wallet : option string;
  (** [req.params.wallet] *)
  params_wallet : string;
  (** [req.headers['x-402-payment']] *)
  payment_header : option string
}.

Record IntelData := {
  yields : option Yield.BestYieldResponse;
  portfolio : option Portfolio.PortfolioAnalytics;
  risk : option Portfolio.RiskScore
}.

Record IntelResult := {
  jobId : string;
  job_type : string;
  job_timestamp : number;
  network : string;
  data : IntelData
}.

Inductive Body : Type :=
| YieldBody (d : Yield.BestYieldResponse)
| PortfolioBody (d : Portfolio.PortfolioAnalytics)
| RiskBody (d : Portfolio.RiskScore)
| IntelBody (r : IntelResult).

(** What a protected route answers: the reply of the payment middleware,
    [{success: true, data, paid}] with status 200, or [{error, message}]
    with an error status (the message text is not modelled). *)
Inductive HttpResponse : Type :=
| Denied (reply : Gateway.Reply)
| Success (body : Body) (paid : number)
| Failure (status : Z) (error : string).

Section Routes.

Variable rt : Runtime.
Variable cfg : Gateway.Config.
Variable ledger : Gateway.Ledger.
Variable providers : Yield.Providers.
Variable connection : Portfolio.Connection.
Variable PRICES : Prices.

(** The identifier built for a job from the clock and [Math.random()]. *)
Variable newJobId : string.

Definition gatewayRequest (req : HttpRequest) : Gateway.Request :=
  {| Gateway.query_mock := query_mock req;
     Gateway.header := payment_header req |}.

(** [app.get(path, requirePayment(price), handler)]: the handler runs when
    the middleware calls [next()]. *)
Definition protected (price : number) (handler : HttpRequest -> HttpResponse)
    (req : HttpRequest) : HttpResponse :=
  match Gateway.requirePayment rt cfg ledger price (gatewayRequest req) with
  | Gateway.CallNext => handler req
  | Gateway.Respond status error payment => Denied (Gateway.Respond status error payment)
  end.

(** [req.query.mock === 'true'] *)
Definition useMockOf (req : HttpRequest) : bool :=
  match query_mock req with
  | Some m => String.eqb m "true"
  | None => false
  end.

(** [try { new PublicKey(wallet) } catch { ... }] *)
Definition validWallet (wallet : string) : bool :=
  match Portfolio.PublicKey connection wallet with
  | Ok _ => true
  | Throw => false
  end.

Definition InternalError : HttpResponse := Failure 500 "Internal Server Error".
Definition InvalidWallet : HttpResponse := Failure 400 "Invalid Wallet Address".
Definition MissingWallet : HttpResponse := Failure 400 "Missing Wallet".
Definition InvalidType : HttpResponse := Failure 400 "Invalid Type".

Definition bestYieldHandler (req : HttpRequest) : HttpResponse :=
  try_catch
    (Ok (Success (YieldBody (Yield.getBestYields rt providers (useMockOf req)))
                 (BEST_YIELD PRICES)))
    InternalError.

Definition portfolioHandler (req : HttpRequest) : HttpResponse :=
  try_catch
    (Ok (let wallet := params_wallet req in
         if validWallet wallet then
           Success (PortfolioBody
                      (Portfolio.getPortfolioAnalytics rt connection wallet (useMockOf req)))
                   (PORTFOLIO PRICES)
         else InvalidWallet))
    InternalError.

Definition riskHandler (req : HttpRequest) : HttpResponse :=
  try_catch
    (Ok (let wallet := params_wallet req in
         if validWallet wallet then
           Success (RiskBody
                      (Portfolio.calculateRiskScore rt connection wallet (useMockOf req)))
                   (RISK PRICES)
         else InvalidWallet))
    InternalError.

Definition validTypes : list string := ["yield"; "portfolio"; "risk"; "all"].

(** [type === a || type === 'all'] *)
Definition selects (type a : string) : bool := String.eqb type a || String.eqb type "all".

(** The two wallet checks of the unified handler: the early reply, or the
    wallet that passed. *)
Definition checkWallet (req : HttpRequest) : HttpResponse + string :=
  match query_wallet req with
  | None => inl MissingWallet
  | Some wallet =>
      if String.eqb wallet "" then inl MissingWallet
      else if validWallet wallet then inr wallet
      else inl InvalidWallet
  end.

Definition defiIntelHandler (req : HttpRequest) : HttpResponse :=
  try_catch
    (Ok (match query_type req with
         | None => InvalidType
         | Some type =>
             if String.eqb type "" || negb (existsb (String.eqb type) validTypes)
             then InvalidType
             else
               let useMock := useMockOf req in
               let yields :=
                 if selects type "yield"
                 then Some (Yield.getBestYields rt providers useMock) else None in
               match (if selects type "portfolio" then
                        match checkWallet req with
                        | inl reply => inl reply
                        | inr wallet =>
                            inr (Some (Portfolio.getPortfolioAnalytics rt connection
                                         wallet useMock))
                        end
                      else inr None) with
               | inl reply => reply
               | inr portfolio =>
                   match (if selects type "risk" then
                            match checkWallet req with
                            | inl reply => inl reply
                            | inr wallet =>
                                inr (Some (Portfolio.calculateRiskScore rt connection
                                             wallet useMock))
                            end
                          else inr None) with
                   | inl reply => reply
                   | inr risk =>
                       Success (IntelBody {| jobId := newJobId;
                                             job_type := type;
                                             job_timestamp := Date_now rt;
                                             network := "solana-devnet";
                                             data := {| yields := yields;
                                                        portfolio := portfolio;
                                                        risk := risk |} |})
                               (DEFI_INTEL PRICES)
                   end
               end
         end))
    InternalError.

Definition bestYieldRoute : HttpRequest -> HttpResponse :=
  protected (BEST_YIELD PRICES) bestYieldHandler.
Definition portfolioRoute : HttpRequest -> HttpResponse :=
  protected (PORTFOLIO PRICES) portfolioHandler.
Definition riskRoute : HttpRequest -> HttpResponse :=
  protected (RISK PRICES) riskHandler.
Definition defiIntelRoute : HttpRequest -> HttpResponse :=
  protected (DEFI_INTEL PRICES) defiIntelHandler.

End Routes.

End Server.

(** ** The order of the risk levels *)

Module PortfolioOrder.

Definition levelRank (l : Portfolio.RiskLevel) : nat :=
  match l with
  | Portfolio.low => 0
  | Portfolio.medium => 1
  | Portfolio.high => 2
  | Portfolio.critical => 3
  end.

End PortfolioOrder.

(** ** Further concrete inputs *)

Module ExamplesMore.

(** ASCII lower case: [toLowerCase] on texts of ASCII characters. *)
Definition lowerChar (c : ascii) : ascii :=
  let n := nat_of_ascii c in
  if Nat.leb 65 n && Nat.leb n 90 then ascii_of_nat (n + 32) else c.

Fixpoint asciiLower (s : string) : string :=
  match s with
  | EmptyString => EmptyString
  | String c rest => String (lowerChar c) (asciiLower rest)
  end.

(** A Kamino strategy whose symbol is a number. *)
Definition numericSymbol : json :=
  JObj [("apy", JNum 0.5); ("symbol", JNum 7)].

Definition kaminoNumeric : Yield.Providers :=
  {| Yield.kamino_get := Ok (Some (JArr [numericSymbol]));
     Yield.drift_subscribe := Throw;
     Yield.drift_unsubscribe := Ok tt |}.

(** The Kamino API answers with a usable strategy followed by [null]. *)
Definition kaminoWithNull : Yield.Providers :=
  {| Yield.kamino_get := Ok (Some (JArr [numericSymbol; JNull]));
     Yield.drift_subscribe := Throw;
     Yield.drift_unsubscribe := Ok tt |}.

(** The header the client builds after paying 50000 micro-USDC with the
    transaction [sigPaid]. *)
Definition clientProof : json :=
  Client.paymentData Examples.rt (Gateway.USDC_MINT Examples.cfg) 50000 "payer"
    Examples.wallet "sigPaid".

Definition field (k v : string) : string :=
  (Examples.quoted k ++ ":" ++ Examples.quoted v)%string.

Definition clientHeader : string :=
  ("{" ++ Examples.quoted "amount" ++ ":50000,"
       ++ field "token" (Gateway.USDC_MINT Examples.cfg) ++ ","
       ++ field "sender" "payer" ++ ","
       ++ field "recipient" Examples.wallet ++ ","
       ++ field "signature" "sigPaid" ++ ","
       ++ Examples.quoted "timestamp" ++ ":1700000000000}")%string.

(** A proof whose amount is 0: [{"amount":0,"recipient":"9xQe...",
    "signature":"sigPaid"}] *)
Definition zeroAmountProof : json :=
  JObj [("amount", JNum 0); ("recipient", JStr Examples.wallet);
        ("signature", JStr "sigPaid")].

Definition zeroAmountHeader : string :=
  ("{" ++ Examples.quoted "amount" ++ ":0,"
       ++ field "recipient" Examples.wallet ++ ","
       ++ field "signature" "sigPaid" ++ "}")%string.

(** A proof whose amount is an object with a property named [toString]:
    [{"amount":{"toString":1},"recipient":"9xQe...","signature":"sigPaid"}] *)
Definition opaqueAmountProof : json :=
  JObj [("amount", JObj [("toString", JNum 1)]); ("recipient", JStr Examples.wallet);
        ("signature", JStr "sigPaid")].

Definition opaqueAmountHeader : string :=
  ("{" ++ Examples.quoted "amount" ++ ":{" ++ Examples.quoted "toString" ++ ":1},"
       ++ field "recipient" Examples.wallet ++ ","
       ++ field "signature" "sigPaid" ++ "}")%string.

(** [JSON.parse] tabulated on the three header texts above. *)
Definition parseTable (s : string) : option json :=
  if String.eqb s clientHeader then Some clientProof
  else if String.eqb s zeroAmountHeader then Some zeroAmountProof
  else if String.eqb s opaqueAmountHeader then Some opaqueAmountProof
  else None.

(** [JSON.stringify] on the client's proof; the examples serialize nothing
    else. *)
Definition stringifyTable (v : json) : string := clientHeader.

Definition rt : Runtime :=
  {| JSON_parse := parseTable;
     StringToNumber := Examples.decimalToNumber;
     textOf := Examples.toStringTable;
     Date_now := 1700000000000;
     maxArguments := 120000;
     maxArguments_min := eq_refl |}.

Definition prices : Server.Prices :=
  {| Server.BEST_YIELD := 50000; Server.PORTFOLIO := 100000;
     Server.RISK := 75000; Server.DEFI_INTEL := 100000 |}.

(** An RPC node that answers: the wallet holds 2 SOL and one token
    account with 12.5 USDC. *)
Definition up : Portfolio.Connection :=
  {| Portfolio.PublicKey := fun s => if String.eqb s "" then Throw else Ok s;
     Portfolio.getBalance := fun _ => Ok 2000000000;
     Portfolio.getParsedTokenAccountsByOwner := fun _ =>
       Ok [ {| Portfolio.info_mint := "4zMMC9srt5Ri5X14GAgXhaHii3GnPAEERYPJgZJDncDU";
               Portfolio.info_amount := "12500000";
               Portfolio.info_decimals := 6;
               Portfolio.info_uiAmount := Some 12.5 |} ];
     Portfolio.getPrice := fun _ => None |}.

Definition request (mock : option string) (type wallet : option string)
    (param : string) (header : option string) : Server.HttpRequest :=
  {| Server.query_mock := mock; Server.query_type := type;
     Server.query_wallet := wallet; Server.params_wallet := param;
     Server.payment_header := header |}.

Definition twoOf (protocol : string) : list Portfolio.PortfolioPosition :=
  [ {| Portfolio.protocol := protocol; Portfolio.type := Portfolio.lending;
       Portfolio.token := "USDC"; Portfolio.amount := 1;
       Portfolio.pos_usdValue := 1; Portfolio.apy := None |};
    {| Portfolio.protocol := protocol; Portfolio.type := Portfolio.staking;
       Portfolio.token := "SOL"; Portfolio.amount := 2;
       Portfolio.pos_usdValue := 2; Portfolio.apy := None |} ].

End ExamplesMore.

(** * Properties *)

(** ** Numbers *)

(** Every comparison with NaN is false. *)
Lemma nan_ltb_false (y : number) : (nan <? y) = false.
Proof. rewrite ltb_spec. reflexivity. Qed.

Lemma SFcompare_antisym (x y : spec_float) :
  SFcompare y x = option_map CompOpp (SFcompare x y).
Proof.
  destruct x as [sx | sx | | sx mx ex], y as [sy | sy | | sy my ey]; cbn;
    try reflexivity; try (destruct sx; reflexivity); try (destruct sy; reflexivity);
    try (destruct sx, sy; reflexivity).
  destruct sx, sy; cbn; try reflexivity;
    rewrite (Z.compare_antisym ex ey); destruct (ex ?= ey)%Z; cbn; try reflexivity.
  - change (PosDef.Pos.compare_cont Eq my mx) with (Pos.compare my mx).
    change (PosDef.Pos.compare_cont Eq mx my) with (Pos.compare mx my).
    rewrite (Pos.compare_antisym mx my). destruct (Pos.compare my mx); reflexivity.
  - change (PosDef.Pos.compare_cont Eq my mx) with (Pos.compare my mx).
    change (PosDef.Pos.compare_cont Eq mx my) with (Pos.compare mx my).
    rewrite (Pos.compare_antisym mx my). destruct (Pos.compare my mx); reflexivity.
Qed.

Lemma SFcompare_nan (x y : spec_float) :
  SFcompare x y = None <-> x = S754_nan \/ y = S754_nan.
Proof.
  destruct x as [sx | sx | | sx mx ex], y as [sy | sy | | sy my ey]; cbn;
    split; intros H; try discriminate H; auto;
    destruct H as [H | H]; discriminate H.
Qed.

Lemma is_nan_spec (x : float) : is_nan x = true <-> Prim2SF x = S754_nan.
Proof.
  unfold is_nan. rewrite eqb_spec. unfold SFeqb.
  destruct (Prim2SF x) as [s | s | | s m e] eqn:Hx; cbn.
  - split; discriminate.
  - destruct s; split; discriminate.
  - split; reflexivity.
  - destruct s; rewrite Z.compare_refl, Pos.compare_cont_refl; cbn; split; discriminate.
Qed.

(** [x < y] is false exactly when [x >= y] or one of them is NaN. *)
Lemma not_ltb_iff (x y : float) :
  (x <? y) = false <-> (y <=? x) = true \/ is_nan x = true \/ is_nan y = true.
Proof.
  rewrite ltb_spec, leb_spec, !is_nan_spec. unfold SFltb, SFleb.
  rewrite (SFcompare_antisym (Prim2SF x) (Prim2SF y)).
  pose proof (SFcompare_nan (Prim2SF x) (Prim2SF y)) as Hn.
  destruct (SFcompare (Prim2SF x) (Prim2SF y)) as [[| |] |]; cbn; split; auto;
    try discriminate.
  - intros [H | H]; [discriminate H |]. apply Hn in H. discriminate H.
  - intros _. right. apply Hn. reflexivity.
Qed.

(** ** Order *)

Lemma ltb_irrefl (x : float) : (x <? x) = false.
Proof.
  rewrite ltb_spec. unfold SFltb.
  pose proof (SFcompare_antisym (Prim2SF x) (Prim2SF x)) as H.
  destruct (SFcompare (Prim2SF x) (Prim2SF x)) as [[| |] |]; try reflexivity.
  discriminate H.
Qed.

Lemma ltb_asym (x y : float) : (x <? y) = true -> (y <? x) = false.
Proof.
  rewrite !ltb_spec. unfold SFltb.
  rewrite (SFcompare_antisym (Prim2SF x) (Prim2SF y)).
  destruct (SFcompare (Prim2SF x) (Prim2SF y)) as [[| |] |]; cbn;
    intros H; try discriminate H; reflexivity.
Qed.

Lemma ltb_nan_r (x : float) : (x <? nan) = false.
Proof.
  rewrite ltb_spec. unfold SFltb. change (Prim2SF nan) with S754_nan.
  destruct (Prim2SF x) as [s | s | | s m e]; reflexivity.
Qed.

(** The comparison of the specification is transitive. *)
Lemma SFcompare_le_lt_trans (x y z : spec_float) :
  (SFcompare x y = Some Lt \/ SFcompare x y = Some Eq) ->
  SFcompare y z = Some Lt -> SFcompare x z = Some Lt.
Proof.
  destruct x as [sx | sx | | sx mx ex], y as [sy | sy | | sy my ey],
           z as [sz | sz | | sz mz ez]; cbn;
    intros [H1 | H1] H2; try discriminate H1; try discriminate H2; try reflexivity;
    repeat match goal with
           | s : bool |- _ => destruct s
           end;
    try discriminate H1; try discriminate H2; try reflexivity;
    change (PosDef.Pos.compare_cont Eq) with Pos.compare in *;
    injection H1 as H1; injection H2 as H2; f_equal;
    repeat match goal with
           | H : context [(?a ?= ?b)%Z] |- _ =>
               let E := fresh "E" in
               destruct (Z.compare_spec a b) as [E | E | E]; try discriminate H
           | |- context [(?a ?= ?b)%Z] =>
               let E := fresh "E" in
               destruct (Z.compare_spec a b) as [E | E | E]
           end;
    subst; try lia; try reflexivity;
    repeat match goal with
           | H : CompOpp ?c = _ |- _ => destruct c eqn:?; cbn in H; try discriminate H
           end;
    repeat match goal with
           | H : (_ ?= _)%positive = Lt |- _ => apply Pos.compare_lt_iff in H
           | H : (_ ?= _)%positive = Gt |- _ => apply Pos.compare_gt_iff in H
           | H : (_ ?= _)%positive = Eq |- _ => apply Pos.compare_eq_iff in H
           end;
    subst;
    try (apply Pos.compare_lt_iff; lia);
    try (rewrite <- Pos.compare_antisym; apply Pos.compare_lt_iff; lia).
  all: repeat match goal with
              | H : _ = Lt |- _ => apply (proj1 (Pos.compare_lt_iff _ _)) in H
              | H : _ = Eq |- _ => apply (proj1 (Pos.compare_eq_iff _ _)) in H
              end.
  all: apply (proj2 (Pos.compare_lt_iff _ _)); lia.
Qed.

Lemma leb_ltb_trans (x y c : float) :
  (x <=? y) = true -> (y <? c) = true -> (x <? c) = true.
Proof.
  rewrite leb_spec, !ltb_spec. unfold SFleb, SFltb. intros Hxy Hyc.
  rewrite (SFcompare_le_lt_trans (Prim2SF x) (Prim2SF y) (Prim2SF c)); [reflexivity | |].
  - destruct (SFcompare (Prim2SF x) (Prim2SF y)) as [[| |] |];
      try discriminate Hxy; auto.
  - destruct (SFcompare (Prim2SF y) (Prim2SF c)) as [[| |] |];
      try discriminate Hyc; reflexivity.
Qed.

Lemma ltb_leb (x y : float) : (x <? y) = true -> (x <=? y) = true.
Proof.
  rewrite ltb_spec, leb_spec. unfold SFltb, SFleb.
  destruct (SFcompare (Prim2SF x) (Prim2SF y)) as [[| |] |]; intros H;
    try discriminate H; reflexivity.
Qed.

Lemma leb_ltb_false (x y : float) : (x <=? y) = true -> (y <? x) = false.
Proof.
  rewrite leb_spec, ltb_spec. unfold SFleb, SFltb.
  rewrite (SFcompare_antisym (Prim2SF x) (Prim2SF y)).
  destruct (SFcompare (Prim2SF x) (Prim2SF y)) as [[| |] |]; cbn; intros H;
    try discriminate H; reflexivity.
Qed.

Lemma leb_not_nan (x y : float) :
  (x <=? y) = true -> is_nan x = false /\ is_nan y = false.
Proof.
  rewrite leb_spec. unfold SFleb. intros H.
  split.
  - destruct (is_nan x) eqn:Hn; [| reflexivity].
    apply is_nan_spec in Hn. rewrite Hn in H. discriminate H.
  - destruct (is_nan y) eqn:Hn; [| reflexivity].
    apply is_nan_spec in Hn. rewrite Hn in H.
    destruct (Prim2SF x); discriminate H.
Qed.

Lemma leb_trans (x y z : float) :
  (x <=? y) = true -> (y <=? z) = true -> (x <=? z) = true.
Proof.
  intros Hxy Hyz. destruct (z <? x) eqn:Hzx.
  - pose proof (leb_ltb_trans Hyz Hzx) as Hyx.
    rewrite (leb_ltb_false Hxy) in Hyx. discriminate Hyx.
  - apply not_ltb_iff in Hzx. destruct Hzx as [H | [H | H]]; [exact H | |].
    + destruct (leb_not_nan Hyz) as [_ Hz]. congruence.
    + destruct (leb_not_nan Hxy) as [Hx _]. congruence.
Qed.


(** ** Rounding: sums, products and differences keep their sign *)

Unset Implicit Arguments.

Section RoundingProperties.

Import Rounding.

Local Open Scope Z_scope.

Lemma digits2_pos_size (m : positive) : digits2_pos m = Pos.size m.
Proof. induction m as [p IH | p IH |]; cbn; congruence. Qed.

Lemma digits2_bounds (m : positive) :
  2 ^ (Zpos (digits2_pos m) - 1) <= Zpos m < 2 ^ Zpos (digits2_pos m).
Proof.
  rewrite digits2_pos_size. split.
  - pose proof (Pos.size_le m) as H. apply Pos2Z.pos_le_pos in H.
    rewrite Pos2Z.inj_pow in H.
    replace (Zpos (Pos.size m)) with (Z.succ (Zpos (Pos.size m) - 1)) in H by lia.
    rewrite Z.pow_succ_r in H by lia. lia.
  - pose proof (Pos.size_gt m) as H. apply Pos2Z.pos_lt_pos in H.
    rewrite Pos2Z.inj_pow in H. exact H.
Qed.

Lemma shr_1_m (mrs : shr_record) :
  0 <= shr_m mrs -> shr_m (shr_1 mrs) = shr_m mrs / 2.
Proof.
  destruct mrs as [m r s]. cbn [shr_m]. intros Hm.
  rewrite <- Z.div2_div.
  destruct m as [| p | p]; [reflexivity | destruct p; reflexivity | lia].
Qed.

Lemma iter_shr_1_m (p : positive) (mrs : shr_record) :
  0 <= shr_m mrs -> shr_m (iter_pos shr_1 p mrs) = shr_m mrs / 2 ^ Zpos p.
Proof.
  revert mrs. induction p as [p IH | p IH |]; intros mrs Hm; cbn [iter_pos].
  - assert (H1 : 0 <= shr_m (shr_1 mrs)) by (rewrite shr_1_m by exact Hm; apply Z.div_pos; lia).
    assert (H2 : 0 <= shr_m (iter_pos shr_1 p (shr_1 mrs)))
      by (rewrite IH by exact H1; apply Z.div_pos; [exact H1 | apply Z.pow_pos_nonneg; lia]).
    rewrite IH by exact H2. rewrite IH by exact H1. rewrite shr_1_m by exact Hm.
    assert (Hp : 0 < 2 ^ Zpos p) by (apply Z.pow_pos_nonneg; lia).
    rewrite !Z.div_div by lia.
    replace (Zpos p~1) with (1 + Zpos p + Zpos p) by lia.
    rewrite !Z.pow_add_r by lia. rewrite Z.pow_1_r. rewrite Z.mul_assoc. reflexivity.
  - assert (H1 : 0 <= shr_m (iter_pos shr_1 p mrs))
      by (rewrite IH by exact Hm; apply Z.div_pos; [exact Hm | apply Z.pow_pos_nonneg; lia]).
    rewrite IH by exact H1. rewrite IH by exact Hm.
    assert (Hp : 0 < 2 ^ Zpos p) by (apply Z.pow_pos_nonneg; lia).
    rewrite Z.div_div by lia.
    replace (Zpos p~0) with (Zpos p + Zpos p) by lia.
    rewrite Z.pow_add_r by lia. reflexivity.
  - rewrite shr_1_m by exact Hm. rewrite Z.pow_1_r. reflexivity.
Qed.

Lemma shr_record_of_loc_m (m : Z) (l : location) : shr_m (shr_record_of_loc m l) = m.
Proof. destruct l as [| []]; reflexivity. Qed.

Lemma fexp_ge_emin (e : Z) : emin <= fexp prec emax e.
Proof. unfold fexp. apply Z.le_max_r. Qed.

(** Shifting a positive mantissa to its canonical exponent leaves it
    positive, unless the exponent lies too far below the smallest one. *)
Lemma shr_fexp_pos (m e : Z) (l : location) :
  0 < m -> emin - e < Zdigits2 m ->
  0 < shr_m (fst (shr_fexp prec emax m e l)) /\ emin <= snd (shr_fexp prec emax m e l).
Proof.
  intros Hm He. unfold shr_fexp, shr.
  destruct m as [| p | p]; try lia. cbn [Zdigits2] in *.
  pose proof (digits2_bounds p) as [Hlow _].
  pose proof (fexp_ge_emin (Zpos (digits2_pos p) + e)) as Hge.
  assert (Hn : fexp prec emax (Zpos (digits2_pos p) + e) - e < Zpos (digits2_pos p)).
  { unfold fexp. change prec with 53 in *. lia. }
  destruct (fexp prec emax (Zpos (digits2_pos p) + e) - e) as [| n | n] eqn:Hd;
    cbn [fst snd].
  - rewrite shr_record_of_loc_m. lia.
  - rewrite iter_shr_1_m by (rewrite shr_record_of_loc_m; lia).
    rewrite shr_record_of_loc_m. split; [| lia].
    apply Z.div_str_pos. split; [apply Z.pow_pos_nonneg; lia |].
    apply Z.le_trans with (2 ^ (Zpos (digits2_pos p) - 1)); [| exact Hlow].
    apply Z.pow_le_mono_r; lia.
  - rewrite shr_record_of_loc_m. lia.
Qed.

Lemma shr_fexp_nonneg (m e : Z) (l : location) :
  0 <= m -> 0 <= shr_m (fst (shr_fexp prec emax m e l)).
Proof.
  intros Hm. unfold shr_fexp, shr.
  destruct (fexp prec emax (Zdigits2 m + e) - e) as [| n | n]; cbn [fst];
    try (rewrite shr_record_of_loc_m; exact Hm).
  rewrite iter_shr_1_m by (rewrite shr_record_of_loc_m; exact Hm).
  rewrite shr_record_of_loc_m. apply Z.div_pos; [exact Hm | apply Z.pow_pos_nonneg; lia].
Qed.

Lemma round_nearest_even_pos (m : Z) (l : location) : 0 < m -> 0 < round_nearest_even m l.
Proof. intros Hm. destruct l as [| []]; cbn; try lia. destruct (Z.even m); lia. Qed.

Lemma round_nearest_even_nonneg (m : Z) (l : location) :
  0 <= m -> 0 <= round_nearest_even m l.
Proof. intros Hm. destruct l as [| []]; cbn; try lia. destruct (Z.even m); lia. Qed.

Lemma binary_round_aux_pos (sx : bool) (m e : Z) (l : location) :
  0 < m -> emin - e < Zdigits2 m ->
  SFpositive sx (binary_round_aux prec emax sx m e l).
Proof.
  intros Hm He. unfold binary_round_aux.
  destruct (shr_fexp_pos m e l Hm He) as [H1 H2].
  destruct (shr_fexp prec emax m e l) as [mrs' e']. cbn [fst snd] in H1, H2.
  pose proof (round_nearest_even_pos _ (loc_of_shr_record mrs') H1) as Hr.
  assert (Hd : emin - e' < Zdigits2 (round_nearest_even (shr_m mrs') (loc_of_shr_record mrs'))).
  { destruct (round_nearest_even (shr_m mrs') (loc_of_shr_record mrs')); cbn [Zdigits2]; lia. }
  destruct (shr_fexp_pos _ _ loc_Exact Hr Hd) as [H3 _].
  destruct (shr_fexp prec emax _ e' loc_Exact) as [mrs'' e'']. cbn [fst] in H3.
  destruct (shr_m mrs'') as [| q | q]; try lia.
  destruct (e'' <=? emax - prec); [right; eauto | left; reflexivity].
Qed.

Lemma binary_round_aux_signed (sx : bool) (m e : Z) (l : location) :
  0 <= m -> SFsigned sx (binary_round_aux prec emax sx m e l).
Proof.
  intros Hm. unfold binary_round_aux.
  pose proof (shr_fexp_nonneg m e l Hm) as H1.
  destruct (shr_fexp prec emax m e l) as [mrs' e']. cbn [fst] in H1.
  pose proof (round_nearest_even_nonneg _ (loc_of_shr_record mrs') H1) as Hr.
  pose proof (shr_fexp_nonneg _ e' loc_Exact Hr) as H3.
  destruct (shr_fexp prec emax _ e' loc_Exact) as [mrs'' e'']. cbn [fst] in H3.
  destruct (shr_m mrs'') as [| q | q]; try lia.
  - left. reflexivity.
  - right. destruct (e'' <=? emax - prec); [right; eauto | left; reflexivity].
Qed.


Lemma iter_xO (m d : positive) : Zpos (Pos.iter xO m d) = Zpos m * 2 ^ Zpos d.
Proof.
  induction d as [| d IH] using Pos.peano_ind.
  - cbn. lia.
  - rewrite Pos.iter_succ, Pos2Z.inj_xO, IH, Pos2Z.inj_succ, Z.pow_succ_r by lia. lia.
Qed.

Lemma shl_align_le (m : positive) (e e' : Z) :
  e' <= e ->
  Zpos (fst (shl_align m e e')) = Zpos m * 2 ^ (e - e') /\ snd (shl_align m e e') = e'.
Proof.
  intros Hle. unfold shl_align.
  destruct (e' - e) as [| d | d] eqn:Hd; cbn [fst snd]; try lia.
  - replace (e - e') with 0 by lia. cbn. lia.
  - change (PosDef.Pos.iter xO m d) with (Pos.iter xO m d).
    rewrite iter_xO. replace (e - e') with (Zpos d) by lia. lia.
Qed.

Lemma shl_align_exponent (m : positive) (e e' : Z) :
  snd (shl_align m e e') = Z.min e e'.
Proof.
  unfold shl_align. destruct (e' - e) as [| d | d] eqn:Hd; cbn [snd]; lia.
Qed.

Lemma binary_round_pos (sx : bool) (mx : positive) (ex : Z) :
  emin <= ex -> SFpositive sx (binary_round prec emax sx mx ex).
Proof.
  intros He. unfold binary_round.
  pose proof (shl_align_exponent mx ex (fexp prec emax (Zpos (digits2_pos mx) + ex))) as Hs.
  pose proof (fexp_ge_emin (Zpos (digits2_pos mx) + ex)) as Hf.
  destruct (shl_align mx ex (fexp prec emax (Zpos (digits2_pos mx) + ex))) as [mz ez].
  cbn [snd] in Hs. apply binary_round_aux_pos; [lia |]. cbn [Zdigits2]. lia.
Qed.

(** Normalizing an integer at an exponent that is not below the smallest
    one keeps its sign: no positive or negative integer is rounded to zero. *)
Lemma binary_normalize_sign (m e : Z) :
  emin <= e ->
  match m with
  | Z0 => binary_normalize prec emax m e false = S754_zero false
  | Zpos _ => SFpositive false (binary_normalize prec emax m e false)
  | Zneg _ => SFpositive true (binary_normalize prec emax m e false)
  end.
Proof.
  intros He. destruct m as [| p | p]; cbn [binary_normalize];
    [reflexivity | |]; apply binary_round_pos; exact He.
Qed.

Lemma valid_finite (s : bool) (m : positive) (e : Z) :
  valid_binary (S754_finite s m e) = true ->
  emin <= e /\ Zpos (digits2_pos m) <= prec /\ (emin < e -> Zpos (digits2_pos m) = prec).
Proof.
  unfold SpecFloat.valid_binary, bounded, canonical_mantissa. intros H.
  apply andb_prop in H. destruct H as [H _]. apply Z.eqb_eq in H.
  unfold fexp in H. change prec with 53 in *. lia.
Qed.

Lemma SFltb_zero_positive (r : spec_float) :
  SFpositive false r -> SFltb (S754_zero false) r = true.
Proof. intros [-> | (m & e & ->)]; reflexivity. Qed.

Lemma SFltb_zero_negative (r : spec_float) :
  SFpositive true r -> SFltb (S754_zero false) r = false.
Proof. intros [-> | (m & e & ->)]; reflexivity. Qed.

Lemma SFleb_zero_signed (r : spec_float) :
  SFsigned false r -> SFleb (S754_zero false) r = true.
Proof. intros [-> | [-> | (m & e & ->)]]; reflexivity. Qed.

End RoundingProperties.

(** The sum of two numbers that are not negative, one of them positive, is
    positive: it is never rounded to zero. *)
Lemma add_pos (a b : float) :
  (0 <=? a) = true -> (0 <=? b) = true -> (0 <? a) = true \/ (0 <? b) = true ->
  (0 <? a + b) = true.
Proof.
  rewrite !leb_spec, !ltb_spec, add_spec.
  pose proof (Prim2SF_valid a) as Va. pose proof (Prim2SF_valid b) as Vb.
  change (Prim2SF 0) with (S754_zero false).
  destruct (Prim2SF a) as [sa | sa | | sa ma ea], (Prim2SF b) as [sb | sb | | sb mb eb];
    cbn; intros Ha Hb Hab; try discriminate Ha; try discriminate Hb;
    try (destruct Hab as [Hab | Hab]; discriminate Hab);
    try (destruct sa; try discriminate Ha); try (destruct sb; try discriminate Hb);
    try reflexivity.
  apply SFltb_zero_positive.
  destruct (valid_finite _ _ _ Va) as (Hea & _). destruct (valid_finite _ _ _ Vb) as (Heb & _).
  pose proof (binary_normalize_sign
                (Z.pos (fst (shl_align ma ea (Z.min ea eb)))
                 + Z.pos (fst (shl_align mb eb (Z.min ea eb))))%Z (Z.min ea eb)) as H.
  cbn [Z.add] in H. apply H. lia.
Qed.

(** A number that is not negative, multiplied or divided by a positive
    finite number, is not negative (and not NaN). *)
Lemma mul_nonneg (a c : float) (mc : positive) (ec : Z) :
  Prim2SF c = S754_finite false mc ec ->
  (0 <=? a) = true -> (0 <=? a * c) = true.
Proof.
  intros Hc. rewrite !leb_spec, mul_spec, Hc.
  change (Prim2SF 0) with (S754_zero false).
  destruct (Prim2SF a) as [sa | sa | | sa ma ea]; cbn; intros Ha; try discriminate Ha;
    try (destruct sa; try discriminate Ha; reflexivity).
  destruct sa; [discriminate Ha |].
  apply SFleb_zero_signed. apply binary_round_aux_signed. lia.
Qed.

Lemma div_nonneg (a c : float) (mc : positive) (ec : Z) :
  Prim2SF c = S754_finite false mc ec ->
  (0 <=? a) = true -> (0 <=? a / c) = true.
Proof.
  intros Hc. rewrite !leb_spec, div_spec, Hc.
  change (Prim2SF 0) with (S754_zero false).
  destruct (Prim2SF a) as [sa | sa | | sa ma ea]; cbn -[SFdiv_core_binary];
    intros Ha; try discriminate Ha;
    try (destruct sa; try discriminate Ha; reflexivity).
  destruct sa; [discriminate Ha |].
  apply SFleb_zero_signed. cbn [xorb].
  destruct (SFdiv_core_binary prec emax (Z.pos ma) ea (Z.pos mc) ec) as [[mz ez] lz] eqn:Hd.
  apply binary_round_aux_signed.
  unfold SFdiv_core_binary in Hd.
  match type of Hd with
  | context [Z.div_eucl ?m' ?m2] =>
      assert (Hm' : (0 <= m')%Z);
      [| pose proof (Z_div_mod m' m2 ltac:(lia)) as Hq;
         destruct (Z.div_eucl m' m2) as [q r]; injection Hd as <- _ _; nia]
  end.
  match goal with
  | |- (0 <= match ?s with _ => _ end)%Z => destruct s eqn:Hs; try lia
  end.
  rewrite Z.shiftl_mul_pow2 by lia. apply Z.mul_nonneg_nonneg; [lia |].
  apply Z.pow_nonneg. lia.
Qed.

(** The number of binary digits grows with the number. *)
Lemma digits2_pos_mono (a b : positive) :
  (Zpos a <= Zpos b)%Z -> (Zpos (digits2_pos a) <= Zpos (digits2_pos b))%Z.
Proof.
  intros Hab. pose proof (digits2_bounds a) as [Hlow _].
  pose proof (digits2_bounds b) as [_ Hup].
  assert (H : (2 ^ (Zpos (digits2_pos a) - 1) < 2 ^ Zpos (digits2_pos b))%Z) by lia.
  apply Z.pow_lt_mono_r_iff in H; lia.
Qed.

(** A positive number multiplied by a number that is at least 1 is
    positive: the product is not rounded to zero. *)
Lemma mul_pos_ge_one (x c : float) :
  (0 <? x) = true -> (1 <=? c) = true -> (0 <? x * c) = true.
Proof.
  rewrite !ltb_spec, leb_spec, mul_spec.
  pose proof (Prim2SF_valid x) as Vx. pose proof (Prim2SF_valid c) as Vc.
  change (Prim2SF 0) with (S754_zero false).
  change (Prim2SF 1) with (S754_finite false 4503599627370496 (-52)).
  destruct (Prim2SF x) as [sx | sx | | sx mx ex], (Prim2SF c) as [sc | sc | | sc mc ec];
    cbn; intros Hx Hc; try discriminate Hx; try discriminate Hc;
    try (destruct sx; try discriminate Hx); try (destruct sc; try discriminate Hc);
    try reflexivity.
  apply SFltb_zero_positive. apply binary_round_aux_pos; [lia |].
  cbn [Zdigits2].
  destruct (valid_finite _ _ _ Vx) as (Hex & _).
  destruct (valid_finite _ _ _ Vc) as (_ & _ & Hdc).
  assert (Hmono : (Zpos (digits2_pos mc) <= Zpos (digits2_pos (mx * mc)))%Z)
    by (apply digits2_pos_mono; nia).
  assert (Hc53 : (-52 < ec /\ Zpos (digits2_pos mc) = prec
                  \/ ec = -52 /\ 52 < Zpos (digits2_pos mc))%Z).
  { change (match ec with Z.neg y' => CompOpp (52 ?= y')%positive | _ => Lt end)
      with (Z.compare (-52) ec) in Hc.
    destruct (Z.compare_spec (-52) ec) as [Heq | Hlt | Hgt]; try discriminate Hc.
    - right. split; [lia |]. subst ec.
      change (PosDef.Pos.compare_cont Eq 4503599627370496 mc)
        with (Pos.compare 4503599627370496 mc) in Hc.
      assert (Hmc : (4503599627370496 <= Zpos mc)%Z).
      { destruct (Pos.compare_spec 4503599627370496 mc) as [H | H | H];
          try discriminate Hc; lia. }
      pose proof (digits2_bounds mc) as [_ Hup].
      assert (H : (2 ^ 52 < 2 ^ Zpos (digits2_pos mc))%Z)
        by (change (2 ^ 52)%Z with 4503599627370496%Z; lia).
      apply Z.pow_lt_mono_r_iff in H; lia.
    - left. split; [lia |]. apply Hdc. change emin with (-1074)%Z. lia. }
  clear Hc Hdc Vx Vc. change emin with (-1074)%Z in *. change prec with 53%Z in *. lia.
Qed.

Section ComparisonProperties.

Import Rounding.

Local Open Scope Z_scope.

(** A canonical number with the smaller exponent is the smaller one. *)
Lemma canonical_lt (s1 s2 : bool) (m1 m2 : positive) (e1 e2 : Z) :
  valid_binary (S754_finite s1 m1 e1) = true ->
  valid_binary (S754_finite s2 m2 e2) = true ->
  e1 < e2 -> Zpos m1 < Zpos m2 * 2 ^ (e2 - e1).
Proof.
  intros V1 V2 Hlt.
  destruct (valid_finite _ _ _ V1) as (He1 & Hd1 & _).
  destruct (valid_finite _ _ _ V2) as (_ & _ & Hd2).
  specialize (Hd2 ltac:(lia)).
  pose proof (digits2_bounds m1) as [_ Hup]. pose proof (digits2_bounds m2) as [Hlow _].
  rewrite Hd2 in Hlow.
  assert (H1 : 2 ^ Zpos (digits2_pos m1) <= 2 ^ prec) by (apply Z.pow_le_mono_r; lia).
  assert (H2 : 2 ^ 1 <= 2 ^ (e2 - e1)) by (apply Z.pow_le_mono_r; lia).
  assert (H3 : 2 ^ prec = 2 ^ (prec - 1) * 2 ^ 1) by reflexivity.
  assert (H4 : 0 < 2 ^ (prec - 1)) by reflexivity.
  nia.
Qed.

Lemma SFcompare_aligned (s1 s2 : bool) (m1 m2 : positive) (e1 e2 : Z) :
  valid_binary (S754_finite s1 m1 e1) = true ->
  valid_binary (S754_finite s2 m2 e2) = true ->
  SFcompare (S754_finite s1 m1 e1) (S754_finite s2 m2 e2)
  = Some (alignedZ s1 m1 e1 (Z.min e1 e2) ?= alignedZ s2 m2 e2 (Z.min e1 e2)).
Proof.
  intros V1 V2. unfold alignedZ.
  destruct (shl_align_le m1 e1 (Z.min e1 e2) ltac:(lia)) as [-> _].
  destruct (shl_align_le m2 e2 (Z.min e1 e2) ltac:(lia)) as [-> _].
  cbn [SFcompare]. f_equal.
  change (PosDef.Pos.compare_cont Eq m1 m2) with (Pos.compare m1 m2).
  assert (Hpow : forall k, 0 <= k -> 0 < 2 ^ k) by (intros; apply Z.pow_pos_nonneg; lia).
  destruct (Z.compare_spec e1 e2) as [Heq | Hlt | Hgt].
  - subst e2. rewrite Z.min_id, Z.sub_diag. cbn [Z.pow]. rewrite !Z.mul_1_r.
    destruct s1, s2; reflexivity.
  - rewrite Z.min_l by lia. rewrite Z.sub_diag. cbn [Z.pow]. rewrite Z.mul_1_r.
    pose proof (canonical_lt _ _ _ _ _ _ V1 V2 Hlt) as H.
    destruct s1, s2; cbn [cond_Zopp]; symmetry.
    + apply Z.compare_gt_iff. lia.
    + apply Z.compare_lt_iff. pose proof (Hpow (e2 - e1) ltac:(lia)). nia.
    + apply Z.compare_gt_iff. pose proof (Hpow (e2 - e1) ltac:(lia)). nia.
    + apply Z.compare_lt_iff. lia.
  - rewrite Z.min_r by lia. rewrite Z.sub_diag. cbn [Z.pow]. rewrite Z.mul_1_r.
    pose proof (canonical_lt _ _ _ _ _ _ V2 V1 ltac:(lia)) as H.
    destruct s1, s2; cbn [cond_Zopp]; symmetry.
    + apply Z.compare_lt_iff. lia.
    + apply Z.compare_lt_iff. pose proof (Hpow (e1 - e2) ltac:(lia)). nia.
    + apply Z.compare_gt_iff. pose proof (Hpow (e1 - e2) ltac:(lia)). nia.
    + apply Z.compare_gt_iff. lia.
Qed.

End ComparisonProperties.

(** The comparator [(a, b) => b - a] is positive exactly when [a < b]:
    a difference of two distinct numbers is never rounded to zero, and a
    difference that involves NaN, or two equal infinities, is NaN. *)
Lemma sub_pos_iff (a b : float) : (0 <? b - a) = (a <? b).
Proof.
  rewrite !ltb_spec, sub_spec.
  pose proof (Prim2SF_valid a) as Va. pose proof (Prim2SF_valid b) as Vb.
  change (Prim2SF 0) with (S754_zero false).
  destruct (Prim2SF a) as [sa | sa | | sa ma ea], (Prim2SF b) as [sb | sb | | sb mb eb];
    try reflexivity;
    try (destruct sa; reflexivity); try (destruct sb; reflexivity);
    try (destruct sa, sb; reflexivity).
  unfold SFltb at 2. rewrite (SFcompare_aligned _ _ _ _ _ _ Va Vb).
  unfold SF64sub, SFsub. fold (Rounding.alignedZ sb mb eb (Z.min eb ea)).
  fold (Rounding.alignedZ sa ma ea (Z.min eb ea)). rewrite (Z.min_comm eb ea).
  destruct (valid_finite _ _ _ Va) as (Hea & _). destruct (valid_finite _ _ _ Vb) as (Heb & _).
  pose proof (binary_normalize_sign
                (Rounding.alignedZ sb mb eb (Z.min ea eb) - Rounding.alignedZ sa ma ea (Z.min ea eb))
                (Z.min ea eb) ltac:(lia)) as H.
  destruct (Z.compare_spec (Rounding.alignedZ sa ma ea (Z.min ea eb))
                           (Rounding.alignedZ sb mb eb (Z.min ea eb))) as [Heq | Hlt | Hgt].
  - rewrite Heq, Z.sub_diag in *. rewrite H. reflexivity.
  - destruct (Rounding.alignedZ sb mb eb (Z.min ea eb) - Rounding.alignedZ sa ma ea (Z.min ea eb))%Z
      eqn:Hd; try lia.
    apply SFltb_zero_positive. exact H.
  - destruct (Rounding.alignedZ sb mb eb (Z.min ea eb) - Rounding.alignedZ sa ma ea (Z.min ea eb))%Z
      eqn:Hd; try lia.
    apply SFltb_zero_negative. exact H.
Qed.

Set Implicit Arguments.

(** ** The payment gateway *)

Section GatewayProperties.

Import Gateway.

Variable rt : Runtime.
Variable cfg : Config.
Variable ledger : Ledger.

Local Abbreviation parseX402Header := (parseX402Header rt).
Local Abbreviation verifyPayment := (verifyPayment rt cfg ledger).
Local Abbreviation requirePayment := (requirePayment rt cfg ledger).
Local Abbreviation scanPostBalances := (scanPostBalances rt cfg).

Lemma noHeader_false (req : Request) (h : string) :
  header req = Some h -> h <> "" -> noHeader req = false.
Proof.
  intros Hh Hne. unfold noHeader. rewrite Hh.
  apply String.eqb_neq. exact Hne.
Qed.

(** The middleware on a request that carries a non-empty header and does
    not ask for the bypass. *)
Lemma requirePayment_header (requiredAmount : number) (req : Request) (h : string) :
  bypass req = false -> header req = Some h -> h <> "" ->
  requirePayment requiredAmount req =
    match parseX402Header h with
    | None => MalformedProof
    | Some payment =>
        if converts (pay_amount payment) then
          if lt rt (pay_amount payment) requiredAmount
          then InsufficientAmount cfg requiredAmount
          else if negb (strict_eq_string (pay_recipient payment) (RECIPIENT_WALLET cfg))
          then WrongRecipient
          else if negb (verifyPayment (pay_signature payment) requiredAmount
                                      (RECIPIENT_WALLET cfg))
          then ChainVerificationFailed
          else if converts (pay_signature payment) then Authorized
          else InternalServerError
        else InternalServerError
    end.
Proof.
  intros Hb Hh Hne. unfold Gateway.requirePayment, Gateway.requirePayment_try.
  rewrite Hb, Hh.
  apply String.eqb_neq in Hne. rewrite Hne.
  destruct (parseX402Header h) as [payment |]; [| reflexivity].
  unfold lessThan, ToNumber, ToString, lt.
  destruct (converts (pay_amount payment)); cbn [bind try_catch]; [| reflexivity].
  destruct (numberOf rt (pay_amount payment) <? requiredAmount); cbn [bind try_catch];
    [reflexivity |].
  destruct (negb (strict_eq_string (pay_recipient payment) (RECIPIENT_WALLET cfg)));
    [reflexivity |].
  destruct (negb (verifyPayment (pay_signature payment) requiredAmount
                                (RECIPIENT_WALLET cfg))); [reflexivity |].
  destruct (converts (pay_signature payment)); reflexivity.
Qed.

Lemma requirePayment_no_header (requiredAmount : number) (req : Request) :
  bypass req = false -> noHeader req = true ->
  requirePayment requiredAmount req = MissingProof cfg requiredAmount.
Proof.
  intros Hb. unfold noHeader, Gateway.requirePayment, Gateway.requirePayment_try.
  rewrite Hb. destruct (header req) as [h |]; [| reflexivity].
  intros ->. reflexivity.
Qed.

(** C1, as the code has it: with the bypass disabled, a missing (or empty)
    header gives MissingProof (402 with the requirement); a header that
    does not parse gives MalformedProof (400); a parsed proof gives, in this
    order, the generic 500 reply when the conversion of its amount to a
    number throws, InsufficientAmount (402) when [amount < R],
    WrongRecipient (400) when the recipient is not the configured wallet,
    ChainVerificationFailed (402) when verification fails, the generic 500
    reply when the signature cannot be printed, and Authorized otherwise.
    Authorized is returned if and only if the proof parses, its amount and
    signature convert, the comparison [amount < R] is false, the recipient
    matches and verification succeeds; [amount < R] is false when
    [amount >= R] and also when the amount (absent, or not numeric) or R is
    NaN. The generic 500 reply is given exactly in the two cases named. *)
Theorem requirePayment_outcomes (requiredAmount : number) (req : Request) :
  bypass req = false ->
  (noHeader req = true -> requirePayment requiredAmount req = MissingProof cfg requiredAmount)
  /\ (forall h, header req = Some h -> h <> "" ->
        match parseX402Header h with
        | None => requirePayment requiredAmount req = MalformedProof
        | Some payment =>
            let readable := converts (pay_amount payment) in
            let below := lt rt (pay_amount payment) requiredAmount in
            let same := strict_eq_string (pay_recipient payment) (RECIPIENT_WALLET cfg) in
            let paid := verifyPayment (pay_signature payment) requiredAmount
                                      (RECIPIENT_WALLET cfg) in
            let printable := converts (pay_signature payment) in
            (readable = false ->
               requirePayment requiredAmount req = InternalServerError)
            /\ (readable = true -> below = true ->
                  requirePayment requiredAmount req = InsufficientAmount cfg requiredAmount)
            /\ (readable = true -> below = false -> same = false ->
                  requirePayment requiredAmount req = WrongRecipient)
            /\ (readable = true -> below = false -> same = true -> paid = false ->
                  requirePayment requiredAmount req = ChainVerificationFailed)
            /\ (readable = true -> below = false -> same = true -> paid = true ->
                printable = false ->
                  requirePayment requiredAmount req = InternalServerError)
            /\ (readable = true -> below = false -> same = true -> paid = true ->
                printable = true ->
                  requirePayment requiredAmount req = Authorized)
        end)
  /\ (requirePayment requiredAmount req = Authorized <->
      exists h payment,
        header req = Some h /\ h <> "" /\ parseX402Header h = Some payment
        /\ converts (pay_amount payment) = true
        /\ lt rt (pay_amount payment) requiredAmount = false
        /\ strict_eq_string (pay_recipient payment) (RECIPIENT_WALLET cfg) = true
        /\ verifyPayment (pay_signature payment) requiredAmount (RECIPIENT_WALLET cfg)
           = true
        /\ converts (pay_signature payment) = true)
  /\ (requirePayment requiredAmount req = InternalServerError <->
      exists h payment,
        header req = Some h /\ h <> "" /\ parseX402Header h = Some payment
        /\ (converts (pay_amount payment) = false
            \/ (lt rt (pay_amount payment) requiredAmount = false
                /\ strict_eq_string (pay_recipient payment) (RECIPIENT_WALLET cfg) = true
                /\ verifyPayment (pay_signature payment) requiredAmount
                     (RECIPIENT_WALLET cfg) = true
                /\ converts (pay_signature payment) = false)))
  /\ (forall amount : value,
        lt rt amount requiredAmount = false <->
        ge rt amount requiredAmount = true
        \/ is_nan (numberOf rt amount) = true \/ is_nan requiredAmount = true).
Proof.
  intros Hb. split; [| split; [| split; [| split]]];
    [| | | | intros amount; apply not_ltb_iff].
  - exact (requirePayment_no_header requiredAmount req Hb).
  - intros h Hh Hne. rewrite (requirePayment_header requiredAmount req Hb Hh Hne).
    destruct (parseX402Header h) as [payment |]; [| reflexivity].
    cbv zeta. repeat split; intros; repeat
      match goal with
      | H : _ = true |- _ => rewrite H
      | H : _ = false |- _ => rewrite H
      end; reflexivity.
  - split.
    + intros Hr. destruct (header req) as [h |] eqn:Hh.
      * destruct (String.eqb_spec h "") as [-> | Hne].
        -- rewrite requirePayment_no_header in Hr;
             [discriminate Hr | exact Hb | unfold noHeader; rewrite Hh; reflexivity].
        -- rewrite (requirePayment_header requiredAmount req Hb Hh Hne) in Hr.
           destruct (parseX402Header h) as [payment |] eqn:Hp; [| discriminate Hr].
           exists h, payment.
           destruct (converts (pay_amount payment)); [| discriminate Hr].
           destruct (lt rt (pay_amount payment) requiredAmount); [discriminate Hr |].
           destruct (strict_eq_string (pay_recipient payment) (RECIPIENT_WALLET cfg));
             [| discriminate Hr].
           destruct (verifyPayment (pay_signature payment) requiredAmount
                                   (RECIPIENT_WALLET cfg)); [| discriminate Hr].
           destruct (converts (pay_signature payment)); [| discriminate Hr].
           repeat split; auto.
      * rewrite requirePayment_no_header in Hr;
          [discriminate Hr | exact Hb | unfold noHeader; rewrite Hh; reflexivity].
    + intros (h & payment & Hh & Hne & Hp & Hc & Hlt & Hrec & Hv & Hs).
      rewrite (requirePayment_header requiredAmount req Hb Hh Hne), Hp, Hc, Hlt, Hrec, Hv, Hs.
      reflexivity.
  - split.
    + intros Hr. destruct (header req) as [h |] eqn:Hh.
      * destruct (String.eqb_spec h "") as [-> | Hne].
        -- rewrite requirePayment_no_header in Hr;
             [discriminate Hr | exact Hb | unfold noHeader; rewrite Hh; reflexivity].
        -- rewrite (requirePayment_header requiredAmount req Hb Hh Hne) in Hr.
           destruct (parseX402Header h) as [payment |] eqn:Hp; [| discriminate Hr].
           exists h, payment.
           destruct (converts (pay_amount payment)); [| repeat split; auto].
           destruct (lt rt (pay_amount payment) requiredAmount); [discriminate Hr |].
           destruct (strict_eq_string (pay_recipient payment) (RECIPIENT_WALLET cfg));
             [| discriminate Hr].
           destruct (verifyPayment (pay_signature payment) requiredAmount
                                   (RECIPIENT_WALLET cfg)); [| discriminate Hr].
           destruct (converts (pay_signature payment)); [discriminate Hr |].
           repeat split; auto.
      * rewrite requirePayment_no_header in Hr;
          [discriminate Hr | exact Hb | unfold noHeader; rewrite Hh; reflexivity].
    + intros (h & payment & Hh & Hne & Hp & [Hc | (Hlt & Hrec & Hv & Hs)]);
        rewrite (requirePayment_header requiredAmount req Hb Hh Hne), Hp.
      * rewrite Hc. reflexivity.
      * rewrite Hlt, Hrec, Hv, Hs. destruct (converts (pay_amount payment)); reflexivity.
Qed.

Lemma parse_nonnull (h : string) (v : json) :
  JSON_parse rt h = Some v -> v <> JNull ->
  parseX402Header h = Some {|
    pay_amount := or_ (get v "amount") (get v "value");
    pay_token := or_ (get v "token") (get v "mint");
    pay_sender := or_ (or_ (get v "sender") (get v "from")) (get v "payer");
    pay_recipient := or_ (or_ (get v "recipient") (get v "to")) (get v "payee");
    pay_signature := or_ (or_ (get v "signature") (get v "txSignature")) (get v "tx");
    pay_timestamp := or_ (get v "timestamp") (Some (JNum (Date_now rt))) |}.
Proof.
  intros Hp Hv. unfold Gateway.parseX402Header. rewrite Hp.
  destruct v; try reflexivity. contradiction.
Qed.

(** C9: a header whose text is JSON other than [null] always yields a
    proof record, also when none of the expected fields is present (all
    fields but the timestamp are then [undefined]), so the reply is never
    MalformedProof; and when the amount of the record is absent the reply is
    never InsufficientAmount: it is decided by the recipient check and, if
    that passes, by the on-chain verification (after which the signature is
    printed). *)
Theorem parsed_header_never_malformed (h : string) (v : json) :
  JSON_parse rt h = Some v -> v <> JNull -> h <> "" ->
  exists payment,
    parseX402Header h = Some payment
    /\ ((forall k, get v k = undefined) ->
          payment = {| pay_amount := undefined; pay_token := undefined;
                       pay_sender := undefined; pay_recipient := undefined;
                       pay_signature := undefined;
                       pay_timestamp := Some (JNum (Date_now rt)) |})
    /\ (forall requiredAmount req, header req = Some h ->
          requirePayment requiredAmount req <> MalformedProof)
    /\ (pay_amount payment = undefined ->
        forall requiredAmount req, header req = Some h -> bypass req = false ->
          lt rt (pay_amount payment) requiredAmount = false
          /\ requirePayment requiredAmount req <> InsufficientAmount cfg requiredAmount
          /\ requirePayment requiredAmount req =
               if negb (strict_eq_string (pay_recipient payment) (RECIPIENT_WALLET cfg))
               then WrongRecipient
               else if negb (verifyPayment (pay_signature payment) requiredAmount
                                           (RECIPIENT_WALLET cfg))
               then ChainVerificationFailed
               else if converts (pay_signature payment) then Authorized
               else InternalServerError).
Proof.
  intros Hp Hv Hne. eexists. split; [exact (parse_nonnull h Hp Hv) |].
  split; [| split].
  - intros Hnone. rewrite !Hnone. reflexivity.
  - intros requiredAmount req Hh.
    destruct (bypass req) eqn:Hb.
    + unfold Gateway.requirePayment, Gateway.requirePayment_try.
      rewrite Hb. discriminate.
    + rewrite (requirePayment_header requiredAmount req Hb Hh Hne),
        (parse_nonnull h Hp Hv).
      repeat match goal with |- context [if ?c then _ else _] => destruct c end;
        discriminate.
  - cbn [pay_amount pay_recipient pay_signature]. intros Ha requiredAmount req Hh Hb.
    assert (Hlt : lt rt (or_ (get v "amount") (get v "value")) requiredAmount = false).
    { rewrite Ha. apply nan_ltb_false. }
    rewrite (requirePayment_header requiredAmount req Hb Hh Hne),
      (parse_nonnull h Hp Hv).
    cbn [pay_amount pay_recipient pay_signature]. rewrite Hlt, Ha. cbn [converts].
    repeat split.
    repeat match goal with |- context [if ?c then _ else _] => destruct c end;
      discriminate.
Qed.

(** The loop throws exactly when a record of the configured asset is met
    and the account keys cannot be resolved. *)
Lemma scanPostBalances_throw tx ata pre expected posts :
  scanPostBalances tx ata pre expected posts = Throw
  <-> accountKeysMissing cfg tx posts = true.
Proof.
  unfold accountKeysMissing.
  induction posts as [| pb rest IH]; cbn [Gateway.scanPostBalances existsb].
  - destruct (getAccountKeys tx); split; discriminate.
  - destruct (String.eqb (mint pb) (USDC_MINT cfg)); cbn [orb].
    + destruct (getAccountKeys tx) as [keys |]; cbn [bind].
      * destruct (nth_error keys (accountIndex pb)) as [key |]; [| exact IH].
        destruct (_ && _); [split; discriminate | exact IH].
      * split; reflexivity.
    + exact IH.
Qed.

(** C2, as the code has it: [verifyPayment] returns [true] exactly when the
    fetched transaction exists with its metadata, its execution outcome is
    not an error, and no step throws: the keys of the recipient and of the
    asset are well formed, the associated token account can be derived, and
    the account keys resolve if a record of the asset is present. Whether a
    record of the recipient matches the expected amount plays no part. *)
Theorem verifyPayment_true_iff (signature : value) (expectedAmount : number)
    (expectedRecipient : string) :
  verifyPayment signature expectedAmount expectedRecipient = true <->
  exists tx m recipientPubkey usdcMint recipientAta,
    getTransaction ledger signature = Ok (Some tx)
    /\ meta tx = Some m
    /\ truthy (err m) = false
    /\ PublicKey ledger expectedRecipient = Ok recipientPubkey
    /\ PublicKey ledger (USDC_MINT cfg) = Ok usdcMint
    /\ getAssociatedTokenAddress ledger usdcMint recipientPubkey = Ok recipientAta
    /\ accountKeysMissing cfg tx (orEmpty (postTokenBalances m)) = false.
Proof.
  unfold Gateway.verifyPayment, Gateway.verifyPayment_try. split.
  - destruct (getTransaction ledger signature) as [[tx |] |] eqn:Ht;
      cbn [bind try_catch]; try discriminate.
    destruct (meta tx) as [m |] eqn:Hm; cbn [try_catch]; try discriminate.
    destruct (truthy (err m)) eqn:He; cbn [try_catch]; try discriminate.
    destruct (PublicKey ledger expectedRecipient) as [rpk |] eqn:Hr;
      cbn [bind try_catch]; try discriminate.
    destruct (PublicKey ledger (USDC_MINT cfg)) as [mpk |] eqn:Hu;
      cbn [bind try_catch]; try discriminate.
    destruct (getAssociatedTokenAddress ledger mpk rpk) as [ata |] eqn:Ha;
      cbn [bind try_catch]; try discriminate.
    destruct (scanPostBalances tx ata (orEmpty (preTokenBalances m)) expectedAmount
                (orEmpty (postTokenBalances m))) as [b |] eqn:Hs;
      cbn [bind try_catch]; try discriminate.
    intros _. exists tx, m, rpk, mpk, ata.
    destruct (accountKeysMissing cfg tx (orEmpty (postTokenBalances m))) eqn:Hk.
    + rewrite (proj2 (scanPostBalances_throw tx ata (orEmpty (preTokenBalances m))
                        expectedAmount _) Hk) in Hs.
      discriminate.
    + repeat split; assumption.
  - intros (tx & m & rpk & mpk & ata & Ht & Hm & He & Hr & Hu & Ha & Hk).
    rewrite Ht. cbn [bind]. rewrite Hm, He, Hr. cbn [bind]. rewrite Hu. cbn [bind].
    rewrite Ha. cbn [bind].
    destruct (scanPostBalances tx ata (orEmpty (preTokenBalances m)) expectedAmount
                (orEmpty (postTokenBalances m))) as [b |] eqn:Hs; cbn [bind try_catch].
    + destruct b; reflexivity.
    + rewrite (proj1 (scanPostBalances_throw _ _ _ _ _) Hs) in Hk. discriminate.
Qed.

End GatewayProperties.

(** C1, counterexample: a proof that names the recipient and a paid
    transaction but carries no amount is authorized, although
    [amount >= R] does not hold of it. *)
Lemma authorized_without_amount :
  Gateway.requirePayment Examples.rt Examples.cfg Examples.ledger 50000
    (Examples.request Examples.headerNoAmount) = Gateway.Authorized
  /\ exists payment,
       Gateway.parseX402Header Examples.rt Examples.headerNoAmount = Some payment
       /\ Gateway.pay_amount payment = undefined
       /\ ge Examples.rt (Gateway.pay_amount payment) 50000 = false
       /\ Claimed.authorized Examples.rt Examples.cfg Examples.ledger 50000 payment = false.
Proof.
  split; [vm_compute; reflexivity |].
  eexists. split; [vm_compute; reflexivity |].
  repeat split; vm_compute; reflexivity.
Qed.

(** A proof whose amount is an object with a property named [toString]:
    the comparison with the required amount throws, and the middleware gives
    the generic 500 reply. *)
Example unconvertible_amount_fails :
  JSON_parse ExamplesMore.rt ExamplesMore.opaqueAmountHeader
  = Some ExamplesMore.opaqueAmountProof
  /\ converts (get ExamplesMore.opaqueAmountProof "amount") = false
  /\ Gateway.requirePayment ExamplesMore.rt Examples.cfg Examples.ledger 50000
       (Examples.request ExamplesMore.opaqueAmountHeader)
     = Gateway.InternalServerError.
Proof. repeat split. Qed.

(** C2, counterexample: the transaction [sigDust] succeeded and moved 1
    micro-USDC into the recipient's associated token account. The record
    of that account is found and is not within the tolerance of the expected
    50000, so neither (a) nor (b) holds, and [verifyPayment] returns [true]. *)
Lemma verifyPayment_accepts_mismatch :
  Gateway.verifyPayment Examples.rt Examples.cfg Examples.ledger
    (Some (JStr "sigDust")) 50000 Examples.wallet = true
  /\ Claimed.verified Examples.rt Examples.cfg Examples.ledger
       (Some (JStr "sigDust")) 50000 (Examples.ataOf Examples.wallet) = false
  /\ Gateway.scanPostBalances Examples.rt Examples.cfg (Examples.transferTx "7" "8")
       (Examples.ataOf Examples.wallet) [Examples.usdcEntry 1 "7"] 50000
       [Examples.usdcEntry 1 "8"] = Ok false.
Proof. repeat split; vm_compute; reflexivity. Qed.

(** ** The aggregation engine *)

Section SortProperties.

Import Yield.

Lemma insertSorted_perm (x : YieldOpportunity) (l : list YieldOpportunity) :
  Permutation (x :: l) (insertSorted x l).
Proof.
  induction l as [| y rest IH]; cbn [insertSorted].
  - apply Permutation_refl.
  - destruct (0 <? compareApy x y).
    + apply perm_trans with (y :: x :: rest).
      * apply perm_swap.
      * apply perm_skip. exact IH.
    + apply Permutation_refl.
Qed.

(** Sorting rearranges the list and loses nothing. *)
Lemma sortByApy_perm (l : list YieldOpportunity) : Permutation l (sortByApy l).
Proof.
  induction l as [| x rest IH]; cbn [sortByApy fold_right].
  - apply perm_nil.
  - apply perm_trans with (x :: sortByApy rest).
    + apply perm_skip. exact IH.
    + apply insertSorted_perm.
Qed.

Lemma sortByApy_length (l : list YieldOpportunity) :
  List.length (sortByApy l) = List.length l.
Proof. symmetry. apply Permutation_length, sortByApy_perm. Qed.

Lemma topTen_subset (l : list YieldOpportunity) (x : YieldOpportunity) :
  In x (firstn 10 (sortByApy l)) -> In x l.
Proof.
  intros Hin. apply Permutation_in with (sortByApy l).
  - apply Permutation_sym, sortByApy_perm.
  - rewrite <- (firstn_skipn 10 (sortByApy l)). apply in_or_app. left. exact Hin.
Qed.

Lemma topTen_all (l : list YieldOpportunity) :
  (List.length l <= 10)%nat -> Permutation l (firstn 10 (sortByApy l)).
Proof.
  intros Hlen. rewrite firstn_all2.
  - apply sortByApy_perm.
  - rewrite sortByApy_length. exact Hlen.
Qed.

Lemma topTen_nonempty (l : list YieldOpportunity) :
  l <> [] -> firstn 10 (sortByApy l) <> [].
Proof.
  intros Hne Hnil. apply Hne.
  apply (f_equal (@List.length _)) in Hnil.
  rewrite length_firstn, sortByApy_length in Hnil.
  destruct l as [| x rest]; [reflexivity |].
  cbn [List.length] in Hnil. lia.
Qed.

(** The comparator sends [x] behind [y] exactly when the APY of [x] is the
    smaller one. *)
Lemma compareApy_positive (x y : YieldOpportunity) :
  (0 <? compareApy x y) = (apy x <? apy y).
Proof. unfold compareApy. apply sub_pos_iff. Qed.

Lemma insertSorted_descending (x : YieldOpportunity) (l : list YieldOpportunity) :
  is_nan (apy x) = false -> Forall (fun o => is_nan (apy o) = false) l ->
  ClaimedYield.descending l -> ClaimedYield.descending (insertSorted x l).
Proof.
  intros Hx Hl Hs. unfold ClaimedYield.descending in *.
  induction Hs as [| y rest Hrest IH Hy]; cbn [insertSorted].
  - constructor; constructor.
  - inversion Hl as [| ? ? Hny Hnrest]; subst.
    rewrite compareApy_positive. destruct (apy x <? apy y) eqn:Hlt.
    + constructor; [apply IH; exact Hnrest |].
      apply Forall_forall. intros z Hz.
      apply (Permutation_in z (Permutation_sym (insertSorted_perm x rest))) in Hz.
      destruct Hz as [<- | Hz]; [apply ltb_leb; exact Hlt |].
      rewrite Forall_forall in Hy. exact (Hy z Hz).
    + assert (Hyx : (apy y <=? apy x) = true).
      { apply not_ltb_iff in Hlt. destruct Hlt as [H | [H | H]]; [exact H | |]; congruence. }
      constructor; [constructor; assumption |].
      constructor; [exact Hyx |].
      apply Forall_impl with (2 := Hy). intros z Hz. exact (leb_trans Hz Hyx).
Qed.

(** Sorting puts the entries in descending order of APY, provided no APY
    is NaN (the comparator then orders the entries consistently). *)
Lemma sortByApy_descending (l : list YieldOpportunity) :
  Forall (fun o => is_nan (apy o) = false) l -> ClaimedYield.descending (sortByApy l).
Proof.
  induction l as [| x rest IH]; intros Hl; cbn [sortByApy fold_right].
  - constructor.
  - inversion Hl as [| ? ? Hx Hrest]; subst. fold (sortByApy rest).
    apply insertSorted_descending; [exact Hx | | apply IH; exact Hrest].
    apply Forall_forall. intros z Hz.
    apply (Permutation_in z (Permutation_sym (sortByApy_perm rest))) in Hz.
    rewrite Forall_forall in Hrest. exact (Hrest z Hz).
Qed.

Lemma descending_app (front back : list YieldOpportunity) :
  ClaimedYield.descending (front ++ back) ->
  ClaimedYield.descending front
  /\ forall x y, In x front -> In y back -> (apy y <=? apy x) = true.
Proof.
  unfold ClaimedYield.descending.
  induction front as [| a front IH]; cbn [app]; intros Hs.
  - split; [constructor | intros x y []].
  - inversion Hs as [| ? ? Hrest Ha]; subst.
    destruct (IH Hrest) as [Hfront Hcross]. split.
    + constructor; [exact Hfront |].
      apply Forall_forall. intros z Hz. rewrite Forall_forall in Ha.
      apply Ha. apply in_or_app. left. exact Hz.
    + intros x y [<- | Hx] Hy.
      * rewrite Forall_forall in Ha. apply Ha. apply in_or_app. right. exact Hy.
      * exact (Hcross x y Hx Hy).
Qed.

Lemma descending_nonIncreasing (l : list YieldOpportunity) :
  ClaimedYield.descending l -> ClaimedYield.nonIncreasing (map apy l) = true.
Proof.
  unfold ClaimedYield.descending.
  induction 1 as [| a rest Hrest IH Ha]; [reflexivity |].
  destruct rest as [| b rest]; [reflexivity |].
  cbn [map ClaimedYield.nonIncreasing] in *. rewrite IH.
  inversion Ha as [| ? ? Hab _]; subst. rewrite Hab. reflexivity.
Qed.

(** The ten entries returned are in descending order, and an entry that
    was cut is not better than any entry returned. *)
Lemma topTen_descending (l : list YieldOpportunity) :
  Forall (fun o => is_nan (apy o) = false) l ->
  ClaimedYield.descending (firstn 10 (sortByApy l))
  /\ forall x y, In x (firstn 10 (sortByApy l)) -> In y l ->
                 ~ In y (firstn 10 (sortByApy l)) -> (apy y <=? apy x) = true.
Proof.
  intros Hl. pose proof (sortByApy_descending Hl) as Hs.
  rewrite <- (firstn_skipn 10 (sortByApy l)) in Hs.
  destruct (descending_app _ _ Hs) as [Hfront Hcross].
  split; [exact Hfront |].
  intros x y Hx Hy Hout. apply (Hcross x y Hx).
  apply (Permutation_in y (sortByApy_perm l)) in Hy.
  rewrite <- (firstn_skipn 10 (sortByApy l)) in Hy.
  apply in_app_or in Hy. destruct Hy as [Hy | Hy]; [contradiction | exact Hy].
Qed.

End SortProperties.

Section YieldProperties.

Import Yield.

Variable rt : Runtime.

Lemma fetchKaminoYields_down (p : Providers) :
  kamino_get p = Throw -> fetchKaminoYields rt p = getMockKaminoYields.
Proof. intros H. unfold fetchKaminoYields, fetchKaminoYields_try. rewrite H. reflexivity. Qed.

Lemma fetchDriftYields_down (p : Providers) :
  drift_subscribe p = Throw \/ drift_unsubscribe p = Throw ->
  fetchDriftYields rt p = getMockDriftYields.
Proof.
  intros H. unfold fetchDriftYields, fetchDriftYields_try.
  destruct (drift_subscribe p) as [markets |]; cbn [bind try_catch].
  - destruct H as [H | H]; [discriminate H |]. rewrite H.
    destruct (driftLoop rt (firstn 5 markets)); reflexivity.
  - reflexivity.
Qed.

(** The live path merges the three contributions and returns the first ten
    of the sorted merge. *)
Lemma getBestYields_live (p : Providers) :
  topOpportunities (getBestYields rt p false) =
    firstn 10 (sortByApy (fetchKaminoYields rt p ++ fetchMarginfiYields
                          ++ fetchDriftYields rt p)%list).
Proof. reflexivity. Qed.

(** The merged list always holds Marginfi's static table, so a call that is
    not in mock mode is marked 'live' whatever the providers did. *)
Lemma source_always_live (p : Providers) : source (getBestYields rt p false) = live.
Proof.
  unfold getBestYields, getBestYields_try, mergeSettled.
  cbn [try_catch source fulfilledValue].
  rewrite !length_app. unfold fetchMarginfiYields. cbn [getMockMarginfiYields List.length].
  destruct (Nat.ltb_spec 0 (List.length (fetchKaminoYields rt p)
             + (3 + List.length (fetchDriftYields rt p)))); [reflexivity | lia].
Qed.

(** C7, as the code has it: when the Kamino fetch or the Drift fetch errors,
    the call returns the first ten entries, by descending APY, of the merge
    of the other providers' contributions with the failing provider's static
    table. The result is never empty, holds only entries of that merge, and
    holds all of them when the merge has at most ten entries. When no APY
    of the merge is NaN, the returned entries stand in descending order of
    APY and no entry of the merge that was cut has a larger APY than an
    entry returned. *)
Theorem bestYields_one_provider_down (p : Providers) :
  let top := topOpportunities (getBestYields rt p false) in
  forall contributions,
    (kamino_get p = Throw
       /\ contributions = (getMockKaminoYields ++ fetchMarginfiYields
                           ++ fetchDriftYields rt p)%list)
    \/ ((drift_subscribe p = Throw \/ drift_unsubscribe p = Throw)
        /\ contributions = (fetchKaminoYields rt p ++ fetchMarginfiYields
                            ++ getMockDriftYields)%list) ->
    top = firstn 10 (sortByApy contributions)
    /\ top <> []
    /\ (forall x, In x top -> In x contributions)
    /\ ((List.length contributions <= 10)%nat -> Permutation contributions top)
    /\ (Forall (fun o => is_nan (apy o) = false) contributions ->
        ClaimedYield.descending top
        /\ ClaimedYield.nonIncreasing (map apy top) = true
        /\ forall x y, In x top -> In y contributions -> ~ In y top ->
                       (apy y <=? apy x) = true).
Proof.
  intros top contributions H.
  assert (Htop : top = firstn 10 (sortByApy contributions)).
  { unfold top. rewrite getBestYields_live.
    destruct H as [[Hk ->] | [Hd ->]].
    - rewrite (fetchKaminoYields_down p Hk). reflexivity.
    - rewrite (fetchDriftYields_down p Hd). reflexivity. }
  assert (Hne : contributions <> []).
  { destruct H as [[_ ->] | [_ ->]]; intros Hnil;
      apply (f_equal (@List.length _)) in Hnil;
      rewrite !length_app in Hnil; cbn [fetchMarginfiYields getMockMarginfiYields
        getMockKaminoYields getMockDriftYields List.length] in Hnil; lia. }
  rewrite Htop. split; [reflexivity |]. split; [apply topTen_nonempty, Hne |].
  split; [intros x; apply topTen_subset |]. split; [apply topTen_all |].
  intros Hnan. destruct (topTen_descending Hnan) as [Hdesc Hcut].
  split; [exact Hdesc |]. split; [apply descending_nonIncreasing; exact Hdesc | exact Hcut].
Qed.

End YieldProperties.

(** A strategy whose APY is an object with a property named [toString]
    makes the comparison [apy > 0] throw: the fetch falls back to the static
    table, and the entry built from the strategy before it is discarded. *)
Example unconvertible_apy_falls_back :
  Yield.fetchKaminoYields Examples.rt
    {| Yield.kamino_get :=
         Ok (Some (JArr [ExamplesMore.numericSymbol;
                         JObj [("apy", JObj [("toString", JNum 1)])]]));
       Yield.drift_subscribe := Throw;
       Yield.drift_unsubscribe := Ok tt |}
  = Yield.getMockKaminoYields.
Proof. reflexivity. Qed.

(** C7, counterexample: with the Kamino API down and five Drift markets at
    APY 15, the merge has eleven entries and the returned list drops
    Marginfi's SOL entry, a contribution of a provider that did not fail. *)
Lemma top_ten_drops_contribution :
  Yield.kamino_get ExamplesYield.kaminoDown = Throw
  /\ In ExamplesYield.marginfiSol Yield.fetchMarginfiYields
  /\ ~ In ExamplesYield.marginfiSol
        (Yield.topOpportunities
           (Yield.getBestYields Examples.rt ExamplesYield.kaminoDown false)).
Proof.
  split; [reflexivity |]. split; [left; reflexivity |].
  vm_compute. intros H.
  repeat (destruct H as [H | H]; [discriminate H |]). exact H.
Qed.

(** C5, at the failing input: with every provider degraded to its static
    table the call returns exactly the entries of mock mode and marks them
    'live', where the claim (and mock mode itself) says 'mock'. Indeed every
    call that is not in mock mode is marked 'live'. *)
Theorem all_fallback_marked_live :
  let r := Yield.getBestYields Examples.rt ExamplesYield.allDown false in
  Yield.fetchKaminoYields Examples.rt ExamplesYield.allDown = Yield.getMockKaminoYields
  /\ Yield.fetchMarginfiYields = Yield.getMockMarginfiYields
  /\ Yield.fetchDriftYields Examples.rt ExamplesYield.allDown = Yield.getMockDriftYields
  /\ Yield.topOpportunities r
     = Yield.topOpportunities (Yield.getBestYields Examples.rt ExamplesYield.allDown true)
  /\ Yield.source r = Yield.live
  /\ ClaimedYield.provenance false false false = Yield.mock
  /\ Yield.source (Yield.getBestYields Examples.rt ExamplesYield.allDown true) = Yield.mock
  /\ (forall rt p, Yield.source (Yield.getBestYields rt p false) = Yield.live).
Proof.
  cbv zeta. repeat (split; [reflexivity |]). exact source_always_live.
Qed.

(** A three-way tie keeps the order in which the entries were merged. *)
Example sortByApy_tie_keeps_order :
  Yield.sortByApy [ExamplesYield.tie "Kamino"; ExamplesYield.tie "Marginfi";
                   ExamplesYield.tie "Drift"]
  = [ExamplesYield.tie "Kamino"; ExamplesYield.tie "Marginfi"; ExamplesYield.tie "Drift"].
Proof. reflexivity. Qed.

(** C8: in mock mode the returned list has at most ten entries, its APYs
    never increase along the list, it is the same list whatever the runtime
    and the providers are at the time of the call, and two entries of the
    merged tables with equal APY appear in it in the order in which the
    tables declare them ([i < j] in the merge of Kamino, Marginfi and Drift
    gives [i' < j'] in the result). *)
Theorem mock_yields_sorted_stable (rt : Runtime) (p : Yield.Providers) :
  let top := Yield.topOpportunities (Yield.getBestYields rt p true) in
  let declared := (Yield.getMockKaminoYields ++ Yield.getMockMarginfiYields
                   ++ Yield.getMockDriftYields)%list in
  (List.length top <= 10)%nat
  /\ ClaimedYield.nonIncreasing (map Yield.apy top) = true
  /\ map Yield.apy top = [18.5; 12.3; 11.2; 9.8; 9.5; 7.85; 6.2; 5.8; 4.5]
  /\ (forall rt' p', Yield.topOpportunities (Yield.getBestYields rt' p' true) = top)
  /\ (forall i j x y,
        (i < j)%nat -> nth_error declared i = Some x -> nth_error declared j = Some y ->
        (Yield.apy x =? Yield.apy y) = true ->
        exists i' j', (i' < j')%nat /\ nth_error top i' = Some x
                      /\ nth_error top j' = Some y).
Proof.
  cbv zeta. split; [vm_compute; lia |]. split; [vm_compute; reflexivity |].
  split; [vm_compute; reflexivity |]. split; [reflexivity |].
  intros i j x y Hlt Hx Hy Heq. exfalso.
  do 9 (destruct i as [| i]; [
    do 9 (destruct j as [| j]; [
      try lia; cbn in Hx, Hy; injection Hx as <-; injection Hy as <-;
      vm_compute in Heq; discriminate Heq |]);
    cbn in Hy; destruct j; discriminate Hy |]).
  cbn in Hx. destruct i; discriminate Hx.
Qed.

(** An entry that no later entry beats stays in front: ties are not
    reordered. *)
Lemma sortByApy_head_stays (x : Yield.YieldOpportunity) (l : list Yield.YieldOpportunity) :
  (forall y, In y l -> (0 <? Yield.compareApy x y) = false) ->
  Yield.sortByApy (x :: l) = x :: Yield.sortByApy l.
Proof.
  intros Hx. cbn [Yield.sortByApy fold_right]. fold (Yield.sortByApy l).
  destruct (Yield.sortByApy l) as [| y rest] eqn:Hs; [reflexivity |].
  cbn [Yield.insertSorted]. rewrite Hx; [reflexivity |].
  apply Permutation_in with (Yield.sortByApy l).
  - apply Permutation_sym, sortByApy_perm.
  - rewrite Hs. left. reflexivity.
Qed.

(** ** Portfolio analytics and the risk score *)

Lemma ltb_zero_eqb (x : float) : (0 <? x) = true -> (x =? 0) = false.
Proof.
  rewrite ltb_spec, eqb_spec. unfold SFltb, SFeqb.
  rewrite (SFcompare_antisym (Prim2SF 0) (Prim2SF x)).
  destruct (SFcompare (Prim2SF 0) (Prim2SF x)) as [[| |] |]; cbn; intros H;
    try discriminate H; reflexivity.
Qed.

(** A sum of positive values, taken from a start that is not negative, is
    not negative, and positive unless nothing positive enters it. *)
Lemma fold_sum_pos (A : Type) (value : A -> number) (l : list A) (acc : number) :
  (0 <=? acc) = true -> Forall (fun a => (0 <? value a) = true) l ->
  (0 <=? fold_left (fun sum a => sum + value a) l acc) = true
  /\ ((0 <? acc) = true \/ l <> [] ->
      (0 <? fold_left (fun sum a => sum + value a) l acc) = true).
Proof.
  intros Hacc Hl. revert acc Hacc.
  induction Hl as [| a rest Ha _ IH]; intros acc Hacc; cbn [fold_left].
  - split; [exact Hacc |]. intros [H | H]; [exact H | contradiction].
  - assert (Hnext : (0 <? acc + value a) = true)
      by (apply add_pos; [exact Hacc | apply ltb_leb; exact Ha | right; exact Ha]).
    destruct (IH (acc + value a) (ltb_leb Hnext)) as [Hle Hlt].
    split; [exact Hle |]. intros _. apply Hlt. left. exact Hnext.
Qed.

Lemma substring_length_le (n : nat) (s : string) :
  (String.length (substring 0 n s) <= n)%nat.
Proof.
  revert s. induction n as [| n IH]; intros s.
  - destruct s; cbn; lia.
  - destruct s as [| c rest]; cbn [substring String.length]; [lia |].
    specialize (IH rest). lia.
Qed.

Section PortfolioProperties.

Import Portfolio.

Variable rt : Runtime.
Variable connection : Connection.

Lemma symbolOf_length (mint : string) : (String.length (symbolOf mint) <= 4)%nat.
Proof.
  unfold symbolOf.
  destruct (String.eqb mint _); [cbn; lia |].
  destruct (String.eqb mint _); [cbn; lia |].
  apply substring_length_le.
Qed.

Lemma tokenBalancesOf_spec (accounts : list ParsedTokenAccount) :
  (List.length (tokenBalancesOf rt connection accounts) <= List.length accounts)%nat
  /\ Forall (fun b =>
               (0 <? uiAmount b) = true
               /\ usdValue b = uiAmount b * Pyth.mockPrice (symbol b)
               /\ symbol b = symbolOf (mint b)
               /\ (String.length (symbol b) <= 4)%nat
               /\ exists account, In account accounts
                                  /\ info_mint account = mint b
                                  /\ info_uiAmount account = Some (uiAmount b))
            (tokenBalancesOf rt connection accounts).
Proof.
  induction accounts as [| a rest [IHl IHa]]; cbn [tokenBalancesOf].
  - split; [apply Nat.le_refl | constructor].
  - assert (IHa' : Forall (fun b =>
               (0 <? uiAmount b) = true
               /\ usdValue b = uiAmount b * Pyth.mockPrice (symbol b)
               /\ symbol b = symbolOf (mint b)
               /\ (String.length (symbol b) <= 4)%nat
               /\ exists account, In account (a :: rest)
                                  /\ info_mint account = mint b
                                  /\ info_uiAmount account = Some (uiAmount b))
            (tokenBalancesOf rt connection rest)).
    { apply Forall_impl with (2 := IHa).
      intros b (H1 & H2 & H3 & H4 & account & Hin & H5).
      repeat split; auto. exists account. split; [right; exact Hin | exact H5]. }
    unfold tokenBalanceOf.
    destruct (info_uiAmount a) as [ui |] eqn:Hui;
      [| split; [cbn [List.length]; lia | exact IHa']].
    destruct (negb (is_zero ui || is_nan ui)); cbn [andb];
      [| split; [cbn [List.length]; lia | exact IHa']].
    destruct (0 <? ui) eqn:Hpos; [| split; [cbn [List.length]; lia | exact IHa']].
    split; [cbn [List.length]; lia |].
    constructor; [| exact IHa'].
    cbn [uiAmount usdValue symbol mint]. repeat split; auto.
    + apply symbolOf_length.
    + exists a. split; [left; reflexivity | split; [reflexivity | exact Hui]].
Qed.

(** On the normal path the total is computed from its parts. *)
Lemma normal_path_total (walletAddress : string) (useMock : bool)
    (r : PortfolioAnalytics) :
  getPortfolioAnalytics_try rt connection walletAddress useMock = Ok r ->
  totalUsdValue r = ClaimedPortfolio.totalOfParts r.
Proof.
  unfold getPortfolioAnalytics_try.
  destruct (PublicKey connection walletAddress) as [pk |]; cbn [bind]; [| discriminate].
  destruct (getBalance connection pk) as [b |]; cbn [bind]; [| discriminate].
  intros H. injection H as <-. reflexivity.
Qed.

(** The portfolio retrieval never throws: a failure of the RPC node is
    replaced by the static snapshot. *)
Lemma retrieval_failure_fallback (walletAddress : string) (useMock : bool) :
  getPortfolioAnalytics_try rt connection walletAddress useMock = Throw ->
  getPortfolioAnalytics rt connection walletAddress useMock
  = fallbackPortfolio rt walletAddress.
Proof. intros H. unfold getPortfolioAnalytics. rewrite H. reflexivity. Qed.

(** The spread call completes on a snapshot of fewer than ten balances,
    whatever the engine is. *)
Lemma spreadCompletes_small (portfolio : PortfolioAnalytics) :
  (List.length (tokenBalances portfolio) < 10)%nat -> spreadCompletes rt portfolio = true.
Proof.
  intros H. unfold spreadCompletes.
  pose proof (maxArguments_min rt) as Hm. apply N.leb_le in Hm. apply N.leb_le. lia.
Qed.

(** [calculateRiskScore] never assigns the health factor. When the spread
    call completes, the score is computed with the neutral term 10 from the
    snapshot that [getPortfolioAnalytics] returned; when it throws, the
    [catch] block returns the fixed score. *)
Lemma calculateRiskScore_cases (walletAddress : string) (useMock : bool) :
  calculateRiskScore rt connection walletAddress useMock
  = if spreadCompletes rt (getPortfolioAnalytics rt connection walletAddress useMock)
    then scorePortfolio rt None walletAddress
           (getPortfolioAnalytics rt connection walletAddress useMock)
    else getMockRiskScore walletAddress (Date_now rt).
Proof.
  unfold calculateRiskScore, calculateRiskScore_on, calculateRiskScore_try. cbn [bind].
  destruct (spreadCompletes rt _); reflexivity.
Qed.

Lemma calculateRiskScore_computed (walletAddress : string) (useMock : bool) :
  spreadCompletes rt (getPortfolioAnalytics rt connection walletAddress useMock) = true ->
  calculateRiskScore rt connection walletAddress useMock
  = scorePortfolio rt None walletAddress
      (getPortfolioAnalytics rt connection walletAddress useMock).
Proof. intros H. rewrite calculateRiskScore_cases, H. reflexivity. Qed.

(** The value of the wallet's SOL is not negative when its balance is not. *)
Lemma solUsdValue_nonneg (lamports : number) :
  (0 <=? lamports) = true ->
  (0 <=? Pyth.calculateUsdValue (getPrice connection) "SOL" (lamports / 1e9) true) = true.
Proof.
  intros H. unfold Pyth.calculateUsdValue.
  change (Pyth.mockPrice "SOL") with 98.5.
  refine (@mul_nonneg _ 98.5 _ _ _ _); [vm_compute; reflexivity |].
  refine (@div_nonneg _ 1e9 _ _ _ H). vm_compute. reflexivity.
Qed.

(** A snapshot that [getPortfolioAnalytics] returns with a total of zero
    lists no token balance and no position, when the node reports balances
    that are not negative and token accounts whose symbol the static
    table prices at 1 or more. *)
Lemma zero_total_empty (walletAddress : string) (useMock : bool) :
  (forall publicKey lamports,
     getBalance connection publicKey = Ok lamports -> (0 <=? lamports) = true) ->
  (forall publicKey accounts account,
     getParsedTokenAccountsByOwner connection publicKey = Ok accounts ->
     In account accounts ->
     (1 <=? Pyth.mockPrice (symbolOf (info_mint account))) = true) ->
  let p := getPortfolioAnalytics rt connection walletAddress useMock in
  (totalUsdValue p =? 0) = true ->
  tokenBalances p = [] /\ defiPositions p = [].
Proof.
  intros Hlamports Hprices p Htotal. unfold p in *. clear p.
  unfold getPortfolioAnalytics in *.
  destruct (getPortfolioAnalytics_try rt connection walletAddress useMock) as [q |] eqn:Htry;
    cbn [try_catch] in *; [| vm_compute in Htotal; discriminate Htotal].
  unfold getPortfolioAnalytics_try in Htry.
  destruct (PublicKey connection walletAddress) as [pk |]; cbn [bind] in Htry;
    [| discriminate Htry].
  destruct (getBalance connection pk) as [lamports |] eqn:Hb; cbn [bind] in Htry;
    [| discriminate Htry].
  injection Htry as <-. cbn [totalUsdValue tokenBalances defiPositions] in *.
  pose proof (solUsdValue_nonneg (Hlamports pk lamports Hb)) as Hsol.
  set (sol := Pyth.calculateUsdValue (getPrice connection) "SOL" (lamports / 1e9) true) in *.
  destruct useMock.
  - exfalso.
    change (sumTokenUsd getMockTokenBalances) with 9925 in Htotal.
    change (sumPositionUsd getMockDefiPositions) with 2922.375 in Htotal.
    assert (H1 : (0 <? sol + 9925) = true)
      by (apply add_pos; [exact Hsol | reflexivity | right; reflexivity]).
    assert (H2 : (0 <? sol + 9925 + 2922.375) = true)
      by (apply add_pos; [apply ltb_leb; exact H1 | reflexivity | left; exact H1]).
    rewrite (ltb_zero_eqb H2) in Htotal. discriminate Htotal.
  - unfold getMarginfiPositions in *.
    destruct (getTokenBalances rt connection pk) as [| b rest] eqn:Htokens;
      [split; reflexivity | exfalso].
    assert (Hpos : Forall (fun b => (0 <? usdValue b) = true)
                     (getTokenBalances rt connection pk)).
    { unfold getTokenBalances.
      destruct (getParsedTokenAccountsByOwner connection pk) as [accounts |] eqn:Ha;
        cbn [bind try_catch]; [| constructor].
      destruct (tokenBalancesOf_spec accounts) as [_ Hall].
      apply Forall_impl with (2 := Hall).
      intros c (Hui & Husd & Hsym & _ & account & Hin & Hmint & Hacc).
      rewrite Husd, Hsym, <- Hmint.
      apply mul_pos_ge_one; [exact Hui | exact (Hprices pk accounts account Ha Hin)]. }
    rewrite Htokens in Hpos.
    destruct (fold_sum_pos usdValue (acc := 0) eq_refl Hpos) as [_ Hsum].
    assert (Hne : b :: rest <> []) by discriminate.
    specialize (Hsum (or_intror Hne)).
    fold (sumTokenUsd (b :: rest)) in Hsum.
    assert (H1 : (0 <? sol + sumTokenUsd (b :: rest)) = true)
      by (apply add_pos; [exact Hsol | apply ltb_leb; exact Hsum | right; exact Hsum]).
    assert (H2 : (0 <? sol + sumTokenUsd (b :: rest) + sumPositionUsd []) = true)
      by (apply add_pos; [apply ltb_leb; exact H1 | reflexivity | left; exact H1]).
    rewrite (ltb_zero_eqb H2) in Htotal. discriminate Htotal.
Qed.

(** C3: for every snapshot that [getPortfolioAnalytics] builds with a total
    of zero, the score has concentration risk 0 and liquidation risk 0, and
    no NaN or [Infinity] enters it (the overall score is 30). The scorer
    divides by the total without a guard; the factors are 0 because such a
    snapshot lists no token balance and no position, so that nothing is
    divided. The node is taken to report balances that are not negative
    and token accounts whose symbol the static table prices at 1 or more:
    every symbol but BONK and JUP, which no mint address yields (the
    symbol of a mint is USDC, SOL or its first four characters, and an
    address has no letter O). *)
Theorem zero_total_factors (walletAddress : string) (useMock : bool) :
  (forall publicKey lamports,
     getBalance connection publicKey = Ok lamports -> (0 <=? lamports) = true) ->
  (forall publicKey accounts account,
     getParsedTokenAccountsByOwner connection publicKey = Ok accounts ->
     In account accounts ->
     (1 <=? Pyth.mockPrice (symbolOf (info_mint account))) = true) ->
  let p := getPortfolioAnalytics rt connection walletAddress useMock in
  let r := calculateRiskScore rt connection walletAddress useMock in
  (totalUsdValue p =? 0) = true ->
  tokenBalances p = [] /\ defiPositions p = []
  /\ concentrationRisk (factors r) = 0
  /\ liquidationRisk (factors r) = 0
  /\ overallScore r = 30
  /\ r = scorePortfolio rt None walletAddress p.
Proof.
  intros Hlamports Hprices p r Htotal.
  destruct (zero_total_empty walletAddress useMock Hlamports Hprices Htotal)
    as [Htokens Hpositions].
  fold p in Htokens, Hpositions.
  assert (Hr : r = scorePortfolio rt None walletAddress p).
  { unfold r. apply calculateRiskScore_computed. apply spreadCompletes_small.
    fold p. rewrite Htokens. cbn [List.length]. lia. }
  split; [exact Htokens |]. split; [exact Hpositions |].
  rewrite Hr.
  cbn [scorePortfolio factors concentrationRisk liquidationRisk overallScore].
  unfold maxConcentrationOf, liquidationRiskOf, protocolDiversificationOf,
    uniqueProtocolCount.
  rewrite Htokens, Hpositions. repeat split.
Qed.



(** C10, as the code has it: [calculateRiskScore] always returns a score.
    Its [try] block throws exactly when the spread call does (the snapshot
    lists more balances than the engine passes as arguments); the score is
    then the fixed one (32, medium, health factor 2.15, no warnings), a
    value of the same type as a computed score. A failure of the portfolio
    retrieval is not such a step: [getPortfolioAnalytics] catches it and
    returns its static snapshot, from which the score is computed (31.67...,
    medium, no health factor, no warnings). *)
Theorem riskScore_fallbacks (walletAddress : string) (useMock : bool) :
  let p := getPortfolioAnalytics rt connection walletAddress useMock in
  let r := calculateRiskScore rt connection walletAddress useMock in
  let fixed := getMockRiskScore walletAddress (Date_now rt) in
  (calculateRiskScore_try rt (Ok p) walletAddress = Throw
   <-> (maxArguments rt < N.of_nat (List.length (tokenBalances p)) + 1)%N)
  /\ (calculateRiskScore_try rt (Ok p) walletAddress = Throw -> r = fixed)
  /\ (overallScore fixed = 32 /\ riskLevel fixed = medium
      /\ healthFactor (factors fixed) = Some 2.15 /\ warnings fixed = [])
  /\ (calculateRiskScore_try rt (Ok p) walletAddress <> Throw ->
      r = scorePortfolio rt None walletAddress p)
  /\ (getPortfolioAnalytics_try rt connection walletAddress useMock = Throw ->
      p = fallbackPortfolio rt walletAddress
      /\ calculateRiskScore_try rt (Ok p) walletAddress <> Throw
      /\ r = scorePortfolio rt None walletAddress (fallbackPortfolio rt walletAddress)
      /\ overallScore r = 31.675423234092236 /\ riskLevel r = medium
      /\ healthFactor (factors r) = None /\ warnings r = []).
Proof.
  cbv zeta.
  assert (Hthrow : forall q,
            calculateRiskScore_try rt (Ok q) walletAddress = Throw
            <-> spreadCompletes rt q = false).
  { intros q. unfold calculateRiskScore_try. cbn [bind].
    destruct (spreadCompletes rt q); split; intros H; try discriminate H; reflexivity. }
  split; [| split; [| split; [| split]]].
  - rewrite Hthrow. unfold spreadCompletes. rewrite N.leb_gt. lia.
  - intros H. apply Hthrow in H. rewrite calculateRiskScore_cases, H. reflexivity.
  - repeat split.
  - intros H. apply calculateRiskScore_computed.
    destruct (spreadCompletes rt _) eqn:Hs; [reflexivity |].
    exfalso. apply H. apply Hthrow. exact Hs.
  - intros Hfail. rewrite (retrieval_failure_fallback walletAddress useMock Hfail).
    assert (Hs : spreadCompletes rt (fallbackPortfolio rt walletAddress) = true)
      by (apply spreadCompletes_small; cbn; lia).
    split; [reflexivity |]. split.
    + intros H. apply Hthrow in H. congruence.
    + rewrite calculateRiskScore_cases,
        (retrieval_failure_fallback walletAddress useMock Hfail), Hs.
      repeat split; vm_compute; reflexivity.
Qed.

End PortfolioProperties.

(** Whenever the retrieval fails, the returned total is 12847.5 while the
    parts of the returned snapshot add up to 13364.5. *)
Lemma fallback_total_differs (rt : Runtime) (connection : Portfolio.Connection)
    (walletAddress : string) (useMock : bool) :
  Portfolio.getPortfolioAnalytics_try rt connection walletAddress useMock = Throw ->
  let r := Portfolio.getPortfolioAnalytics rt connection walletAddress useMock in
  Portfolio.totalUsdValue r = 12847.5
  /\ ClaimedPortfolio.totalOfParts r = 13364.5
  /\ Portfolio.totalUsdValue r <> ClaimedPortfolio.totalOfParts r.
Proof.
  intros Hthrow. cbv zeta. rewrite (retrieval_failure_fallback _ _ _ _ Hthrow).
  assert (Hparts : ClaimedPortfolio.totalOfParts (Portfolio.fallbackPortfolio rt walletAddress)
                   = 13364.5) by reflexivity.
  split; [reflexivity |]. split; [exact Hparts |].
  rewrite Hparts. cbn [Portfolio.fallbackPortfolio Portfolio.totalUsdValue].
  intros H. apply (f_equal (fun x => x <? 13000)) in H. vm_compute in H. discriminate H.
Qed.

(** C4, at the failing input: the RPC node is unreachable, the fallback
    snapshot is returned, and its total (12847.5) is not the sum of its
    parts (517.125 + 9925 + 2922.375 = 13364.5). The same holds of every
    call whose retrieval fails, while the normal path returns the sum of
    the parts. *)
Theorem fallback_total_mismatch :
  let r := Portfolio.getPortfolioAnalytics Examples.rt ExamplesPortfolio.down
             Examples.wallet false in
  Portfolio.getPortfolioAnalytics_try Examples.rt ExamplesPortfolio.down
    Examples.wallet false = Throw
  /\ Portfolio.solUsdValue r = 517.125
  /\ Portfolio.sumTokenUsd (Portfolio.tokenBalances r) = 9925
  /\ Portfolio.sumPositionUsd (Portfolio.defiPositions r) = 2922.375
  /\ ClaimedPortfolio.totalOfParts r = 13364.5
  /\ Portfolio.totalUsdValue r = 12847.5
  /\ (Portfolio.totalUsdValue r =? ClaimedPortfolio.totalOfParts r) = false
  /\ (forall rt connection walletAddress useMock,
        match Portfolio.getPortfolioAnalytics_try rt connection walletAddress useMock with
        | Ok p =>
            Portfolio.getPortfolioAnalytics rt connection walletAddress useMock = p
            /\ Portfolio.totalUsdValue p = ClaimedPortfolio.totalOfParts p
        | Throw =>
            Portfolio.totalUsdValue
              (Portfolio.getPortfolioAnalytics rt connection walletAddress useMock)
            <> ClaimedPortfolio.totalOfParts
                 (Portfolio.getPortfolioAnalytics rt connection walletAddress useMock)
        end).
Proof.
  cbv zeta. repeat (split; [reflexivity |]).
  intros rt connection walletAddress useMock.
  destruct (Portfolio.getPortfolioAnalytics_try rt connection walletAddress useMock)
    as [p |] eqn:Htry.
  - split.
    + unfold Portfolio.getPortfolioAnalytics. rewrite Htry. reflexivity.
    + exact (normal_path_total rt connection walletAddress useMock Htry).
  - exact (proj2 (proj2 (fallback_total_differs rt connection walletAddress useMock Htry))).
Qed.


(** C10, counterexample: the RPC node is unreachable, so the portfolio
    retrieval fails; the score returned is not the fixed one: it is 31.67...
    and not 32, and it has no health factor. *)
Lemma retrieval_failure_not_fixed_score :
  let r := Portfolio.calculateRiskScore Examples.rt ExamplesPortfolio.down
             Examples.wallet false in
  Portfolio.getPortfolioAnalytics_try Examples.rt ExamplesPortfolio.down
    Examples.wallet false = Throw
  /\ Portfolio.overallScore r = 31.675423234092236
  /\ (Portfolio.overallScore r =? 32) = false
  /\ Portfolio.healthFactor (Portfolio.factors r) = None
  /\ r <> Portfolio.getMockRiskScore Examples.wallet (Date_now Examples.rt).
Proof.
  cbv zeta. repeat split; try (vm_compute; reflexivity).
  intros H. apply (f_equal (fun s => Portfolio.healthFactor (Portfolio.factors s))) in H.
  vm_compute in H. discriminate H.
Qed.

(** ** The theorems at concrete inputs *)

(** The gateway theorem on the proof without an amount. *)
Lemma requirePayment_outcomes_witness :
  Gateway.bypass (Examples.request Examples.headerNoAmount) = false
  /\ (Gateway.requirePayment Examples.rt Examples.cfg Examples.ledger 50000
        (Examples.request Examples.headerNoAmount) = Gateway.Authorized <->
      exists h payment,
        Gateway.header (Examples.request Examples.headerNoAmount) = Some h
        /\ h <> ""
        /\ Gateway.parseX402Header Examples.rt h = Some payment
        /\ converts (Gateway.pay_amount payment) = true
        /\ lt Examples.rt (Gateway.pay_amount payment) 50000 = false
        /\ strict_eq_string (Gateway.pay_recipient payment)
             (Gateway.RECIPIENT_WALLET Examples.cfg) = true
        /\ Gateway.verifyPayment Examples.rt Examples.cfg Examples.ledger
             (Gateway.pay_signature payment) 50000
             (Gateway.RECIPIENT_WALLET Examples.cfg) = true
        /\ converts (Gateway.pay_signature payment) = true).
Proof.
  split; [reflexivity |].
  exact (proj1 (proj2 (proj2
    (requirePayment_outcomes Examples.rt Examples.cfg Examples.ledger 50000
       (Examples.request Examples.headerNoAmount) eq_refl)))).
Defined.

(** The header [5] is JSON, parses to a record without fields, and is
    answered by the recipient check. *)
Lemma parsed_header_never_malformed_witness :
  JSON_parse Examples.rt "5" = Some (JNum 5)
  /\ JNum 5 <> JNull
  /\ "5" <> ""
  /\ exists payment,
       Gateway.parseX402Header Examples.rt "5" = Some payment
       /\ Gateway.requirePayment Examples.rt Examples.cfg Examples.ledger 50000
            (Examples.request "5") = Gateway.WrongRecipient.
Proof.
  assert (Hv : JNum 5 <> JNull) by discriminate.
  assert (Hh : "5" <> "") by discriminate.
  split; [reflexivity |]. split; [exact Hv |]. split; [exact Hh |].
  destruct (parsed_header_never_malformed Examples.rt Examples.cfg Examples.ledger
              (h := "5") (v := JNum 5) eq_refl Hv Hh)
    as (payment & Hp & Hall & _ & Habsent).
  exists payment. split; [exact Hp |].
  assert (Hpay : payment = {| Gateway.pay_amount := undefined;
                              Gateway.pay_token := undefined;
                              Gateway.pay_sender := undefined;
                              Gateway.pay_recipient := undefined;
                              Gateway.pay_signature := undefined;
                              Gateway.pay_timestamp := Some (JNum (Date_now Examples.rt)) |})
    by (apply Hall; reflexivity).
  assert (Ha : Gateway.pay_amount payment = undefined) by (rewrite Hpay; reflexivity).
  destruct (Habsent Ha 50000 (Examples.request "5") eq_refl eq_refl) as (_ & _ & Hr).
  rewrite Hr, Hpay. reflexivity.
Defined.

(** The accepted transaction [sigDust] exists and did not fail. *)
Lemma verifyPayment_true_iff_witness :
  exists tx m,
    Gateway.getTransaction Examples.ledger (Some (JStr "sigDust")) = Ok (Some tx)
    /\ Gateway.meta tx = Some m
    /\ truthy (Gateway.err m) = false.
Proof.
  destruct (proj1 (verifyPayment_true_iff Examples.rt Examples.cfg Examples.ledger
                     (Some (JStr "sigDust")) 50000 Examples.wallet) eq_refl)
    as (tx & m & _ & _ & _ & Ht & Hm & He & _).
  exists tx, m. repeat split; assumption.
Defined.

(** The wallet that holds nothing: the node reports no lamports and an
    emptied token account, the total is 0 and both ratio-based factors
    are 0. *)
Lemma zero_total_factors_witness :
  (forall publicKey lamports,
     Portfolio.getBalance ExamplesPortfolio.idle publicKey = Ok lamports ->
     (0 <=? lamports) = true)
  /\ (forall publicKey accounts account,
        Portfolio.getParsedTokenAccountsByOwner ExamplesPortfolio.idle publicKey
        = Ok accounts ->
        In account accounts ->
        (1 <=? Pyth.mockPrice (Portfolio.symbolOf (Portfolio.info_mint account)))
        = true)
  /\ (Portfolio.totalUsdValue
        (Portfolio.getPortfolioAnalytics Examples.rt ExamplesPortfolio.idle
           Examples.wallet false) =? 0) = true
  /\ (let r := Portfolio.calculateRiskScore Examples.rt ExamplesPortfolio.idle
                 Examples.wallet false in
      Portfolio.concentrationRisk (Portfolio.factors r) = 0
      /\ Portfolio.liquidationRisk (Portfolio.factors r) = 0
      /\ Portfolio.overallScore r = 30).
Proof.
  assert (H1 : forall publicKey lamports,
             Portfolio.getBalance ExamplesPortfolio.idle publicKey = Ok lamports ->
             (0 <=? lamports) = true).
  { intros publicKey lamports H. injection H as <-. reflexivity. }
  assert (H2 : forall publicKey accounts account,
             Portfolio.getParsedTokenAccountsByOwner ExamplesPortfolio.idle publicKey
             = Ok accounts ->
             In account accounts ->
             (1 <=? Pyth.mockPrice (Portfolio.symbolOf (Portfolio.info_mint account)))
             = true).
  { intros publicKey accounts account Ha Hin. injection Ha as <-.
    destruct Hin as [<- | []]. reflexivity. }
  split; [exact H1 |]. split; [exact H2 |]. split; [reflexivity |].
  destruct (zero_total_factors Examples.rt ExamplesPortfolio.idle Examples.wallet false
              H1 H2 eq_refl) as (_ & _ & Hc & Hl & Hs & _).
  split; [exact Hc |]. split; [exact Hl | exact Hs].
Defined.


(** With the Kamino API down the result is not empty and stands in
    descending order of APY. *)
Lemma bestYields_one_provider_down_witness :
  let top := Yield.topOpportunities
               (Yield.getBestYields Examples.rt ExamplesYield.kaminoDown false) in
  Yield.kamino_get ExamplesYield.kaminoDown = Throw
  /\ top <> []
  /\ ClaimedYield.nonIncreasing (map Yield.apy top) = true
  /\ map Yield.apy top = [18.5; 15; 15; 15; 15; 15; 12.3; 9.8; 9.5; 7.85].
Proof.
  cbv zeta. split; [reflexivity |].
  destruct (bestYields_one_provider_down Examples.rt ExamplesYield.kaminoDown
              (or_introl (conj eq_refl eq_refl))) as (_ & Hne & _ & _ & Hsorted).
  split; [exact Hne |]. split; [| reflexivity].
  apply Hsorted.
  repeat constructor.
Defined.

(** With the RPC node down the score is computed from the static snapshot. *)
Lemma riskScore_fallbacks_witness :
  Portfolio.getPortfolioAnalytics_try Examples.rt ExamplesPortfolio.down
    Examples.wallet false = Throw
  /\ Portfolio.riskLevel
       (Portfolio.calculateRiskScore Examples.rt ExamplesPortfolio.down
          Examples.wallet false) = Portfolio.medium.
Proof.
  split; [reflexivity |].
  destruct (proj2 (proj2 (proj2 (proj2
              (riskScore_fallbacks Examples.rt ExamplesPortfolio.down
                 Examples.wallet false)))) eq_refl) as (_ & _ & _ & _ & Hlevel & _).
  exact Hlevel.
Defined.

(** * Further properties of the code *)

(** ** The ledger verifier *)

Section VerifierProperties.

Import Gateway.

Variable rt : Runtime.
Variable cfg : Config.
Variable ledger : Ledger.

(** X1: when the account keys of the transaction resolve, the loop of
    [verifyPayment] reports a verified transfer exactly when some post
    balance record of the configured asset sits on the recipient's
    associated token account and its change differs from the expected
    amount by less than 1000 units. *)
Theorem scanPostBalances_true_iff (tx : TransactionResponse) (recipientAta : pubkey)
    (preBalances postBalances : list TokenBalanceEntry) (expectedAmount : number)
    (accountKeys : list pubkey) :
  getAccountKeys tx = Ok accountKeys ->
  (scanPostBalances rt cfg tx recipientAta preBalances expectedAmount postBalances
     = Ok true
   <-> exists pb,
         In pb postBalances
         /\ mint pb = USDC_MINT cfg
         /\ nth_error accountKeys (accountIndex pb) = Some recipientAta
         /\ (abs (amountReceived rt preBalances pb - expectedAmount) <? 1000) = true)
  /\ (scanPostBalances rt cfg tx recipientAta preBalances expectedAmount postBalances
        = Ok true
      \/ scanPostBalances rt cfg tx recipientAta preBalances expectedAmount postBalances
        = Ok false).
Proof.
  intros Hkeys.
  induction postBalances as [| pb rest [IH IHtotal]]; cbn [Gateway.scanPostBalances].
  - split; [| right; reflexivity]. split; [discriminate |].
    intros (pb & [] & _).
  - rewrite Hkeys. cbn [bind].
    destruct (String.eqb_spec (mint pb) (USDC_MINT cfg)) as [Hmint | Hmint].
    + destruct (nth_error accountKeys (accountIndex pb)) as [key |] eqn:Hkey.
      * destruct (String.eqb_spec key recipientAta) as [-> | Hata]; cbn [andb].
        -- destruct (abs (amountReceived rt preBalances pb - expectedAmount) <? 1000)
             eqn:Htol.
           ++ split; [| left; reflexivity]. split; [| reflexivity].
              intros _. exists pb. repeat split; auto. left. reflexivity.
           ++ split; [| exact IHtotal]. rewrite IH. split.
              ** intros (pb' & Hin & H). exists pb'. split; [right; exact Hin | exact H].
              ** intros (pb' & [<- | Hin] & Hm & Hk & Ht).
                 --- rewrite Htol in Ht. discriminate Ht.
                 --- exists pb'. repeat split; auto.
        -- split; [| exact IHtotal]. rewrite IH. split.
           ** intros (pb' & Hin & H). exists pb'. split; [right; exact Hin | exact H].
           ** intros (pb' & [<- | Hin] & Hm & Hk & Ht).
              --- rewrite Hkey in Hk. injection Hk as Hk. contradiction.
              --- exists pb'. repeat split; auto.
      * split; [| exact IHtotal]. rewrite IH. split.
        ** intros (pb' & Hin & H). exists pb'. split; [right; exact Hin | exact H].
        ** intros (pb' & [<- | Hin] & Hm & Hk & Ht).
           --- rewrite Hkey in Hk. discriminate Hk.
           --- exists pb'. repeat split; auto.
    + split; [| exact IHtotal]. rewrite IH. split.
      * intros (pb' & Hin & H). exists pb'. split; [right; exact Hin | exact H].
      * intros (pb' & [<- | Hin] & Hm & Hk & Ht).
        -- contradiction.
        -- exists pb'. repeat split; auto.
Qed.

(** X2: the answer of [verifyPayment] does not depend on the amount it is
    asked to verify: a transaction accepted for one amount is accepted for
    every amount. *)
Theorem verifyPayment_ignores_amount (signature : value) (amount1 amount2 : number)
    (expectedRecipient : string) :
  verifyPayment rt cfg ledger signature amount1 expectedRecipient
  = verifyPayment rt cfg ledger signature amount2 expectedRecipient.
Proof.
  unfold Gateway.verifyPayment, Gateway.verifyPayment_try.
  destruct (getTransaction ledger signature) as [[tx |] |]; cbn [bind]; try reflexivity.
  destruct (meta tx) as [m |]; try reflexivity.
  destruct (truthy (err m)); try reflexivity.
  destruct (PublicKey ledger expectedRecipient) as [rpk |]; cbn [bind]; try reflexivity.
  destruct (PublicKey ledger (USDC_MINT cfg)) as [mpk |]; cbn [bind]; try reflexivity.
  destruct (getAssociatedTokenAddress ledger mpk rpk) as [ata |]; cbn [bind];
    try reflexivity.
  pose proof (scanPostBalances_throw rt cfg tx ata (orEmpty (preTokenBalances m))
                amount1 (orEmpty (postTokenBalances m))) as H1.
  pose proof (scanPostBalances_throw rt cfg tx ata (orEmpty (preTokenBalances m))
                amount2 (orEmpty (postTokenBalances m))) as H2.
  destruct (scanPostBalances rt cfg tx ata (orEmpty (preTokenBalances m)) amount1
              (orEmpty (postTokenBalances m))) as [b1 |];
    destruct (scanPostBalances rt cfg tx ata (orEmpty (preTokenBalances m)) amount2
                (orEmpty (postTokenBalances m))) as [b2 |]; cbn [bind try_catch].
  - destruct b1, b2; reflexivity.
  - discriminate (proj2 H1 (proj1 H2 eq_refl)).
  - discriminate (proj2 H2 (proj1 H1 eq_refl)).
  - reflexivity.
Qed.

(** X3: an amount that is falsy (0, the empty text, [null], [false]) with
    no [value] alias beside it is dropped by the parser: the proof record
    has no amount, and the middleware never answers InsufficientAmount to
    it. *)
Theorem falsy_amount_is_dropped (h : string) (v : json) :
  JSON_parse rt h = Some v -> v <> JNull -> h <> "" ->
  truthy (get v "amount") = false -> get v "value" = undefined ->
  exists payment,
    parseX402Header rt h = Some payment
    /\ pay_amount payment = undefined
    /\ forall requiredAmount req,
         header req = Some h -> bypass req = false ->
         requirePayment rt cfg ledger requiredAmount req
         <> InsufficientAmount cfg requiredAmount.
Proof.
  intros Hp Hv Hne Hfalsy Hvalue. eexists.
  split; [exact (parse_nonnull rt h Hp Hv) |].
  cbn [pay_amount]. unfold or_ at 1. rewrite Hfalsy, Hvalue.
  split; [reflexivity |].
  intros requiredAmount req Hh Hb.
  rewrite (requirePayment_header rt cfg ledger requiredAmount req Hb Hh Hne),
    (parse_nonnull rt h Hp Hv).
  cbn [pay_amount]. unfold or_ at 1 2. rewrite Hfalsy, Hvalue.
  unfold lt. cbn [converts numberOf]. rewrite nan_ltb_false.
  repeat match goal with |- context [if ?c then _ else _] => destruct c end;
    discriminate.
Qed.

End VerifierProperties.

(** ** The client's header at the server *)

Section ClientProperties.

Import Gateway.

(** The runtime of the server, and the runtime and serializer of the client. *)
Variable rt : Runtime.
Variable rtClient : Runtime.
Variable JSON_stringify : json -> string.
Variable cfg : Config.
Variable ledger : Ledger.

(** X4: the header built by the client reads back at the server with the
    same amount, asset, sender, recipient and transaction, provided the
    serialized proof parses back to itself and none of these fields is
    falsy. A zero amount does not survive: it reads back as absent. *)
Theorem createX402Header_roundtrip (mintText : string) (amount : number)
    (sender recipient signature : string) :
  let proof := Client.paymentData rtClient mintText amount sender recipient signature in
  let h := Client.createX402Header rtClient JSON_stringify mintText amount sender
             recipient signature in
  JSON_parse rt (JSON_stringify proof) = Some proof ->
  mintText <> "" -> sender <> "" -> recipient <> "" -> signature <> "" ->
  exists payment,
    parseX402Header rt h = Some payment
    /\ pay_amount payment
       = (if is_zero amount || is_nan amount then undefined else Some (JNum amount))
    /\ pay_token payment = Some (JStr mintText)
    /\ pay_sender payment = Some (JStr sender)
    /\ pay_recipient payment = Some (JStr recipient)
    /\ pay_signature payment = Some (JStr signature).
Proof.
  cbv zeta. intros Hrt Hm Hs Hr Hsig.
  assert (Hnn : Client.paymentData rtClient mintText amount sender recipient signature
                <> JNull) by discriminate.
  eexists. split.
  - unfold Client.createX402Header. exact (parse_nonnull rt _ Hrt Hnn).
  - apply String.eqb_neq in Hm, Hs, Hr, Hsig.
    cbn [pay_amount pay_token pay_sender pay_recipient pay_signature
         Client.paymentData get lookup String.eqb Ascii.eqb Bool.eqb].
    unfold or_. do 3 (cbn [truthy negb]; rewrite ?Hm, ?Hs, ?Hr, ?Hsig).
    cbn [truthy negb].
    destruct (is_zero amount || is_nan amount); repeat split; reflexivity.
Qed.

(** X5: a header the client builds from the server's own requirement (the
    required amount, the configured recipient) and the transaction it sent
    passes the amount check and the recipient check: the reply is decided
    by the on-chain verification alone. *)
Theorem client_header_reaches_verification (mintText : string)
    (requiredAmount : number) (sender signature : string) (req : Request) :
  let proof := Client.paymentData rtClient mintText requiredAmount sender
                 (RECIPIENT_WALLET cfg) signature in
  let h := Client.createX402Header rtClient JSON_stringify mintText requiredAmount
             sender (RECIPIENT_WALLET cfg) signature in
  JSON_parse rt (JSON_stringify proof) = Some proof ->
  h <> "" -> RECIPIENT_WALLET cfg <> "" -> signature <> "" ->
  is_zero requiredAmount || is_nan requiredAmount = false ->
  header req = Some h -> bypass req = false ->
  requirePayment rt cfg ledger requiredAmount req =
    if verifyPayment rt cfg ledger (Some (JStr signature)) requiredAmount
         (RECIPIENT_WALLET cfg)
    then Authorized else ChainVerificationFailed.
Proof.
  cbv zeta. intros Hrt Hne Hw Hsig Hamt Hh Hb.
  assert (Hnn : Client.paymentData rtClient mintText requiredAmount sender
                  (RECIPIENT_WALLET cfg) signature <> JNull) by discriminate.
  rewrite (requirePayment_header rt cfg ledger requiredAmount req Hb Hh Hne).
  unfold Client.createX402Header. rewrite (parse_nonnull rt _ Hrt Hnn).
  apply String.eqb_neq in Hw, Hsig.
  cbn [pay_amount pay_recipient pay_signature
       Client.paymentData get lookup String.eqb Ascii.eqb Bool.eqb].
  unfold or_. do 3 (cbn [truthy negb]; rewrite ?Hamt, ?Hw, ?Hsig).
  cbn [truthy negb].
  unfold lt. cbn [numberOf strict_eq_string]. rewrite ltb_irrefl, String.eqb_refl.
  cbn [negb].
  destruct (verifyPayment rt cfg ledger (Some (JStr signature)) requiredAmount
              (RECIPIENT_WALLET cfg)); reflexivity.
Qed.

End ClientProperties.

(** ** The providers and the filtered views *)

Section ProviderProperties.

Import Yield.

Variable rt : Runtime.

Lemma kaminoOpportunity_protocol (strategy : json) (opp : YieldOpportunity) :
  kaminoOpportunity rt strategy = Ok (Some opp) -> protocol opp = "Kamino".
Proof.
  unfold kaminoOpportunity, kaminoRisk. intros H.
  destruct strategy; try discriminate H;
    repeat match type of H with
           | context [bind ?m _] => destruct m; cbn [bind] in H; try discriminate H
           | context [if ?c then _ else _] => destruct c; try discriminate H
           end;
    injection H as <-; reflexivity.
Qed.

Lemma kaminoLoop_spec (strategies : list json) (opps : list YieldOpportunity) :
  kaminoLoop rt strategies = Ok opps ->
  (List.length opps <= List.length strategies)%nat
  /\ Forall (fun opp => protocol opp = "Kamino") opps
  /\ ~ In JNull strategies.
Proof.
  revert opps. induction strategies as [| s rest IH]; cbn [kaminoLoop]; intros opps H.
  - injection H as <-. repeat split; auto; intros [].
  - destruct (kaminoOpportunity rt s) as [o |] eqn:Ho; cbn [bind] in H; [| discriminate].
    destruct (kaminoLoop rt rest) as [opps' |]; cbn [bind] in H; [| discriminate].
    destruct (IH opps' eq_refl) as (Hlen & Hall & Hnull).
    injection H as <-.
    assert (Hs : s <> JNull) by (intros ->; discriminate Ho).
    destruct o as [opp |]; cbn [List.length]; repeat split; try lia.
    + constructor; [exact (kaminoOpportunity_protocol s Ho) | exact Hall].
    + intros [Heq | Hin]; [exact (Hs Heq) | exact (Hnull Hin)].
    + exact Hall.
    + intros [Heq | Hin]; [exact (Hs Heq) | exact (Hnull Hin)].
Qed.

Lemma mockKamino_spec :
  List.length getMockKaminoYields = 3%nat
  /\ Forall (fun opp => protocol opp = "Kamino") getMockKaminoYields.
Proof. split; [reflexivity | repeat constructor]. Qed.

Lemma fetchKaminoYields_nonempty (p : Providers) :
  (1 <= List.length (fetchKaminoYields rt p) <= 10)%nat
  /\ Forall (fun opp => protocol opp = "Kamino") (fetchKaminoYields rt p).
Proof.
  destruct mockKamino_spec as [Hlen Hall].
  unfold fetchKaminoYields, fetchKaminoYields_try.
  destruct (kamino_get p) as [data |]; cbn [bind try_catch];
    [| rewrite Hlen; split; [lia | exact Hall]].
  destruct (or_ data (Some (JArr []))) as [[| | | | strategies |] |];
    cbn [try_catch]; try (rewrite Hlen; split; [lia | exact Hall]).
  destruct (kaminoLoop rt (firstn 10 strategies)) as [opps |] eqn:Hloop;
    cbn [bind try_catch]; [| rewrite Hlen; split; [lia | exact Hall]].
  destruct (kaminoLoop_spec _ Hloop) as (Hl & Ha & _).
  rewrite length_firstn in Hl.
  destruct opps as [| o rest]; [rewrite Hlen; split; [lia | exact Hall] |].
  split; [cbn [List.length] in *; lia | exact Ha].
Qed.

(** X6: whatever the Kamino API answers, [fetchKaminoYields] returns
    between one and ten opportunities, all of protocol Kamino; it never
    returns an empty list. *)
Theorem fetchKaminoYields_bounds (p : Providers) :
  fetchKaminoYields rt p <> []
  /\ (1 <= List.length (fetchKaminoYields rt p) <= 10)%nat
  /\ Forall (fun opp => protocol opp = "Kamino") (fetchKaminoYields rt p)
  /\ (kamino_get p = Throw -> fetchKaminoYields rt p = getMockKaminoYields).
Proof.
  destruct (fetchKaminoYields_nonempty p) as [Hlen Hall].
  split; [| split; [exact Hlen | split; [exact Hall | apply fetchKaminoYields_down]]].
  intros Hnil. rewrite Hnil in Hlen. cbn [List.length] in Hlen. lia.
Qed.

(** X7: one [null] among the first ten strategies makes the whole fetch
    fall back: the entries already built from the strategies before it are
    discarded and the static table is returned. *)
Theorem fetchKaminoYields_null_strategy (p : Providers) (strategies : list json) :
  kamino_get p = Ok (Some (JArr strategies)) ->
  In JNull (firstn 10 strategies) ->
  fetchKaminoYields rt p = getMockKaminoYields.
Proof.
  intros Hget Hnull. unfold fetchKaminoYields, fetchKaminoYields_try.
  rewrite Hget. cbn [bind or_ truthy].
  destruct (kaminoLoop rt (firstn 10 strategies)) as [opps |] eqn:Hloop;
    cbn [bind try_catch]; [| reflexivity].
  destruct (kaminoLoop_spec _ Hloop) as (_ & _ & Hno). contradiction.
Qed.

Lemma driftLoop_spec (markets : list SpotMarket) (opps : list YieldOpportunity) :
  driftLoop rt markets = Ok opps ->
  (List.length opps <= List.length markets)%nat
  /\ Forall (fun opp =>
               protocol opp = "Drift" /\ type opp = lending
               /\ riskLevel opp = Some medium
               /\ exists deposit, tvl opp = Some (JNum deposit)
                                  /\ (0 <? deposit) = true)
            opps.
Proof.
  revert opps. induction markets as [| m rest IH]; cbn [driftLoop]; intros opps H.
  - injection H as <-. split; [apply Nat.le_refl | constructor].
  - destruct (driftOpportunity rt m) as [o |] eqn:Ho; cbn [bind] in H; [| discriminate H].
    destruct (driftLoop rt rest) as [opps' |]; cbn [bind] in H; [| discriminate H].
    destruct (IH opps' eq_refl) as [IHl IHa]. injection H as <-.
    destruct o as [opp |]; [| split; [cbn [List.length]; lia | exact IHa]].
    split; [cbn [List.length]; lia |]. constructor; [| exact IHa].
    unfold driftOpportunity in Ho. cbv zeta in Ho.
    match type of Ho with context [if ?c then _ else _] => destruct c eqn:Hd end;
      [| discriminate Ho].
    destruct (ToString rt _) as [name |]; cbn [bind] in Ho; [| discriminate Ho].
    injection Ho as <-. cbn [protocol type riskLevel tvl]. repeat split.
    eexists. split; [reflexivity | exact Hd].
Qed.

(** X8: [fetchDriftYields] returns at most five opportunities; each is a
    lending entry of protocol Drift with medium risk and a positive TVL, so
    the utilization behind an estimated APY is never a division by zero. *)
Theorem fetchDriftYields_entries (p : Providers) :
  (List.length (fetchDriftYields rt p) <= 5)%nat
  /\ Forall (fun opp =>
               protocol opp = "Drift" /\ type opp = lending
               /\ riskLevel opp = Some medium
               /\ exists deposit, tvl opp = Some (JNum deposit)
                                  /\ (0 <? deposit) = true)
            (fetchDriftYields rt p).
Proof.
  assert (Hmock : (List.length getMockDriftYields <= 5)%nat
                  /\ Forall (fun opp =>
                               protocol opp = "Drift" /\ type opp = lending
                               /\ riskLevel opp = Some medium
                               /\ exists deposit, tvl opp = Some (JNum deposit)
                                                  /\ (0 <? deposit) = true)
                            getMockDriftYields).
  { split; [cbn; lia |].
    repeat constructor; eexists; (split; [reflexivity | reflexivity]). }
  unfold fetchDriftYields, fetchDriftYields_try.
  destruct (drift_subscribe p) as [markets |]; cbn [bind try_catch]; [| exact Hmock].
  destruct (driftLoop rt (firstn 5 markets)) as [opps |] eqn:Hloop;
    cbn [bind try_catch]; [| exact Hmock].
  destruct (drift_unsubscribe p); cbn [bind try_catch]; [| exact Hmock].
  destruct (driftLoop_spec _ Hloop) as [Hl Ha].
  rewrite length_firstn in Hl. split; [lia | exact Ha].
Qed.

Lemma topOpportunities_at_most_ten (p : Providers) (useMock : bool) :
  (List.length (topOpportunities (getBestYields rt p useMock)) <= 10)%nat.
Proof.
  destruct useMock; [cbn; lia |].
  rewrite getBestYields_live, length_firstn. lia.
Qed.

(** X9: [getBestYields] returns at most ten opportunities in either mode,
    and at least four when it is not in mock mode (Marginfi's three static
    entries and at least one of Kamino). *)
Theorem getBestYields_size (p : Providers) (useMock : bool) :
  (List.length (topOpportunities (getBestYields rt p useMock)) <= 10)%nat
  /\ (useMock = false ->
      (4 <= List.length (topOpportunities (getBestYields rt p useMock)))%nat).
Proof.
  split; [apply topOpportunities_at_most_ten |].
  intros ->. rewrite getBestYields_live, length_firstn, sortByApy_length, !length_app.
  destruct (fetchKaminoYields_nonempty p) as [Hk _].
  cbn [fetchMarginfiYields getMockMarginfiYields List.length]. lia.
Qed.

(** X24: in either mode the returned opportunities stand in descending
    order of APY, and an entry that was collected and cut is not better
    than any entry returned, provided no collected APY is NaN (the
    comparator [b.apy - a.apy] is positive exactly when [a.apy < b.apy], so
    it orders such entries consistently). *)
Theorem getBestYields_descending (p : Providers) (useMock : bool) :
  let top := topOpportunities (getBestYields rt p useMock) in
  let collected :=
    if useMock
    then (getMockKaminoYields ++ getMockMarginfiYields ++ getMockDriftYields)%list
    else (fetchKaminoYields rt p ++ fetchMarginfiYields ++ fetchDriftYields rt p)%list in
  Forall (fun o => is_nan (apy o) = false) collected ->
  ClaimedYield.descending top
  /\ ClaimedYield.nonIncreasing (map apy top) = true
  /\ (forall x y, In x top -> In y collected -> ~ In y top -> (apy y <=? apy x) = true)
  /\ (forall a b, (0 <? compareApy a b) = (apy a <? apy b)).
Proof.
  cbv zeta. intros Hnan.
  assert (Htop : topOpportunities (getBestYields rt p useMock)
                 = firstn 10 (sortByApy
                     (if useMock
                      then (getMockKaminoYields ++ getMockMarginfiYields
                            ++ getMockDriftYields)%list
                      else (fetchKaminoYields rt p ++ fetchMarginfiYields
                            ++ fetchDriftYields rt p)%list)))
    by (destruct useMock; reflexivity).
  rewrite Htop. destruct (topTen_descending Hnan) as [Hdesc Hcut].
  split; [exact Hdesc |]. split; [apply descending_nonIncreasing; exact Hdesc |].
  split; [exact Hcut | apply compareApy_positive].
Qed.

End ProviderProperties.

Section QueryProperties.

Import Yield.

Variable rt : Runtime.
Variable toLowerCase : string -> string.

Lemma filterByToken_spec (token : string) (l : list YieldOpportunity) :
  YieldQueries.filterByToken toLowerCase token l =
    if forallb YieldQueries.textToken l
    then Ok (filter (YieldQueries.tokenMatches toLowerCase token) l) else Throw.
Proof.
  induction l as [| opp rest IH]; cbn [YieldQueries.filterByToken forallb filter].
  - reflexivity.
  - rewrite IH.
    destruct opp as [pr tk ap tv ty va rl].
    destruct tk;
      cbn [YieldQueries.tokenLower YieldQueries.tokenMatches YieldQueries.textToken
           Yield.token bind andb]; try reflexivity.
    destruct (forallb YieldQueries.textToken rest); reflexivity.
Qed.

(** X10: [getYieldsByToken] throws exactly when one of the returned top
    opportunities has a token that is not a text (then no entry is
    returned at all); otherwise it returns, in ranking order, the top
    opportunities whose token equals the requested one up to case. In mock
    mode it never throws. *)
Theorem getYieldsByToken_spec (p : Providers) (token : string) (useMock : bool) :
  let top := topOpportunities (getBestYields rt p useMock) in
  (YieldQueries.getYieldsByToken rt toLowerCase p token useMock = Throw
   <-> exists opp, In opp top /\ YieldQueries.textToken opp = false)
  /\ (forallb YieldQueries.textToken top = true ->
      YieldQueries.getYieldsByToken rt toLowerCase p token useMock
      = Ok (filter (YieldQueries.tokenMatches toLowerCase token) top))
  /\ (useMock = true ->
      YieldQueries.getYieldsByToken rt toLowerCase p token useMock
      = Ok (filter (YieldQueries.tokenMatches toLowerCase token) top)).
Proof.
  cbv zeta. unfold YieldQueries.getYieldsByToken. rewrite filterByToken_spec.
  split; [| split].
  - destruct (forallb YieldQueries.textToken _) eqn:Hall.
    + split; [discriminate |]. intros (opp & Hin & Hno).
      rewrite forallb_forall in Hall. rewrite (Hall opp Hin) in Hno. discriminate Hno.
    + split; [| reflexivity]. intros _.
      destruct (forallb_forall YieldQueries.textToken
                  (topOpportunities (getBestYields rt p useMock))) as [_ Hback].
      destruct (existsb (fun o => negb (YieldQueries.textToken o))
                  (topOpportunities (getBestYields rt p useMock))) eqn:Hex.
      * apply existsb_exists in Hex. destruct Hex as (opp & Hin & Hneg).
        exists opp. split; [exact Hin |]. destruct (YieldQueries.textToken opp); [discriminate | reflexivity].
      * rewrite Hback in Hall; [discriminate Hall |].
        intros opp Hin. destruct (YieldQueries.textToken opp) eqn:Ht; [reflexivity |].
        assert (existsb (fun o => negb (YieldQueries.textToken o))
                  (topOpportunities (getBestYields rt p useMock)) = true).
        { apply existsb_exists. exists opp. rewrite Ht. split; [exact Hin | reflexivity]. }
        congruence.
  - intros ->. reflexivity.
  - intros ->. reflexivity.
Qed.

(** X11: [getYieldsByProtocol] never throws and returns a sub-list of the
    ranked top opportunities: an opportunity is returned exactly when it is
    among the top ones and its protocol equals the requested one up to
    case; so at most ten entries, and entries ranked below the tenth place
    are not found. *)
Theorem getYieldsByProtocol_spec (p : Providers) (protocol : string) (useMock : bool) :
  let top := topOpportunities (getBestYields rt p useMock) in
  let found := YieldQueries.getYieldsByProtocol rt toLowerCase p protocol useMock in
  (forall opp, In opp found <->
               In opp top /\ toLowerCase (Yield.protocol opp) = toLowerCase protocol)
  /\ (List.length found <= List.length top <= 10)%nat
  /\ (forall opp, In opp found ->
        In opp (if useMock
                then (getMockKaminoYields ++ getMockMarginfiYields ++ getMockDriftYields)%list
                else (fetchKaminoYields rt p ++ fetchMarginfiYields
                      ++ fetchDriftYields rt p)%list)).
Proof.
  cbv zeta. unfold YieldQueries.getYieldsByProtocol. split; [| split].
  - intros opp. rewrite filter_In, String.eqb_eq. reflexivity.
  - split; [apply filter_length_le |].
    apply topOpportunities_at_most_ten.
  - intros opp Hin. apply filter_In in Hin. destruct Hin as [Hin _].
    destruct useMock.
    + exact (topTen_subset _ _ Hin).
    + rewrite getBestYields_live in Hin. exact (topTen_subset _ _ Hin).
Qed.

End QueryProperties.

(** ** Prices, balances and the score *)

Lemma nodup_single (l : list string) :
  List.length (nodup string_dec l) = 1%nat
  <-> l <> [] /\ forall x y, In x l -> In y l -> x = y.
Proof.
  split.
  - intros Hlen. split.
    + intros ->. discriminate Hlen.
    + destruct (nodup string_dec l) as [| a [| b rest]] eqn:Hnd; try discriminate Hlen.
      assert (Hall : forall x, In x l -> x = a).
      { intros x Hx. apply (nodup_In string_dec) in Hx. rewrite Hnd in Hx.
        destruct Hx as [<- | []]. reflexivity. }
      intros x y Hx Hy. rewrite (Hall x Hx), (Hall y Hy). reflexivity.
  - intros [Hne Hsame].
    pose proof (NoDup_nodup string_dec l) as Hnd.
    destruct (nodup string_dec l) as [| a [| b rest]] eqn:Heq.
    + destruct l as [| x l']; [contradiction |].
      assert (Hin : In x (nodup string_dec (x :: l')))
        by (apply nodup_In; left; reflexivity).
      rewrite Heq in Hin. destruct Hin.
    + reflexivity.
    + exfalso.
      assert (Ha : In a l) by (apply (nodup_In string_dec); rewrite Heq; left; reflexivity).
      assert (Hb : In b l)
        by (apply (nodup_In string_dec); rewrite Heq; right; left; reflexivity).
      inversion Hnd as [| ? ? Hnotin _]; subst. apply Hnotin. left.
      exact (Hsame b a Hb Ha).
Qed.

Section ValuationProperties.

Import Portfolio.

Variable rt : Runtime.
Variable connection : Connection.

(** X12: the price helper never withholds a value: with the static prices,
    or when the live lookup has no price, the value is the amount times the
    static price of the symbol; a live price is used only when it is asked
    for and available. The static price is positive for every symbol that
    does not name a member of [Object.prototype]: the tabulated price, or 1
    for an unknown symbol. For a symbol that names such a member
    ([constructor], [toString], ...) the lookup finds the inherited member
    instead of a price, and the value is NaN whatever the amount is. *)
Theorem calculateUsdValue_fallback (getPrice : string -> option number)
    (symbol : string) (amount : number) :
  Pyth.calculateUsdValue getPrice symbol amount true = amount * Pyth.mockPrice symbol
  /\ (getPrice symbol = None ->
      Pyth.calculateUsdValue getPrice symbol amount false = amount * Pyth.mockPrice symbol)
  /\ (forall price, getPrice symbol = Some price ->
        Pyth.calculateUsdValue getPrice symbol amount false = amount * price)
  /\ (Pyth.inherited symbol = true <-> In symbol Pyth.objectPrototypeNames)
  /\ (Pyth.inherited symbol = false ->
      (0 <? Pyth.mockPrice symbol) = true
      /\ (Forall (fun known => symbol <> known)
            ["SOL"; "USDC"; "USDT"; "BTC"; "ETH"; "BONK"; "JUP"] ->
          Pyth.mockPrice symbol = 1))
  /\ (Pyth.inherited symbol = true ->
      Pyth.getMockPrice symbol = Pyth.Member
      /\ is_nan (Pyth.calculateUsdValue getPrice symbol amount true) = true).
Proof.
  assert (Hin : Pyth.inherited symbol = true <-> In symbol Pyth.objectPrototypeNames).
  { unfold Pyth.inherited. rewrite existsb_exists. split.
    - intros (name & Hname & Heq). apply String.eqb_eq in Heq. subst name. exact Hname.
    - intros H. exists symbol. split; [exact H | apply String.eqb_refl]. }
  split; [reflexivity |]. split; [| split; [| split; [exact Hin | split]]].
  - intros H. unfold Pyth.calculateUsdValue. rewrite H. reflexivity.
  - intros price H. unfold Pyth.calculateUsdValue. rewrite H. reflexivity.
  - intros Hown. unfold Pyth.mockPrice, Pyth.getMockPrice, Pyth.mockPrices. rewrite Hown.
    split.
    + repeat match goal with |- context [if String.eqb ?a ?b then _ else _] =>
               destruct (String.eqb a b)
             end; reflexivity.
    + intros Hall.
      repeat match goal with
             | H : Forall _ (_ :: _) |- _ => inversion H; subst; clear H
             end.
      repeat match goal with
             | H : symbol <> ?k |- _ =>
                 apply String.eqb_neq in H; rewrite H
             end.
      reflexivity.
  - intros Hinh. apply Hin in Hinh.
    assert (Hmember : Pyth.getMockPrice symbol = Pyth.Member).
    { unfold Pyth.objectPrototypeNames in Hinh. cbn [In] in Hinh.
      repeat (destruct Hinh as [<- | Hinh]; [reflexivity |]). destruct Hinh. }
    split; [exact Hmember |].
    unfold Pyth.calculateUsdValue, Pyth.mockPrice. rewrite Hmember.
    apply is_nan_spec. rewrite mul_spec. change (Prim2SF nan) with S754_nan.
    destruct (Prim2SF amount); reflexivity.
Qed.

(** X13: every token balance that [getTokenBalances] lists comes from an
    account of the wallet with a positive UI amount, carries the symbol of
    a known mint or the first four characters of the mint, and is valued at
    the static price of that symbol; accounts without a positive amount are
    left out, and a failing RPC call gives an empty list. *)
Theorem getTokenBalances_entries (walletAddress : pubkey) :
  Forall (fun b =>
            (0 <? uiAmount b) = true
            /\ usdValue b = uiAmount b * Pyth.mockPrice (symbol b)
            /\ symbol b = symbolOf (mint b)
            /\ (String.length (symbol b) <= 4)%nat)
         (getTokenBalances rt connection walletAddress)
  /\ match getParsedTokenAccountsByOwner connection walletAddress with
     | Ok accounts =>
         (List.length (getTokenBalances rt connection walletAddress)
          <= List.length accounts)%nat
         /\ forall b, In b (getTokenBalances rt connection walletAddress) ->
              exists account, In account accounts
                              /\ info_mint account = mint b
                              /\ info_uiAmount account = Some (uiAmount b)
     | Throw => getTokenBalances rt connection walletAddress = []
     end.
Proof.
  unfold getTokenBalances.
  destruct (getParsedTokenAccountsByOwner connection walletAddress) as [accounts |];
    cbn [bind try_catch]; [| split; [constructor | reflexivity]].
  destruct (tokenBalancesOf_spec rt connection accounts) as [Hl Ha].
  split; [| split; [exact Hl |]].
  - apply Forall_impl with (2 := Ha). intros b (H1 & H2 & H3 & H4 & _). auto.
  - intros b Hin. rewrite Forall_forall in Ha.
    destruct (Ha b Hin) as (_ & _ & _ & _ & H). exact H.
Qed.

Lemma tokenBalancesOf_oracle (prices : string -> option number)
    (accounts : list ParsedTokenAccount) :
  tokenBalancesOf rt
    {| PublicKey := PublicKey connection;
       getBalance := getBalance connection;
       getParsedTokenAccountsByOwner := getParsedTokenAccountsByOwner connection;
       getPrice := prices |} accounts
  = tokenBalancesOf rt connection accounts.
Proof.
  induction accounts as [| a rest IH]; cbn [tokenBalancesOf]; [reflexivity |].
  rewrite IH. reflexivity.
Qed.

(** X14: the live price oracle plays no part in the analytics: whatever
    prices it would report, the portfolio snapshot and the risk score of a
    wallet are the same (every value is taken at the static prices). *)
Theorem analytics_ignore_oracle (prices : string -> option number)
    (walletAddress : string) (useMock : bool) :
  let other :=
    {| PublicKey := PublicKey connection;
       getBalance := getBalance connection;
       getParsedTokenAccountsByOwner := getParsedTokenAccountsByOwner connection;
       getPrice := prices |} in
  getPortfolioAnalytics rt other walletAddress useMock
  = getPortfolioAnalytics rt connection walletAddress useMock
  /\ calculateRiskScore rt other walletAddress useMock
     = calculateRiskScore rt connection walletAddress useMock.
Proof.
  cbv zeta.
  assert (H : getPortfolioAnalytics rt
                {| PublicKey := PublicKey connection;
                   getBalance := getBalance connection;
                   getParsedTokenAccountsByOwner :=
                     getParsedTokenAccountsByOwner connection;
                   getPrice := prices |} walletAddress useMock
              = getPortfolioAnalytics rt connection walletAddress useMock).
  { unfold getPortfolioAnalytics, getPortfolioAnalytics_try. cbn [PublicKey getBalance].
    destruct (PublicKey connection walletAddress) as [pk |]; cbn [bind try_catch];
      [| reflexivity].
    destruct (getBalance connection pk) as [b |]; cbn [bind try_catch]; [| reflexivity].
    unfold getTokenBalances. cbn [getParsedTokenAccountsByOwner].
    destruct (getParsedTokenAccountsByOwner connection pk) as [accounts |];
      cbn [bind try_catch]; [| reflexivity].
    rewrite tokenBalancesOf_oracle. reflexivity. }
  split; [exact H |].
  rewrite !calculateRiskScore_cases, H. reflexivity.
Qed.

(** X15: outside mock mode a retrieved portfolio has no DeFi positions.
    When the scoring completes (always for a wallet of fewer than ten token
    balances), the score reflects token concentration only: the
    liquidation risk is 0, the protocol diversification is 100, there is no
    health factor, and the only warning that can be given is the one on
    concentration. When the wallet lists more balances than the engine
    passes as arguments, the fixed score is returned instead, with its
    liquidation risk 19.5, diversification 50 and health factor 2.15. *)
Theorem live_score_factors (walletAddress : string) (p : PortfolioAnalytics) :
  getPortfolioAnalytics_try rt connection walletAddress false = Ok p ->
  let r := calculateRiskScore rt connection walletAddress false in
  defiPositions p = []
  /\ (spreadCompletes rt p = true ->
      liquidationRisk (factors r) = 0
      /\ protocolDiversification (factors r) = 100
      /\ healthFactor (factors r) = None
      /\ (warnings r = []
          \/ warnings r = ["High concentration risk: Over 70% in single asset"]))
  /\ (spreadCompletes rt p = false ->
      r = getMockRiskScore walletAddress (Date_now rt)
      /\ liquidationRisk (factors r) = 19.5
      /\ protocolDiversification (factors r) = 50
      /\ healthFactor (factors r) = Some 2.15
      /\ warnings r = [])
  /\ ((List.length (tokenBalances p) < 10)%nat -> spreadCompletes rt p = true).
Proof.
  intros Htry. cbv zeta. rewrite calculateRiskScore_cases.
  unfold getPortfolioAnalytics. rewrite Htry. cbn [try_catch].
  assert (Hd : defiPositions p = []).
  { unfold getPortfolioAnalytics_try in Htry.
    destruct (PublicKey connection walletAddress) as [pk |]; cbn [bind] in Htry;
      [| discriminate Htry].
    destruct (getBalance connection pk) as [b |]; cbn [bind] in Htry;
      [| discriminate Htry].
    injection Htry as <-. reflexivity. }
  split; [exact Hd |]. split; [| split; [| apply spreadCompletes_small]].
  - intros ->.
    cbn [scorePortfolio factors liquidationRisk protocolDiversification healthFactor
         warnings].
    unfold liquidationRiskOf, protocolDiversificationOf. rewrite Hd.
    repeat split.
    destruct (0.7 <? maxConcentrationOf p); [right | left]; reflexivity.
  - intros ->. repeat split.
Qed.

(** X16: the overall score never exceeds 100, whatever the snapshot and
    the health factor are. *)
Theorem overallScore_capped (healthFactor : option number) (walletAddress : string)
    (portfolio : PortfolioAnalytics) :
  (100 <? overallScore (scorePortfolio rt healthFactor walletAddress portfolio)) = false.
Proof.
  cbn [scorePortfolio overallScore].
  set (sum := _ + healthFactorTerm healthFactor).
  unfold Math_min. cbn [Math_min_from].
  change (is_nan 100) with false. change (100 <? infinity) with true.
  change (is_neg_zero 100) with false. change (is_pos_zero 100) with false.
  cbn [andb]. rewrite andb_false_r.
  destruct (is_nan sum) eqn:Hn; [apply ltb_nan_r |].
  destruct (sum <? 100) eqn:Hx; [apply ltb_asym; exact Hx | reflexivity].
Qed.

(** X17: the warning on single protocol exposure is given exactly when the
    snapshot has at least one position and all its positions are in the
    same protocol. *)
Theorem single_protocol_warning (healthFactor : option number) (walletAddress : string)
    (portfolio : PortfolioAnalytics) :
  In "Single protocol exposure - consider diversification"
     (warnings (scorePortfolio rt healthFactor walletAddress portfolio))
  <-> defiPositions portfolio <> []
      /\ forall a b, In a (defiPositions portfolio) -> In b (defiPositions portfolio) ->
                     protocol a = protocol b.
Proof.
  cbn [scorePortfolio warnings].
  assert (Hcount : Nat.eqb (uniqueProtocolCount (defiPositions portfolio)) 1
                   && Nat.ltb 0 (List.length (defiPositions portfolio)) = true
                   <-> defiPositions portfolio <> []
                       /\ forall a b, In a (defiPositions portfolio) ->
                                      In b (defiPositions portfolio) ->
                                      protocol a = protocol b).
  { unfold uniqueProtocolCount. rewrite andb_true_iff, Nat.eqb_eq, nodup_single. split.
    - intros [[Hne Hsame] _]. split.
      + intros Hnil. rewrite Hnil in Hne. apply Hne. reflexivity.
      + intros a b Ha Hb. apply Hsame; apply in_map; assumption.
    - intros [Hne Hsame]. split; [split |].
      + intros Hnil. apply map_eq_nil in Hnil. contradiction.
      + intros x y Hx Hy. apply in_map_iff in Hx, Hy.
        destruct Hx as (a & <- & Ha), Hy as (b & <- & Hb). exact (Hsame a b Ha Hb).
      + apply Nat.ltb_lt. destruct (defiPositions portfolio); [contradiction |].
        cbn [List.length]. lia. }
  rewrite <- Hcount.
  destruct (Nat.eqb (uniqueProtocolCount (defiPositions portfolio)) 1
            && Nat.ltb 0 (List.length (defiPositions portfolio))).
  - split; [reflexivity |]. intros _. apply in_or_app. right. apply in_or_app. right.
    left. reflexivity.
  - split; [| discriminate]. intros Hin.
    apply in_app_or in Hin. destruct Hin as [Hin | Hin].
    + destruct (0.7 <? maxConcentrationOf portfolio); [| destruct Hin].
      destruct Hin as [Hin | []]. discriminate Hin.
    + apply in_app_or in Hin. destruct Hin as [Hin | []].
      destruct (50 <? liquidationRiskOf portfolio); [| destruct Hin].
      destruct Hin as [Hin | []]. discriminate Hin.
Qed.

End ValuationProperties.

(** X18: the risk level is monotone in the score: a score that is not
    larger never gets a higher level; a score that is not a number is
    rated critical. *)
Theorem riskLevel_monotone (score1 score2 : number) :
  ((score1 <=? score2) = true ->
   (PortfolioOrder.levelRank (Portfolio.riskLevelOf score1)
    <= PortfolioOrder.levelRank (Portfolio.riskLevelOf score2))%nat)
  /\ (is_nan score1 = true -> Portfolio.riskLevelOf score1 = Portfolio.critical).
Proof.
  split.
  - intros Hle. unfold Portfolio.riskLevelOf.
    destruct (score2 <? 25) eqn:H25.
    { rewrite (@leb_ltb_trans _ _ _ Hle H25). apply Nat.le_refl. }
    destruct (score2 <? 50) eqn:H50.
    { rewrite (@leb_ltb_trans _ _ _ Hle H50). destruct (score1 <? 25); cbn; lia. }
    destruct (score2 <? 75) eqn:H75.
    { rewrite (@leb_ltb_trans _ _ _ Hle H75).
      destruct (score1 <? 25); [cbn; lia |]. destruct (score1 <? 50); cbn; lia. }
    destruct (score1 <? 25); [cbn; lia |]. destruct (score1 <? 50); [cbn; lia |].
    destruct (score1 <? 75); cbn; lia.
  - intros Hnan. apply is_nan_spec in Hnan. unfold Portfolio.riskLevelOf.
    rewrite !ltb_spec, Hnan. reflexivity.
Qed.

(** ** The protected routes *)

Section RouteProperties.

Import Server.

Variable rt : Runtime.
Variable cfg : Gateway.Config.
Variable ledger : Gateway.Ledger.
Variable providers : Yield.Providers.
Variable connection : Portfolio.Connection.
Variable PRICES : Prices.
Variable newJobId : string.

Local Abbreviation requirePayment := (Gateway.requirePayment rt cfg ledger).
Local Abbreviation protected := (protected rt cfg ledger).
Local Abbreviation portfolioRoute := (portfolioRoute rt cfg ledger connection PRICES).
Local Abbreviation riskRoute := (riskRoute rt cfg ledger connection PRICES).
Local Abbreviation defiIntelHandler :=
  (defiIntelHandler rt providers connection PRICES newJobId).

Lemma protected_success (price : number) (handler : HttpRequest -> HttpResponse)
    (req : HttpRequest) (body : Body) (paid : number) :
  protected price handler req = Success body paid ->
  requirePayment price (gatewayRequest req) = Gateway.CallNext
  /\ handler req = Success body paid.
Proof.
  unfold Server.protected.
  destruct (Gateway.requirePayment rt cfg ledger price (gatewayRequest req));
    [auto | discriminate].
Qed.

Lemma requirePayment_next (price : number) (req : Gateway.Request) :
  requirePayment price req = Gateway.CallNext ->
  Gateway.bypass req = true
  \/ exists h payment,
       Gateway.header req = Some h
       /\ Gateway.parseX402Header rt h = Some payment
       /\ lt rt (Gateway.pay_amount payment) price = false
       /\ Gateway.pay_recipient payment = Some (JStr (Gateway.RECIPIENT_WALLET cfg))
       /\ Gateway.verifyPayment rt cfg ledger (Gateway.pay_signature payment) price
            (Gateway.RECIPIENT_WALLET cfg) = true.
Proof.
  intros Hnext. destruct (Gateway.bypass req) eqn:Hb; [left; reflexivity | right].
  destruct (Gateway.header req) as [h |] eqn:Hh.
  - destruct (String.eqb_spec h "") as [-> | Hne].
    + rewrite (requirePayment_no_header rt cfg ledger price req Hb) in Hnext;
        [discriminate Hnext | unfold Gateway.noHeader; rewrite Hh; reflexivity].
    + rewrite (requirePayment_header rt cfg ledger price req Hb Hh Hne) in Hnext.
      destruct (Gateway.parseX402Header rt h) as [payment |] eqn:Hp;
        [| discriminate Hnext].
      exists h, payment.
      destruct (converts (Gateway.pay_amount payment)); [| discriminate Hnext].
      destruct (lt rt (Gateway.pay_amount payment) price); [discriminate Hnext |].
      destruct (Gateway.pay_recipient payment) as [[| b | n | s | items | props] |];
        cbn [strict_eq_string negb] in Hnext; try discriminate Hnext.
      destruct (String.eqb_spec s (Gateway.RECIPIENT_WALLET cfg)) as [Heq | Hs];
        cbn [negb] in Hnext; [subst s | discriminate Hnext].
      destruct (Gateway.verifyPayment rt cfg ledger (Gateway.pay_signature payment)
                  price (Gateway.RECIPIENT_WALLET cfg)); [| discriminate Hnext].
      repeat split; try reflexivity; assumption.
  - rewrite (requirePayment_no_header rt cfg ledger price req Hb) in Hnext;
      [discriminate Hnext | unfold Gateway.noHeader; rewrite Hh; reflexivity].
Qed.

(** X19: a protected route serves data only after the middleware let the
    request through: either the request asked for the test bypass
    ([mock=true]), or its header parsed to a proof whose amount is not below
    the price of the route, whose recipient is the configured wallet, and
    whose transaction the ledger verification accepted for that price. *)
Theorem no_data_without_payment (price : number)
    (handler : HttpRequest -> HttpResponse) (req : HttpRequest)
    (body : Body) (paid : number) :
  protected price handler req = Success body paid ->
  query_mock req = Some "true"
  \/ exists h payment,
       payment_header req = Some h
       /\ Gateway.parseX402Header rt h = Some payment
       /\ lt rt (Gateway.pay_amount payment) price = false
       /\ Gateway.pay_recipient payment = Some (JStr (Gateway.RECIPIENT_WALLET cfg))
       /\ Gateway.verifyPayment rt cfg ledger (Gateway.pay_signature payment) price
            (Gateway.RECIPIENT_WALLET cfg) = true.
Proof.
  intros Hs. destruct (protected_success price handler req Hs) as [Hnext _].
  destruct (requirePayment_next price (gatewayRequest req) Hnext) as [Hb | H].
  - left. unfold Gateway.bypass in Hb. cbn [gatewayRequest Gateway.query_mock] in Hb.
    destruct (query_mock req) as [m |]; [| discriminate Hb].
    apply String.eqb_eq in Hb. rewrite Hb. reflexivity.
  - right. exact H.
Qed.

(** X20: on the two wallet routes the payment is checked before the wallet
    is looked at. The reply "Invalid Wallet Address" (400) is given exactly
    when the middleware let the request through and the wallet is not a
    public key, so an unpaid request gets the reply of the middleware
    whatever its wallet is; data is served only for a wallet that is a
    public key, with the price of the route as [paid]. *)
Theorem wallet_routes_order (req : HttpRequest) :
  (portfolioRoute req = InvalidWallet
   <-> requirePayment (PORTFOLIO PRICES) (gatewayRequest req) = Gateway.CallNext
       /\ Portfolio.PublicKey connection (params_wallet req) = Throw)
  /\ (riskRoute req = InvalidWallet
      <-> requirePayment (RISK PRICES) (gatewayRequest req) = Gateway.CallNext
          /\ Portfolio.PublicKey connection (params_wallet req) = Throw)
  /\ (forall body paid,
        portfolioRoute req = Success body paid ->
        validWallet connection (params_wallet req) = true
        /\ paid = PORTFOLIO PRICES
        /\ body = PortfolioBody
                    (Portfolio.getPortfolioAnalytics rt connection (params_wallet req)
                       (useMockOf req)))
  /\ (forall body paid,
        riskRoute req = Success body paid ->
        validWallet connection (params_wallet req) = true
        /\ paid = RISK PRICES
        /\ body = RiskBody
                    (Portfolio.calculateRiskScore rt connection (params_wallet req)
                       (useMockOf req))).
Proof.
  unfold Server.portfolioRoute, Server.riskRoute, Server.protected,
    Server.portfolioHandler, Server.riskHandler, Server.validWallet.
  cbn [try_catch].
  destruct (Gateway.requirePayment rt cfg ledger (PORTFOLIO PRICES) (gatewayRequest req));
    destruct (Gateway.requirePayment rt cfg ledger (RISK PRICES) (gatewayRequest req));
    destruct (Portfolio.PublicKey connection (params_wallet req)) as [pk |];
    repeat split; intros; try discriminate;
    repeat match goal with
           | H : _ /\ _ |- _ => destruct H
           | H : Success _ _ = Success _ _ |- _ => injection H as <- <-
           end;
    try discriminate; try reflexivity.
Qed.

(** X21: once the route validated the wallet, the portfolio it serves is
    the static fallback snapshot exactly when the balance query of the RPC
    node fails; otherwise the served total is the sum of the served parts. *)
Theorem portfolioRoute_snapshot (req : HttpRequest) (d : Portfolio.PortfolioAnalytics)
    (paid : number) :
  portfolioRoute req = Success (PortfolioBody d) paid ->
  exists publicKey,
    Portfolio.PublicKey connection (params_wallet req) = Ok publicKey
    /\ match Portfolio.getBalance connection publicKey with
       | Ok _ => Portfolio.totalUsdValue d = ClaimedPortfolio.totalOfParts d
       | Throw => d = Portfolio.fallbackPortfolio rt (params_wallet req)
       end.
Proof.
  intros Hs. unfold Server.portfolioRoute in Hs.
  destruct (protected_success _ _ req Hs) as [_ Hh].
  unfold Server.portfolioHandler, Server.validWallet in Hh. cbn [try_catch] in Hh.
  destruct (Portfolio.PublicKey connection (params_wallet req)) as [pk |] eqn:Hpk;
    [| discriminate Hh].
  injection Hh as Hd _. exists pk. split; [reflexivity |].
  destruct (Portfolio.getBalance connection pk) as [b |] eqn:Hb.
  - destruct (Portfolio.getPortfolioAnalytics_try rt connection (params_wallet req)
                (useMockOf req)) as [p |] eqn:Htry.
    + unfold Portfolio.getPortfolioAnalytics in Hd. rewrite Htry in Hd.
      cbn [try_catch] in Hd. subst p.
      exact (normal_path_total rt connection (params_wallet req) (useMockOf req) Htry).
    + unfold Portfolio.getPortfolioAnalytics_try in Htry. rewrite Hpk in Htry.
      cbn [bind] in Htry. rewrite Hb in Htry. discriminate Htry.
  - rewrite <- Hd. apply retrieval_failure_fallback.
    unfold Portfolio.getPortfolioAnalytics_try. rewrite Hpk. cbn [bind]. rewrite Hb.
    reflexivity.
Qed.

Lemma validType_cases (type : string) :
  existsb (String.eqb type) validTypes = true ->
  type = "yield" \/ type = "portfolio" \/ type = "risk" \/ type = "all".
Proof.
  unfold validTypes. cbn [existsb]. rewrite !orb_true_iff, !String.eqb_eq.
  intuition discriminate.
Qed.

(** X22: the unified handler answers "Invalid Type" (400) exactly when the
    [type] parameter is missing or not one of yield, portfolio, risk, all.
    For [type=yield] it serves the yields alone and never looks at the
    wallet. For the other types it needs a wallet that is a public key:
    each job it serves holds the yields exactly for yield and all, the
    portfolio exactly for portfolio and all, the risk score exactly for
    risk and all. *)
Theorem defiIntel_routing (req : HttpRequest) :
  (defiIntelHandler req = InvalidType
   <-> forall type, query_type req = Some type -> ~ In type validTypes)
  /\ (query_type req = Some "yield" ->
      defiIntelHandler req =
        Success (IntelBody
                   {| jobId := newJobId; job_type := "yield";
                      job_timestamp := Date_now rt; network := "solana-devnet";
                      data := {| yields := Some (Yield.getBestYields rt providers
                                                   (useMockOf req));
                                 portfolio := None; risk := None |} |})
                (DEFI_INTEL PRICES))
  /\ (forall body paid,
        defiIntelHandler req = Success body paid ->
        exists type r,
          query_type req = Some type /\ In type validTypes
          /\ body = IntelBody r /\ job_type r = type /\ paid = DEFI_INTEL PRICES
          /\ (yields (data r) <> None <-> type = "yield" \/ type = "all")
          /\ (portfolio (data r) <> None <-> type = "portfolio" \/ type = "all")
          /\ (risk (data r) <> None <-> type = "risk" \/ type = "all")
          /\ (type <> "yield" ->
              exists wallet, query_wallet req = Some wallet /\ wallet <> ""
                             /\ validWallet connection wallet = true)).
Proof.
  unfold Server.defiIntelHandler. cbn [try_catch].
  destruct (query_type req) as [type |] eqn:Htype.
  2:{ split; [| split].
      - split; [intros _ type H; discriminate H | reflexivity].
      - discriminate.
      - intros body paid H. discriminate H. }
  destruct (String.eqb_spec type "") as [-> | Hne]; cbn [orb].
  { split; [| split].
    - split; [| reflexivity]. intros _ type H. injection H as <-.
      cbn. intros [H | [H | [H | [H | []]]]]; discriminate H.
    - discriminate.
    - intros body paid H. discriminate H. }
  destruct (existsb (String.eqb type) validTypes) eqn:Hvalid; cbn [negb].
  2:{ split; [| split].
      - split; [| reflexivity]. intros _ type' H. injection H as <-. intros Hin.
        assert (existsb (String.eqb type) validTypes = true).
        { apply existsb_exists. exists type. split; [exact Hin | apply String.eqb_refl]. }
        congruence.
      - intros H. injection H as ->. discriminate Hvalid.
      - intros body paid H. discriminate H. }
  assert (Hin : In type validTypes).
  { apply existsb_exists in Hvalid. destruct Hvalid as (t & Hin & Heq).
    apply String.eqb_eq in Heq. subst t. exact Hin. }
  unfold checkWallet, selects.
  destruct (validType_cases type Hvalid) as [-> | [-> | [-> | ->]]];
    cbn [String.eqb Ascii.eqb Bool.eqb orb];
    (split; [| split]);
    try (split; [| intros H; exfalso; exact (H _ eq_refl Hin)]);
    try discriminate; try reflexivity;
    destruct (query_wallet req) as [wallet |]; try discriminate;
    try (destruct (String.eqb_spec wallet "") as [-> | Hw]; try discriminate;
         destruct (validWallet connection wallet) eqn:Hvw; try discriminate);
    try (intros body paid H; injection H as <- <-;
         eexists; eexists; split; [reflexivity |]; split; [exact Hin |];
         split; [reflexivity |]; split; [reflexivity |]; split; [reflexivity |];
         cbn [data yields portfolio risk];
         repeat split; intros; try discriminate; auto;
         try (intuition discriminate);
         try (eexists; repeat split; [reflexivity | exact Hw | exact Hvw])).
  all: exists wallet; split; [reflexivity | split; [exact Hw | exact Hvw]].
Qed.

(** X23: with [mock=true] every protected route skips the payment check:
    the handler runs whatever the header and the ledger are, and the
    reply of the yield route is the static ranking reported as paid. *)
Theorem mock_bypasses_payment (price : number)
    (handler : HttpRequest -> HttpResponse) (req : HttpRequest) :
  query_mock req = Some "true" ->
  protected price handler req = handler req
  /\ bestYieldRoute rt cfg ledger providers PRICES req
     = Success (YieldBody (Yield.mockResponse (Date_now rt))) (BEST_YIELD PRICES).
Proof.
  intros Hm.
  assert (Hp : forall price handler, protected price handler req = handler req).
  { intros pr hd. unfold Server.protected, Gateway.requirePayment,
      Gateway.requirePayment_try, Gateway.bypass.
    cbn [try_catch gatewayRequest Gateway.query_mock]. rewrite Hm. reflexivity. }
  split; [apply Hp |].
  unfold Server.bestYieldRoute. rewrite Hp.
  unfold Server.bestYieldHandler, useMockOf. rewrite Hm. reflexivity.
Qed.

End RouteProperties.

(** ** The further properties at concrete inputs *)

(** The loop on the transaction [sigPaid]: the record of the recipient's
    account differs from the expected 50000 by 0. *)
Lemma scanPostBalances_true_iff_witness :
  Gateway.getAccountKeys (Examples.transferTx "0" "50000")
  = Ok ["payer"; Examples.ataOf Examples.wallet]
  /\ exists pb,
       In pb [Examples.usdcEntry 1 "50000"]
       /\ Gateway.mint pb = Gateway.USDC_MINT Examples.cfg
       /\ nth_error ["payer"; Examples.ataOf Examples.wallet] (Gateway.accountIndex pb)
          = Some (Examples.ataOf Examples.wallet)
       /\ (abs (Gateway.amountReceived Examples.rt [Examples.usdcEntry 1 "0"] pb - 50000)
           <? 1000) = true.
Proof.
  split; [reflexivity |].
  exact (proj1 (proj1 (scanPostBalances_true_iff Examples.rt Examples.cfg
                         (Examples.transferTx "0" "50000")
                         (Examples.ataOf Examples.wallet)
                         [Examples.usdcEntry 1 "0"] [Examples.usdcEntry 1 "50000"]
                         50000 eq_refl)) eq_refl).
Defined.

(** A proof with [amount: 0] for a required 50000 is not answered with
    InsufficientAmount. *)
Lemma falsy_amount_is_dropped_witness :
  JSON_parse ExamplesMore.rt ExamplesMore.zeroAmountHeader
  = Some ExamplesMore.zeroAmountProof
  /\ truthy (get ExamplesMore.zeroAmountProof "amount") = false
  /\ get ExamplesMore.zeroAmountProof "value" = undefined
  /\ exists payment,
       Gateway.parseX402Header ExamplesMore.rt ExamplesMore.zeroAmountHeader
       = Some payment
       /\ Gateway.pay_amount payment = undefined
       /\ Gateway.requirePayment ExamplesMore.rt Examples.cfg Examples.ledger 50000
            (Examples.request ExamplesMore.zeroAmountHeader)
          <> Gateway.InsufficientAmount Examples.cfg 50000.
Proof.
  assert (Hv : ExamplesMore.zeroAmountProof <> JNull) by discriminate.
  assert (Hh : ExamplesMore.zeroAmountHeader <> "") by discriminate.
  split; [reflexivity |]. split; [reflexivity |]. split; [reflexivity |].
  destruct (falsy_amount_is_dropped ExamplesMore.rt Examples.cfg Examples.ledger
              (h := ExamplesMore.zeroAmountHeader) (v := ExamplesMore.zeroAmountProof)
              eq_refl Hv Hh eq_refl eq_refl) as (payment & Hp & Ha & Hall).
  exists payment. split; [exact Hp |]. split; [exact Ha |].
  exact (Hall 50000 (Examples.request ExamplesMore.zeroAmountHeader) eq_refl eq_refl).
Defined.

(** The client's header for 50000 micro-USDC reads back with its amount. *)
Lemma createX402Header_roundtrip_witness :
  JSON_parse ExamplesMore.rt (ExamplesMore.stringifyTable ExamplesMore.clientProof)
  = Some ExamplesMore.clientProof
  /\ exists payment,
       Gateway.parseX402Header ExamplesMore.rt
         (Client.createX402Header Examples.rt ExamplesMore.stringifyTable
            (Gateway.USDC_MINT Examples.cfg) 50000 "payer" Examples.wallet "sigPaid")
       = Some payment
       /\ Gateway.pay_amount payment = Some (JNum 50000)
       /\ Gateway.pay_recipient payment = Some (JStr Examples.wallet).
Proof.
  assert (Hm : Gateway.USDC_MINT Examples.cfg <> "") by discriminate.
  assert (Hs : "payer" <> "") by discriminate.
  assert (Hr : Examples.wallet <> "") by discriminate.
  assert (Hg : "sigPaid" <> "") by discriminate.
  split; [reflexivity |].
  destruct (createX402Header_roundtrip ExamplesMore.rt (rtClient := Examples.rt)
              ExamplesMore.stringifyTable (mintText := Gateway.USDC_MINT Examples.cfg)
              (amount := 50000) (sender := "payer") (recipient := Examples.wallet)
              (signature := "sigPaid") eq_refl Hm Hs Hr Hg)
    as (payment & Hp & Ha & _ & _ & Hrec & _).
  exists payment. split; [exact Hp |]. split; [exact Ha | exact Hrec].
Defined.

(** The client's header for the paid transaction is authorized. *)
Lemma client_header_reaches_verification_witness :
  Gateway.header (Examples.request ExamplesMore.clientHeader)
  = Some (Client.createX402Header Examples.rt ExamplesMore.stringifyTable
            (Gateway.USDC_MINT Examples.cfg) 50000 "payer"
            (Gateway.RECIPIENT_WALLET Examples.cfg) "sigPaid")
  /\ Gateway.requirePayment ExamplesMore.rt Examples.cfg Examples.ledger 50000
       (Examples.request ExamplesMore.clientHeader) = Gateway.Authorized.
Proof.
  assert (Hh : Client.createX402Header Examples.rt ExamplesMore.stringifyTable
                 (Gateway.USDC_MINT Examples.cfg) 50000 "payer"
                 (Gateway.RECIPIENT_WALLET Examples.cfg) "sigPaid" <> "")
    by discriminate.
  assert (Hw : Gateway.RECIPIENT_WALLET Examples.cfg <> "") by discriminate.
  assert (Hg : "sigPaid" <> "") by discriminate.
  split; [reflexivity |].
  exact (client_header_reaches_verification ExamplesMore.rt (rtClient := Examples.rt)
           ExamplesMore.stringifyTable Examples.cfg Examples.ledger
           (mintText := Gateway.USDC_MINT Examples.cfg) (requiredAmount := 50000)
           (sender := "payer") (signature := "sigPaid")
           (Examples.request ExamplesMore.clientHeader)
           eq_refl Hh Hw Hg eq_refl eq_refl eq_refl).
Defined.

(** A usable strategy followed by [null]: the static table is returned. *)
Lemma fetchKaminoYields_null_strategy_witness :
  Yield.kamino_get ExamplesMore.kaminoWithNull
  = Ok (Some (JArr [ExamplesMore.numericSymbol; JNull]))
  /\ In JNull (firstn 10 [ExamplesMore.numericSymbol; JNull])
  /\ Yield.fetchKaminoYields Examples.rt ExamplesMore.kaminoWithNull
     = Yield.getMockKaminoYields.
Proof.
  assert (Hin : In JNull (firstn 10 [ExamplesMore.numericSymbol; JNull]))
    by (right; left; reflexivity).
  split; [reflexivity |]. split; [exact Hin |].
  exact (fetchKaminoYields_null_strategy Examples.rt ExamplesMore.kaminoWithNull
           eq_refl Hin).
Defined.

(** With the Kamino API down and five Drift markets at APY 15 the ranking
    descends from 18.5 to 7.85. *)
Lemma getBestYields_descending_witness :
  ClaimedYield.nonIncreasing
    (map Yield.apy
       (Yield.topOpportunities
          (Yield.getBestYields Examples.rt ExamplesYield.kaminoDown false))) = true.
Proof.
  refine (proj1 (proj2 (getBestYields_descending Examples.rt ExamplesYield.kaminoDown
                          false _))).
  repeat constructor.
Defined.

(** A Kamino strategy with a numeric symbol is ranked first, and the
    filter by token throws on it. *)
Lemma getYieldsByToken_spec_witness :
  YieldQueries.getYieldsByToken Examples.rt ExamplesMore.asciiLower
    ExamplesMore.kaminoNumeric "sol" false = Throw.
Proof.
  apply (proj2 (proj1 (getYieldsByToken_spec Examples.rt ExamplesMore.asciiLower
                         ExamplesMore.kaminoNumeric "sol" false))).
  eexists. split; [left; reflexivity | reflexivity].
Defined.

(** A live wallet with 2 SOL and 12.5 USDC: no liquidation risk. *)
Lemma live_score_factors_witness :
  (exists p, Portfolio.getPortfolioAnalytics_try Examples.rt ExamplesMore.up
               Examples.wallet false = Ok p)
  /\ Portfolio.liquidationRisk
       (Portfolio.factors
          (Portfolio.calculateRiskScore Examples.rt ExamplesMore.up Examples.wallet false))
     = 0.
Proof.
  split; [eexists; reflexivity |].
  exact (proj1 (proj1 (proj2 (live_score_factors Examples.rt ExamplesMore.up
                                Examples.wallet eq_refl)) eq_refl)).
Defined.

(** The yield route serves the client's paid request: the header carries
    the proof that the middleware accepted. *)
Lemma no_data_without_payment_witness :
  (exists body,
     Server.bestYieldRoute ExamplesMore.rt Examples.cfg Examples.ledger
       ExamplesYield.allDown ExamplesMore.prices
       (ExamplesMore.request None None None "" (Some ExamplesMore.clientHeader))
     = Server.Success body 50000)
  /\ exists h payment,
       Some ExamplesMore.clientHeader = Some h
       /\ Gateway.parseX402Header ExamplesMore.rt h = Some payment
       /\ Gateway.verifyPayment ExamplesMore.rt Examples.cfg Examples.ledger
            (Gateway.pay_signature payment) 50000
            (Gateway.RECIPIENT_WALLET Examples.cfg) = true.
Proof.
  split; [eexists; reflexivity |].
  destruct (no_data_without_payment ExamplesMore.rt Examples.cfg Examples.ledger
              50000
              (Server.bestYieldHandler ExamplesMore.rt ExamplesYield.allDown
                 ExamplesMore.prices)
              (ExamplesMore.request None None None "" (Some ExamplesMore.clientHeader))
              eq_refl) as [Hmock | (h & payment & Hh & Hp & _ & _ & Hv)].
  - discriminate Hmock.
  - exists h, payment. split; [exact Hh | split; [exact Hp | exact Hv]].
Defined.

(** The portfolio route in test mode on a node that answers: the served
    total is the sum of the served parts. *)
Lemma portfolioRoute_snapshot_witness :
  exists d,
    Server.portfolioRoute Examples.rt Examples.cfg Examples.ledger ExamplesMore.up
      ExamplesMore.prices
      (ExamplesMore.request (Some "true") None None Examples.wallet None)
    = Server.Success (Server.PortfolioBody d) 100000
    /\ Portfolio.totalUsdValue d = ClaimedPortfolio.totalOfParts d.
Proof.
  eexists. split; [reflexivity |].
  destruct (portfolioRoute_snapshot Examples.rt Examples.cfg Examples.ledger
              ExamplesMore.up ExamplesMore.prices
              (ExamplesMore.request (Some "true") None None Examples.wallet None)
              eq_refl) as (pk & Hpk & Hd).
  injection Hpk as <-. exact Hd.
Defined.

(** The yield route in test mode with no header at all. *)
Lemma mock_bypasses_payment_witness :
  Server.query_mock (ExamplesMore.request (Some "true") None None "" None) = Some "true"
  /\ Server.bestYieldRoute Examples.rt Examples.cfg Examples.ledger
       ExamplesYield.allDown ExamplesMore.prices
       (ExamplesMore.request (Some "true") None None "" None)
     = Server.Success (Server.YieldBody (Yield.mockResponse (Date_now Examples.rt)))
         50000.
Proof.
  split; [reflexivity |].
  exact (proj2 (mock_bypasses_payment Examples.rt Examples.cfg Examples.ledger
                  ExamplesYield.allDown ExamplesMore.prices 50000
                  (Server.bestYieldHandler Examples.rt ExamplesYield.allDown
                     ExamplesMore.prices)
                  (ExamplesMore.request (Some "true") None None "" None)
                  eq_refl)).
Defined.
